(** * Agentic honeypot: intelligence extraction and conversation state

    A shallow embedding of [extractor.py] (the pattern catalogue and the
    extraction functions) and of [honeypot.py] (the conversation record, the
    session store, the report callback and the per-turn pipeline), with the
    properties of the specification stated and proved over it.

    Text is a list of characters, each one of the first 256 code points
    (Rocq's [ascii], read as Latin-1).  The character classes [\d], [\s],
    [\w] and the case mapping are Python's on exactly these code points. *)

From Stdlib Require Import Ascii String.
From stdpp Require Import gmap strings list.

Local Open Scope char_scope.
Local Open Scope list_scope.

(** ** Text *)

Abbreviation text := (list ascii).

(** A literal of the source, as text. *)
Definition txt (s : string) : text := list_ascii_of_string s.

Definition code (c : ascii) : nat := nat_of_ascii c.

Definition in_range (lo hi : nat) (c : ascii) : bool :=
  (lo <=? code c)%nat && (code c <=? hi)%nat.

(** Python's [\d] : decimal digits. *)
Definition is_digit (c : ascii) : bool := in_range 48 57 c.

(** Python's [\s] on a [str] pattern: tab to carriage return, the four
    separators 0x1c-0x1f, space, NEL and the no-break space. *)
Definition is_space (c : ascii) : bool :=
  in_range 9 13 c || in_range 28 32 c || in_range 133 133 c || in_range 160 160 c.

(** Python's [\w] : alphanumerics (in the sense of [str.isalnum]) and the
    underscore. *)
Definition is_word (c : ascii) : bool :=
  in_range 48 57 c || in_range 65 90 c || in_range 95 95 c || in_range 97 122 c
  || in_range 170 170 c || in_range 178 179 c || in_range 181 181 c
  || in_range 185 186 c || in_range 188 190 c || in_range 192 214 c
  || in_range 216 246 c || in_range 248 255 c.

(** Upper-case letters: the characters [str.lower] changes. *)
Definition is_upper (c : ascii) : bool :=
  in_range 65 90 c || in_range 192 214 c || in_range 216 222 c.

(** [str.lower] on one character. *)
Definition lower (c : ascii) : ascii :=
  if is_upper c then ascii_of_nat (code c + 32) else c.

(** The upper-case character that [lower] sends to [c], if there is one. *)
Definition unlower (c : ascii) : ascii :=
  if in_range 97 122 c || in_range 224 246 c || in_range 248 254 c
  then ascii_of_nat (code c - 32) else c.

(** [s.lower()] *)
Definition text_lower (s : text) : text := map lower s.

(** ** Regular expressions

    The fragment of Python's [re] syntax that the pattern catalogue uses:
    character sets (a literal is a one-element set), concatenation,
    alternation, greedy bounded repetition of a set, and the word boundary
    [\b].  The matcher is the backtracking one: alternatives are tried left
    to right, a repetition takes as many characters as it can and gives them
    back one at a time. *)

Inductive item :=
| IChar (c : ascii)               (* one character *)
| IRange (lo hi : ascii)          (* lo-hi *)
| IDigit                          (* \d *)
| ISpace.                         (* \s *)

Record cset := CSet { negated : bool; items : list item }.

Inductive regex :=
| Eps
| One (cs : cset)
| Cat (r1 r2 : regex)
| Alt (r1 r2 : regex)
| Rep (cs : cset) (lo : nat) (hi : option nat)
| Bnd.

(** With [re.IGNORECASE] a set is compiled from the lower-cased characters
    and tested on the lower-cased input character. *)
Definition item_match (ic : bool) (it : item) (c : ascii) : bool :=
  match it with
  | IChar x => if ic then bool_decide (lower c = lower x) else bool_decide (c = x)
  | IRange lo hi =>
      if ic then in_range (code lo) (code hi) (lower c)
                 || in_range (code lo) (code hi) (unlower (lower c))
      else in_range (code lo) (code hi) c
  | IDigit => is_digit (if ic then lower c else c)
  | ISpace => is_space (if ic then lower c else c)
  end.

Definition cset_match (ic : bool) (cs : cset) (c : ascii) : bool :=
  xorb (negated cs) (existsb (fun it => item_match ic it c) (items cs)).

Definition word_opt (c : option ascii) : bool :=
  match c with Some x => is_word x | None => false end.

(** [\b] holds between a word character and a non-word character, the two
    ends of the text counting as non-word. *)
Definition boundary (prev : option ascii) (s : text) : bool :=
  xorb (word_opt prev) (word_opt (head s)).

Definition can_take (hi : option nat) : bool :=
  match hi with Some O => false | _ => true end.

Definition dec_hi (hi : option nat) : option nat :=
  match hi with Some n => Some (pred n) | None => None end.

(** The continuation [k] receives the character before the current position
    and the rest of the text; a match returns the text left after it. *)
Fixpoint rep_run (ic : bool) (cs : cset) (lo : nat) (hi : option nat)
    (k : option ascii -> text -> option text)
    (prev : option ascii) (s : text) {struct s} : option text :=
  let stop := match lo with O => k prev s | S _ => None end in
  match s with
  | c :: s' =>
      if cset_match ic cs c && can_take hi then
        match rep_run ic cs (pred lo) (dec_hi hi) k (Some c) s' with
        | Some out => Some out
        | None => stop
        end
      else stop
  | [] => stop
  end.

Fixpoint run (ic : bool) (r : regex) (k : option ascii -> text -> option text)
    (prev : option ascii) (s : text) {struct r} : option text :=
  match r with
  | Eps => k prev s
  | One cs =>
      match s with
      | c :: s' => if cset_match ic cs c then k (Some c) s' else None
      | [] => None
      end
  | Cat r1 r2 => run ic r1 (fun p t => run ic r2 k p t) prev s
  | Alt r1 r2 =>
      match run ic r1 k prev s with
      | Some out => Some out
      | None => run ic r2 k prev s
      end
  | Rep cs lo hi => rep_run ic cs lo hi k prev s
  | Bnd => if boundary prev s then k prev s else None
  end.

(** A match starting at the current position: the text left after it. *)
Definition match_at (ic : bool) (r : regex) (prev : option ascii) (s : text)
  : option text :=
  run ic r (fun _ t => Some t) prev s.

(** [re.findall]: scan left to right, record each match and resume after it.
    [skip] counts the characters of the last match still to be stepped over.
    An empty match is recorded and the scan moves one character on; no
    pattern of the catalogue matches the empty text. *)
Fixpoint findall_from (ic : bool) (r : regex) (prev : option ascii) (s : text)
    (skip : nat) {struct s} : list text :=
  match skip with
  | S n =>
      match s with
      | c :: s' => findall_from ic r (Some c) s' n
      | [] => []
      end
  | O =>
      match match_at ic r prev s with
      | Some rest =>
          let n := (length s - length rest)%nat in
          take n s ::
            match s with
            | c :: s' => findall_from ic r (Some c) s' (pred n)
            | [] => []
            end
      | None =>
          match s with
          | c :: s' => findall_from ic r (Some c) s' 0
          | [] => []
          end
      end
  end.

Definition findall (ic : bool) (r : regex) (s : text) : list text :=
  findall_from ic r None s 0.

(** Building blocks for writing the patterns down. *)
Definition chr (c : ascii) : regex := One (CSet false [IChar c]).

Fixpoint lit_chars (l : list ascii) : regex :=
  match l with
  | [] => Eps
  | [c] => chr c
  | c :: l' => Cat (chr c) (lit_chars l')
  end.

Definition lit (s : string) : regex := lit_chars (txt s).

Fixpoint cat_all (rs : list regex) : regex :=
  match rs with
  | [] => Eps
  | [r] => r
  | r :: rs' => Cat r (cat_all rs')
  end.

Fixpoint alt_all (rs : list regex) : regex :=
  match rs with
  | [] => Eps
  | [r] => r
  | r :: rs' => Alt r (alt_all rs')
  end.

(** [r?] : the group first, the empty match second. *)
Definition opt (r : regex) : regex := Alt r Eps.

Definition plus (cs : cset) : regex := Rep cs 1 None.
Definition at_least (n : nat) (cs : cset) : regex := Rep cs n None.
Definition exactly (n : nat) (cs : cset) : regex := Rep cs n (Some n).
Definition maybe (cs : cset) : regex := Rep cs 0 (Some 1).

(** ** The pattern catalogue (extractor.py) *)

Definition digit_set : cset := CSet false [IDigit].

(** [\b\d{9,18}\b] *)
Definition BANK_ACCOUNT_PATTERN : regex :=
  cat_all [Bnd; Rep digit_set 9 (Some 18); Bnd].

(** [\b[a-zA-Z0-9._-]+@[a-zA-Z]{2,}\b] *)
Definition upi_local_set : cset :=
  CSet false [IRange "a" "z"; IRange "A" "Z"; IRange "0" "9";
              IChar "."; IChar "_"; IChar "-"].
Definition alpha_set : cset := CSet false [IRange "a" "z"; IRange "A" "Z"].
Definition UPI_ID_PATTERN : regex :=
  cat_all [Bnd; plus upi_local_set; chr "@"; at_least 2 alpha_set; Bnd].

(** [(?:\+91[\-\s]?|91[\-\s]?)?[6-9]\d{9}\b] *)
Definition sep_set : cset := CSet false [IChar "-"; ISpace].
Definition PHONE_PATTERN : regex :=
  cat_all [opt (Alt (cat_all [chr "+"; lit "91"; maybe sep_set])
                (cat_all [lit "91"; maybe sep_set]));
       One (CSet false [IRange "6" "9"]);
       exactly 9 digit_set;
       Bnd].

(** [https?://[^\s<>"{}|\\^`\[\]]+|www\.[^\s<>"{}|\\^`\[\]]+] ;
    the double quote is character 34. *)
Definition url_set : cset :=
  CSet true [ISpace; IChar "<"; IChar ">"; IChar "034"; IChar "{"; IChar "}";
             IChar "|"; IChar "\"; IChar "^"; IChar "`"; IChar "["; IChar "]"].
Definition URL_PATTERN : regex :=
  Alt (cat_all [lit "http"; maybe (CSet false [IChar "s"]); lit "://"; plus url_set])
      (cat_all [lit "www"; chr "."; plus url_set]).

(** [\b(?:bit\.ly|tinyurl\.com|goo\.gl|t\.co|is\.gd|buff\.ly|ow\.ly|rebrand\.ly)/[a-zA-Z0-9]+\b] *)
Definition alnum_set : cset :=
  CSet false [IRange "a" "z"; IRange "A" "Z"; IRange "0" "9"].
Definition SHORT_URL_PATTERN : regex :=
  cat_all [Bnd;
       alt_all [lit "bit.ly"; lit "tinyurl.com"; lit "goo.gl"; lit "t.co";
             lit "is.gd"; lit "buff.ly"; lit "ow.ly"; lit "rebrand.ly"];
       chr "/"; plus alnum_set; Bnd].

(** [\b[A-Za-z0-9._%+-]+@[A-Za-z0-9.-]+\.[A-Z|a-z]{2,}\b] *)
Definition email_local_set : cset :=
  CSet false [IRange "A" "Z"; IRange "a" "z"; IRange "0" "9";
              IChar "."; IChar "_"; IChar "%"; IChar "+"; IChar "-"].
Definition email_domain_set : cset :=
  CSet false [IRange "A" "Z"; IRange "a" "z"; IRange "0" "9";
              IChar "."; IChar "-"].
Definition email_tld_set : cset :=
  CSet false [IRange "A" "Z"; IChar "|"; IRange "a" "z"].
Definition EMAIL_PATTERN : regex :=
  cat_all [Bnd; plus email_local_set; chr "@"; plus email_domain_set; chr ".";
       at_least 2 email_tld_set; Bnd].

(** [\b[A-Z]{4}0[A-Z0-9]{6}\b] *)
Definition IFSC_PATTERN : regex :=
  cat_all [Bnd; exactly 4 (CSet false [IRange "A" "Z"]); chr "0";
       exactly 6 (CSet false [IRange "A" "Z"; IRange "0" "9"]); Bnd].


(** ** Python values and sets *)

(** The values [extract_intelligence] may be handed: it tests its argument
    for truth and for being a [str] before it looks at it. *)
Inductive pyval :=
| PyNone
| PyBool (b : bool)
| PyInt (z : Z)
| PyStr (s : text)
| PyOther (truth : bool).        (* any other object, with its truth value *)

(** Python's truth value. *)
Definition truthy (v : pyval) : bool :=
  match v with
  | PyNone => false
  | PyBool b => b
  | PyInt z => negb (z =? 0)%Z
  | PyStr s => negb (bool_decide (s = []))
  | PyOther b => b
  end.

Definition isinstance_str (v : pyval) : bool :=
  match v with PyStr _ => true | _ => false end.

(** The order in which a Python [set] of strings is listed is not fixed by
    the language.  A [SetOrder] is one way of listing: any rearrangement of
    the elements. *)
Record SetOrder := {
  order_of : list text -> list text;
  order_of_perm : forall l, order_of l ≡ₚ l
}.

(** The listing that leaves the distinct elements in the order they come in. *)
Definition plain_order : SetOrder :=
  {| order_of := fun l => l; order_of_perm := fun l => reflexivity l |}.

(** Listing in reverse. *)
Definition last_first : SetOrder :=
  {| order_of := @rev text;
     order_of_perm := fun l => symmetry (Permutation_rev l) |}.

(** [list(set(l))] *)
Definition list_set (o : SetOrder) (l : list text) : list text :=
  order_of o (remove_dups l).

(** [s.split(sep)] for a one-character separator. *)
Fixpoint split_on (sep : ascii) (s : text) : list text :=
  match s with
  | [] => [[]]
  | c :: s' =>
      if bool_decide (c = sep) then [] :: split_on sep s'
      else match split_on sep s' with
           | h :: t => (c :: h) :: t
           | [] => [[c]]
           end
  end.

(** [re.sub(set, '', s)] for a pattern that is a single character set: the
    characters of the set are deleted. *)
Definition sub_delete (cs : cset) (s : text) : text :=
  filter (fun c => cset_match false cs c = false) s.

(** [s.startswith(p)] *)
Fixpoint startswith (s p : text) : bool :=
  match p, s with
  | [], _ => true
  | x :: p', c :: s' => bool_decide (c = x) && startswith s' p'
  | _ :: _, [] => false
  end.

(** A list comprehension whose condition may raise: [None] stands for the
    exception. *)
Fixpoint filter_raising (f : text -> option bool) (l : list text)
  : option (list text) :=
  match l with
  | [] => Some []
  | x :: l' =>
      match f x with
      | None => None
      | Some b =>
          match filter_raising f l' with
          | None => None
          | Some r => Some (if b then x :: r else r)
          end
      end
  end.

(** ** Extraction functions (extractor.py) *)

(** The test [len(match) == 10 and match[0] in '6789']; the index is only
    taken when the length is 10. *)
Definition looks_like_phone (m : text) : bool :=
  (length m =? 10)%nat &&
  match m with
  | c :: _ => bool_decide (c ∈ txt "6789")
  | [] => false
  end.

Definition extract_bank_accounts (o : SetOrder) (t : text) : list text :=
  let matches := findall false BANK_ACCOUNT_PATTERN t in
  let filtered :=
    filter (fun m => looks_like_phone m = false ∧ (length m <? 9)%nat = false)
           matches in
  list_set o filtered.

Definition email_domains : list text :=
  [txt "gmail"; txt "yahoo"; txt "hotmail"; txt "outlook"; txt "proton";
   txt "mail"].

(** [m.split('@')[1].lower() not in email_domains]; the index raises when
    there is no second part. *)
Definition upi_keep (m : text) : option bool :=
  match split_on "@" m !! 1%nat with
  | Some d => Some (negb (bool_decide (text_lower d ∈ email_domains)))
  | None => None
  end.

Definition extract_upi_ids (o : SetOrder) (t : text) : option (list text) :=
  let matches := findall true UPI_ID_PATTERN t in
  match filter_raising upi_keep matches with
  | Some filtered => Some (list_set o filtered)
  | None => None
  end.

(** [[\+\s\-]] *)
Definition phone_noise_set : cset := CSet false [IChar "+"; ISpace; IChar "-"].

Definition normalize_phone (m : text) : option text :=
  let digits := sub_delete phone_noise_set m in
  let digits :=
    if startswith digits (txt "91") && (10 <? length digits)%nat
    then drop 2 digits else digits in
  if (length digits =? 10)%nat then Some digits else None.

Definition extract_phone_numbers (o : SetOrder) (t : text) : list text :=
  let matches := findall false PHONE_PATTERN t in
  let normalized := omap normalize_phone matches in
  list_set o normalized.

Definition extract_urls (o : SetOrder) (t : text) : list text :=
  let urls := findall true URL_PATTERN t in
  let short_urls := findall true SHORT_URL_PATTERN t in
  list_set o (urls ++ short_urls).

Definition extract_emails (o : SetOrder) (t : text) : list text :=
  list_set o (findall true EMAIL_PATTERN t).

Definition extract_ifsc_codes (o : SetOrder) (t : text) : list text :=
  list_set o (findall false IFSC_PATTERN t).

(** The dictionary [extract_intelligence] returns. *)
Record ExtractionResult := {
  bank_accounts : list text;
  upi_ids : list text;
  phone_numbers : list text;
  phishing_links : list text;
  emails : list text;
  ifsc_codes : list text;
  has_intelligence : bool
}.

Definition no_intelligence : ExtractionResult :=
  {| bank_accounts := []; upi_ids := []; phone_numbers := [];
     phishing_links := []; emails := []; ifsc_codes := [];
     has_intelligence := false |}.

(** A list is true when it is not empty. *)
Definition nonempty {A} (l : list A) : bool :=
  match l with [] => false | _ :: _ => true end.

(** [extract_intelligence]; [None] stands for an exception. *)
Definition extract_intelligence (o : SetOrder) (v : pyval)
  : option ExtractionResult :=
  if negb (truthy v) || negb (isinstance_str v) then Some no_intelligence
  else
    match v with
    | PyStr t =>
        let bank := extract_bank_accounts o t in
        match extract_upi_ids o t with
        | None => None
        | Some upi =>
            let phone := extract_phone_numbers o t in
            let links := extract_urls o t in
            let mails := extract_emails o t in
            let ifsc := extract_ifsc_codes o t in
            Some {| bank_accounts := bank; upi_ids := upi;
                    phone_numbers := phone; phishing_links := links;
                    emails := mails; ifsc_codes := ifsc;
                    has_intelligence :=
                      nonempty bank || nonempty upi || nonempty phone
                      || nonempty links || nonempty mails || nonempty ifsc |}
        end
    | _ => Some no_intelligence
    end.

(** ** The conversation record (honeypot.py) *)

Definition SUSPICIOUS_KEYWORDS : list text :=
  [txt "urgent"; txt "verify now"; txt "account blocked"; txt "KYC";
   txt "OTP"; txt "lottery"; txt "winner"; txt "prize"; txt "blocked";
   txt "suspended"; txt "immediately"; txt "verify"; txt "click here";
   txt "link"; txt "expire"].

(** The keys of [PERSONAS]. *)
Definition PERSONAS : list text :=
  [txt "elderly_uncle"; txt "curious_housewife"; txt "naive_student"].

Definition DEFAULT_PERSONA : text := txt "elderly_uncle".

(** One entry of [messages]. *)
Record Message := {
  role : text;
  content : text;
  timestamp : option Z
}.

(** One dictionary of a supplied [conversationHistory]; [None] is an absent
    key.  The value under ["timestamp"] may itself be [None]. *)
Record HistoryItem := {
  h_sender : option text;
  h_text : option text;
  h_timestamp : option (option Z)
}.

(** The dictionary [extracted_intelligence], with its five keys. *)
Record Intelligence := {
  bankAccounts : list text;
  upiIds : list text;
  phoneNumbers : list text;
  phishingLinks : list text;
  suspiciousKeywords : list text
}.

(** [ConversationState].  [persona] holds the key of the persona chosen;
    [created_at], a clock reading that is never read again, is left out. *)
Record ConversationState := {
  session_id : text;
  persona : text;
  messages : list Message;
  extracted_intelligence : Intelligence;
  scam_detected : bool;
  scam_type : option text;
  turn_count : nat;
  callback_sent : bool;
  agent_notes : text
}.

Definition set_messages (m : list Message) (s : ConversationState) :=
  {| session_id := session_id s; persona := persona s; messages := m;
     extracted_intelligence := extracted_intelligence s;
     scam_detected := scam_detected s; scam_type := scam_type s;
     turn_count := turn_count s; callback_sent := callback_sent s;
     agent_notes := agent_notes s |}.

Definition set_intelligence (i : Intelligence) (s : ConversationState) :=
  {| session_id := session_id s; persona := persona s; messages := messages s;
     extracted_intelligence := i;
     scam_detected := scam_detected s; scam_type := scam_type s;
     turn_count := turn_count s; callback_sent := callback_sent s;
     agent_notes := agent_notes s |}.

Definition set_turn_count (n : nat) (s : ConversationState) :=
  {| session_id := session_id s; persona := persona s; messages := messages s;
     extracted_intelligence := extracted_intelligence s;
     scam_detected := scam_detected s; scam_type := scam_type s;
     turn_count := n; callback_sent := callback_sent s;
     agent_notes := agent_notes s |}.

Definition set_scam (d : bool) (ty : option text) (s : ConversationState) :=
  {| session_id := session_id s; persona := persona s; messages := messages s;
     extracted_intelligence := extracted_intelligence s;
     scam_detected := d; scam_type := ty;
     turn_count := turn_count s; callback_sent := callback_sent s;
     agent_notes := agent_notes s |}.

Definition set_callback_sent (b : bool) (s : ConversationState) :=
  {| session_id := session_id s; persona := persona s; messages := messages s;
     extracted_intelligence := extracted_intelligence s;
     scam_detected := scam_detected s; scam_type := scam_type s;
     turn_count := turn_count s; callback_sent := b;
     agent_notes := agent_notes s |}.

(** [ConversationState.__init__] *)
Definition new_state (sid p : text) : ConversationState :=
  {| session_id := sid;
     persona := if bool_decide (p ∈ PERSONAS) then p else DEFAULT_PERSONA;
     messages := [];
     extracted_intelligence :=
       {| bankAccounts := []; upiIds := []; phoneNumbers := [];
          phishingLinks := []; suspiciousKeywords := [] |};
     scam_detected := false;
     scam_type := None;
     turn_count := 0;
     callback_sent := false;
     agent_notes := [] |}.

(** *** Methods: a state monad with exceptions

    A method works on the record in place, so what it has done so far stays
    done when it raises: a computation returns the record together with
    either a value or [None] for an exception. *)

Definition M (A : Type) : Type :=
  ConversationState -> option A * ConversationState.

Definition ret {A} (a : A) : M A := fun s => (Some a, s).

Definition raise {A} : M A := fun s => (None, s).

Definition bind {A B} (m : M A) (f : A -> M B) : M B :=
  fun s => match m s with
           | (Some a, s') => f a s'
           | (None, s') => (None, s')
           end.

Definition modify (f : ConversationState -> ConversationState) : M unit :=
  fun s => (Some tt, f s).

Notation "m1 ;; m2" := (bind m1 (fun _ => m2))
  (at level 100, m2 at level 200, right associativity).

(** [if x not in l: l.append(x)] *)
Definition append_new (l : list text) (x : text) : list text :=
  if bool_decide (x ∈ l) then l else l ++ [x].

(** [for x in new: if x not in l: l.append(x)] *)
Definition merge_into (l new : list text) : list text :=
  foldl append_new l new.

(** [needle in hay] on strings. *)
Fixpoint is_substring (needle hay : text) : bool :=
  startswith hay needle ||
  match hay with
  | [] => false
  | _ :: hay' => is_substring needle hay'
  end.

(** The keywords of the list that occur in the text, case ignored. *)
Definition keywords_in (t : text) : list text :=
  filter (fun kw => is_substring (text_lower kw) (text_lower t) = true)
         SUSPICIOUS_KEYWORDS.

Definition merge_intelligence (intel : ExtractionResult) (t : text)
    (i : Intelligence) : Intelligence :=
  {| bankAccounts := merge_into (bankAccounts i) (bank_accounts intel);
     upiIds := merge_into (upiIds i) (upi_ids intel);
     phoneNumbers := merge_into (phoneNumbers i) (phone_numbers intel);
     phishingLinks := merge_into (phishingLinks i) (phishing_links intel);
     suspiciousKeywords :=
       merge_into (suspiciousKeywords i) (keywords_in t) |}.

(** [_extract_and_merge]: the extraction comes first, so nothing has been
    merged if it raises. *)
Definition _extract_and_merge (o : SetOrder) (t : text) : M unit :=
  fun self =>
    match extract_intelligence o (PyStr t) with
    | None => raise self
    | Some intel =>
        (Some tt,
         set_intelligence
           (merge_intelligence intel t (extracted_intelligence self)) self)
    end.

Definition scammer : text := txt "scammer".

(** [timestamp or now] *)
Definition or_now (ts : option Z) (now : Z) : Z :=
  match ts with
  | Some z => if (z =? 0)%Z then now else z
  | None => now
  end.

(** [add_message]; [now] is the clock reading used when no timestamp is
    given. *)
Definition add_message (o : SetOrder) (r c : text) (ts : option Z) (now : Z)
  : M unit :=
  modify (fun self =>
    set_turn_count (turn_count self + 1)
      (set_messages
         (messages self ++
            [{| role := r; content := c; timestamp := Some (or_now ts now) |}])
         self)) ;;
  if bool_decide (r = scammer) then _extract_and_merge o c else ret tt.

Definition item_sender (msg : HistoryItem) : text :=
  default (txt "unknown") (h_sender msg).

Definition item_text (msg : HistoryItem) : text :=
  default [] (h_text msg).

Definition item_timestamp (msg : HistoryItem) : option Z :=
  default (Some 0%Z) (h_timestamp msg).

(** The loop of [rebuild_from_history]. *)
Fixpoint rebuild_loop (o : SetOrder) (h : list HistoryItem) : M unit :=
  match h with
  | [] => ret tt
  | msg :: h' =>
      modify (fun self =>
        set_messages
          (messages self ++
             [{| role := item_sender msg; content := item_text msg;
                 timestamp := item_timestamp msg |}])
          self) ;;
      (if bool_decide (item_sender msg = scammer)
       then _extract_and_merge o (item_text msg) else ret tt) ;;
      rebuild_loop o h'
  end.

(** [rebuild_from_history] *)
Definition rebuild_from_history (o : SetOrder) (h : list HistoryItem)
  : M unit :=
  modify (set_messages []) ;;
  rebuild_loop o h ;;
  modify (fun self => set_turn_count (length (messages self)) self).

(** [has_valuable_intelligence] *)
Definition has_valuable_intelligence (s : ConversationState) : bool :=
  let i := extracted_intelligence s in
  (0 <? length (bankAccounts i))%nat || (0 <? length (upiIds i))%nat
  || (0 <? length (phishingLinks i))%nat || (0 <? length (phoneNumbers i))%nat.

(** [sep.join(l)] *)
Fixpoint join (sep : text) (l : list text) : text :=
  match l with
  | [] => []
  | [x] => x
  | x :: l' => x ++ sep ++ join sep l'
  end.

(** [generate_agent_notes] *)
Definition generate_agent_notes (s : ConversationState) : text :=
  let i := extracted_intelligence s in
  let notes :=
    (if nonempty (suspiciousKeywords i)
     then [txt "Used urgency tactics: "
             ++ join (txt ", ") (take 5 (suspiciousKeywords i))]
     else [])
    ++ (if nonempty (upiIds i) then [txt "Requested UPI payment"] else [])
    ++ (if nonempty (bankAccounts i)
        then [txt "Provided bank account details"] else [])
    ++ (if nonempty (phishingLinks i)
        then [txt "Shared suspicious links"] else []) in
  if nonempty notes then join (txt ". ") notes
  else txt "Scam conversation detected".

(** ** The session store, the callback and the turn pipeline

    The functions of this part also print log lines.  The definitions leave
    the printing out: they describe the runs in which no printing raises an
    exception that reaches [process_scam_message], and these are the runs
    that answer with the success shape.  The line that [send_guvi_callback]
    prints inside its [try] is taken in with the request: an exception of
    either is caught there (see [post_status]).  The line it prints before
    the request is JSON in which every character beyond ASCII is escaped. *)

(** [_sessions] *)
Abbreviation Sessions := (gmap text ConversationState).

(** [get_or_create_session].  The record returned is the object stored
    under [sid]; the third component is the store after the call. *)
Definition get_or_create_session (o : SetOrder) (sid p : text)
    (conversation_history : option (list HistoryItem)) (_sessions : Sessions)
  : option unit * ConversationState * Sessions :=
  let session :=
    match _sessions !! sid with
    | Some s => s
    | None => new_state sid p
    end in
  let h := default [] conversation_history in
  let '(r, session') :=
    if nonempty h && (length (messages session) <? length h)%nat
    then rebuild_from_history o h session
    else (Some tt, session) in
  (r, session', <[sid := session']> _sessions).

(** The body of the callback request. *)
Record Payload := {
  sessionId : text;
  scamDetected : bool;
  totalMessagesExchanged : nat;
  extractedIntelligence : Intelligence;
  agentNotes : text
}.

(** What the pipeline does to the outside: a call of [detect_scam] and a
    request posted to the callback endpoint. *)
Inductive event :=
| DetectCall (message : text)
| CallbackPost (payload : Payload).

(** What [detect_scam] returns. *)
Record Verdict := {
  is_scam : bool;
  confidence : nat;
  reason : text
}.

(** What the outside supplies during one turn: two clock readings, the
    verdict [detect_scam] reaches for a message that is not blank, the text
    the language model produces ([None] when there is no client or the call
    fails) and the status code of the callback response ([None] when the
    request, or the printing of the response that follows it in the same
    [try], raises). *)
Record World := {
  now_in : Z;
  now_out : Z;
  verdict : Verdict;
  generated : option text;
  post_status : option nat
}.

(** [s.strip()] *)
Fixpoint lstrip (s : text) : text :=
  match s with
  | c :: s' => if is_space c then lstrip s' else s
  | [] => []
  end.

Definition strip (s : text) : text := rev (lstrip (rev (lstrip s))).

(** [detect_scam] (detector.py): a blank message is answered without the
    model. *)
Definition detect_scam (w : World) (message : text) : Verdict :=
  if bool_decide (message = []) || bool_decide (strip message = [])
  then {| is_scam := false; confidence := 0;
          reason := txt "Empty or invalid message" |}
  else verdict w.

Definition fallbacks : list text :=
  [txt "Ji ji, please tell me more about this. How do I proceed?";
   txt "Okay beta, but how will I receive the money? What details you need?";
   txt "This sounds interesting. Where should I send the payment?";
   txt "I am interested, but first tell me your bank details for verification.";
   txt "My husband is asking - please share your UPI ID so we can verify.";
   txt "Haan ji, I understand. What is the account number I should note down?";
   txt "Beta, is this genuine? Please share your contact number also.";
   txt "Ok ji, I will do the needful. Just tell me where to pay."].

(** [_get_fallback_response] *)
Definition _get_fallback_response (session : ConversationState) : text :=
  default [] (fallbacks !! (turn_count session mod length fallbacks)%nat).

(** [generate_contextual_response] *)
Definition generate_contextual_response (w : World)
    (session : ConversationState) : text :=
  match generated w with
  | Some t => strip t
  | None => _get_fallback_response session
  end.

(** [send_guvi_callback]: the value returned, the requests posted and the
    record afterwards. *)
Definition send_guvi_callback (response : option nat)
    (session : ConversationState) : bool * list event * ConversationState :=
  if callback_sent session then (true, [], session)
  else
    let payload :=
      {| sessionId := session_id session;
         scamDetected := scam_detected session;
         totalMessagesExchanged := turn_count session;
         extractedIntelligence := extracted_intelligence session;
         agentNotes := generate_agent_notes session |} in
    match response with
    | Some status_code =>
        if (status_code =? 200)%nat
        then (true, [CallbackPost payload], set_callback_sent true session)
        else (false, [CallbackPost payload], session)
    | None => (false, [CallbackPost payload], session)
    end.

(** What [process_scam_message] returns. *)
Inductive Response :=
| Success (reply : text)
| Error (message : text).

(** The only exception these definitions carry is the index error of
    [upi_keep]. *)
Definition index_error : text := txt "list index out of range".

(** The last step of a turn: the callback is sent when a scam has been
    detected and there is valuable intelligence. *)
Definition report_gate (response : option nat) (session : ConversationState)
  : list event * ConversationState :=
  if scam_detected session && has_valuable_intelligence session
  then let '(_, evs, session') := send_guvi_callback response session in
       (evs, session')
  else ([], session).

(** The classification step of a turn: [detect_scam] is called when no scam
    has been detected yet. *)
Definition classify_step (w : World) (message : text)
    (session : ConversationState) : list event * ConversationState :=
  if negb (scam_detected session) then
    let scam_result := detect_scam w message in
    ([DetectCall message],
     set_scam (is_scam scam_result) (Some (reason scam_result)) session)
  else ([], session).

(** The part of [process_scam_message] after the session has been found. *)
Definition turn (o : SetOrder) (w : World) (message : text)
    (session : ConversationState)
  : Response * list event * ConversationState :=
  match add_message o scammer message None (now_in w) session with
  | (None, s1) => (Error index_error, [], s1)
  | (Some _, s1) =>
      let '(ev1, s2) := classify_step w message s1 in
      let reply := generate_contextual_response w s2 in
      match add_message o (txt "user") reply None (now_out w) s2 with
      | (None, s3) => (Error index_error, ev1, s3)
      | (Some _, s3) =>
          let '(ev2, s4) := report_gate (post_status w) s3 in
          (Success reply, ev1 ++ ev2, s4)
      end
  end.

(** [process_scam_message]: the store afterwards, the answer and the
    events of the turn. *)
Definition process_scam_message (o : SetOrder) (w : World)
    (message sid : text) (conversation_history : option (list HistoryItem))
    (p : text) (_sessions : Sessions)
  : Sessions * Response * list event :=
  match get_or_create_session o sid p
          (Some (default [] conversation_history)) _sessions with
  | (None, _, st) => (st, Error index_error, [])
  | (Some _, session, st) =>
      let '(resp, evs, session') := turn o w message session in
      (<[sid := session']> st, resp, evs)
  end.

(** ** Vocabulary of the properties *)

(** The kinds of finding. *)
Inductive Kind :=
| BankAccount | UpiId | PhoneNumber | Url | Email | RoutingCode | Keyword.

(** The entry of the extraction dictionary for a kind; the dictionary has
    no entry for keywords. *)
Definition findings (r : ExtractionResult) (k : Kind) : list text :=
  match k with
  | BankAccount => bank_accounts r
  | UpiId => upi_ids r
  | PhoneNumber => phone_numbers r
  | Url => phishing_links r
  | Email => emails r
  | RoutingCode => ifsc_codes r
  | Keyword => []
  end.

(** The text after the first [@]. *)
Fixpoint after_at (v : text) : text :=
  match v with
  | [] => []
  | c :: v' => if bool_decide (c = "@") then v' else after_at v'
  end.

(** Three tests that tell the kinds apart. *)
Definition head_is_digit (v : text) : bool :=
  match v with c :: _ => is_digit c | [] => false end.

Definition has_at (v : text) : bool := bool_decide ("@" ∈ v).

Definition dot_after_at (v : text) : bool := bool_decide ("." ∈ after_at v).

(** A fourth one, for links: a slash or a dot. *)
Definition has_mark (v : text) : bool := bool_decide ("/" ∈ v \/ "." ∈ v).

(** All the characters. *)
Definition all_ascii : list ascii := map ascii_of_nat (seq 0 256).

(** [lang ic r w]: the word [w] has the shape the pattern [r] describes,
    the word boundaries left aside. *)
Fixpoint lang (ic : bool) (r : regex) (w : text) : Prop :=
  match r with
  | Eps => w = []
  | One cs => exists c, w = [c] /\ cset_match ic cs c = true
  | Cat r1 r2 => exists w1 w2, w = w1 ++ w2 /\ lang ic r1 w1 /\ lang ic r2 w2
  | Alt r1 r2 => lang ic r1 w \/ lang ic r2 w
  | Rep cs lo hi =>
      Forall (fun c => cset_match ic cs c = true) w /\ (lo <= length w)%nat /\
      match hi with Some h => (length w <= h)%nat | None => True end
  | Bnd => w = []
  end.

(** A lower bound on the length of what a pattern matches. *)
Fixpoint min_len (r : regex) : nat :=
  match r with
  | Eps => 0
  | One _ => 1
  | Cat r1 r2 => min_len r1 + min_len r2
  | Alt r1 r2 => min_len r1 `min` min_len r2
  | Rep _ lo _ => lo
  | Bnd => 0
  end.

(** The patterns of the catalogue, each with its flag. *)
Definition catalogue : list (bool * regex) :=
  [(false, BANK_ACCOUNT_PATTERN); (true, UPI_ID_PATTERN);
   (false, PHONE_PATTERN); (true, URL_PATTERN); (true, SHORT_URL_PATTERN);
   (true, EMAIL_PATTERN); (false, IFSC_PATTERN)].

(** One incoming turn: what the outside supplies and what the caller
    passes. *)
Record Call := {
  world : World;
  msg : text;
  history : option (list HistoryItem);
  persona_key : text
}.

Definition process_call (o : SetOrder) (sid : text) (c : Call)
    (st : Sessions) : Sessions * Response * list event :=
  process_scam_message o (world c) (msg c) sid (history c) (persona_key c) st.

(** A sequence of turns of one session: the store at the end and all the
    events, in order. *)
Fixpoint run_calls (o : SetOrder) (sid : text) (calls : list Call)
    (st : Sessions) : Sessions * list event :=
  match calls with
  | [] => (st, [])
  | c :: calls' =>
      let '(st1, _, evs) := process_call o sid c st in
      let '(st2, evs') := run_calls o sid calls' st1 in
      (st2, evs ++ evs')
  end.

(** The two methods that change the messages and the intelligence of a
    record. *)
Inductive op :=
| AddMessage (r c : text) (ts : option Z) (now : Z)
| Rebuild (h : list HistoryItem).

(** The record a method leaves behind. *)
Definition exec (m : M unit) (s : ConversationState) : ConversationState :=
  (m s).2.

Definition run_op (o : SetOrder) (s : ConversationState) (x : op)
  : ConversationState :=
  match x with
  | AddMessage r c ts now => exec (add_message o r c ts now) s
  | Rebuild h => exec (rebuild_from_history o h) s
  end.

Definition run_ops (o : SetOrder) (ops : list op) (s : ConversationState)
  : ConversationState :=
  foldl (run_op o) s ops.

(** The texts of the scammer's turns in a supplied history. *)
Definition scammer_texts (h : list HistoryItem) : list text :=
  map item_text (filter (fun msg => item_sender msg = scammer) h).

(** The scammer's texts a sequence of method calls has gone through, in
    order. *)
Definition processed (ops : list op) : list text :=
  flat_map (fun x =>
    match x with
    | AddMessage r c _ _ => if bool_decide (r = scammer) then [c] else []
    | Rebuild h => scammer_texts h
    end) ops.

(** The message [rebuild_from_history] stores for an item. *)
Definition message_of_item (msg : HistoryItem) : Message :=
  {| role := item_sender msg; content := item_text msg;
     timestamp := item_timestamp msg |}.

(** The dictionary extracted from a text. *)
Definition extraction (o : SetOrder) (t : text) : ExtractionResult :=
  default no_intelligence (extract_intelligence o (PyStr t)).

(** What one scammer turn yields under a kind: the entry of the extraction
    dictionary, and for keywords the keywords found in the text. *)
Definition turn_findings (o : SetOrder) (t : text) (k : Kind) : list text :=
  match k with
  | Keyword => keywords_in t
  | _ => findings (extraction o t) k
  end.

(** What the intelligence dictionary of a record holds under a kind; it has
    no list for e-mail addresses and none for routing codes. *)
Definition held_in (i : Intelligence) (k : Kind) : list text :=
  match k with
  | BankAccount => bankAccounts i
  | UpiId => upiIds i
  | PhoneNumber => phoneNumbers i
  | Url => phishingLinks i
  | Keyword => suspiciousKeywords i
  | Email => []
  | RoutingCode => []
  end.

Definition held (s : ConversationState) (k : Kind) : list text :=
  held_in (extracted_intelligence s) k.

(** The kinds a record has a list for. *)
Definition recorded (k : Kind) : bool :=
  match k with
  | Email | RoutingCode => false
  | _ => true
  end.

(** Merging the findings of several texts, one after the other. *)
Definition merge_texts (o : SetOrder) (i : Intelligence) (ts : list text)
  : Intelligence :=
  foldl (fun i t => merge_intelligence (extraction o t) t i) i ts.

(** The messages given to [detect_scam] and the payloads posted to the
    callback endpoint, among the events. *)
Definition detect_calls (evs : list event) : list text :=
  omap (fun e => match e with DetectCall m => Some m | _ => None end) evs.

Definition callback_posts (evs : list event) : list Payload :=
  omap (fun e => match e with CallbackPost q => Some q | _ => None end) evs.

(** The record of a session on arrival of a turn: the stored one, or a new
    one. *)
Definition session_or_new (st : Sessions) (sid p : text) : ConversationState :=
  match st !! sid with
  | Some s => s
  | None => new_state sid p
  end.

(** ** More of the code *)

(** [self.messages[-n:]] *)
Definition last_n {A} (n : nat) (l : list A) : list A :=
  drop (length l - n) l.

(** One line of the conversation context. *)
Definition context_line (m : Message) : text :=
  (if bool_decide (role m = scammer) then txt "Scammer" else txt "You")
  ++ txt ": " ++ content m.

(** [get_full_conversation_context] (honeypot.py); the line feed is
    character 10. *)
Definition get_full_conversation_context (s : ConversationState) : text :=
  if negb (nonempty (messages s)) then txt "No previous conversation."
  else join ["010"] (map context_line (last_n 15 (messages s))).

(** *** detector.py *)

Module Detector.

(** A float: a finite one is [m * 2^e]. *)
Inductive pyfloat :=
| Finite (m e : Z)
| NaN
| Infinite.

(** A value [json.loads] may put under a key; of a list or an object only
    the truth value matters here. *)
Inductive json :=
| JNull
| JBool (b : bool)
| JInt (z : Z)
| JFloat (f : pyfloat)
| JStr (s : text)
| JCompound (truth : bool).

(** [bool(v)] *)
Definition truth (v : json) : bool :=
  match v with
  | JNull => false
  | JBool b => b
  | JInt z => negb (z =? 0)%Z
  | JFloat (Finite m _) => negb (m =? 0)%Z
  | JFloat _ => true
  | JStr s => nonempty s
  | JCompound b => b
  end.

(** What [int(v)] does. *)
Inductive int_result :=
| IntOk (z : Z)
| TypeOrValueError
| OverflowError.

(** A finite float cut off towards zero. *)
Definition truncate (m e : Z) : Z :=
  if (0 <=? e)%Z then (m * 2 ^ e)%Z else Z.quot m (2 ^ (- e)).

Section Validate.

(** [int(s)] on a string: the number read, or [None] for [ValueError]. *)
Variable int_of_text : text -> option Z.

(** [int(v)] *)
Definition py_int (v : json) : int_result :=
  match v with
  | JNull => TypeOrValueError
  | JBool b => IntOk (if b then 1 else 0)
  | JInt z => IntOk z
  | JFloat (Finite m e) => IntOk (truncate m e)
  | JFloat NaN => TypeOrValueError
  | JFloat Infinite => OverflowError
  | JStr s =>
      match int_of_text s with
      | Some z => IntOk z
      | None => TypeOrValueError
      end
  | JCompound _ => TypeOrValueError
  end.

Definition truthy_strings : list text := [txt "true"; txt "yes"; txt "1"].

Definition no_reason : text := txt "No reason provided".

(** [validate_scam_response]; [None] stands for the [OverflowError] that
    [int] raises on an infinite float, which the function does not catch. *)
Definition validate_scam_response (data : gmap text json) : option Verdict :=
  let is_scam_normalized :=
    match data !! txt "is_scam" with
    | Some (JBool b) => b
    | Some (JStr s) => bool_decide (text_lower s ∈ truthy_strings)
    | Some v => truth v
    | None => false
    end in
  let confidence := default (JInt 0) (data !! txt "confidence") in
  let reason :=
    match data !! txt "reason" with
    | Some (JStr s) => if bool_decide (strip s = []) then no_reason else s
    | Some _ => no_reason
    | None => no_reason
    end in
  match py_int confidence with
  | OverflowError => None
  | r =>
      let confidence_normalized :=
        match r with
        | IntOk z => Z.to_nat (0 `max` (100 `min` z))
        | _ => 0%nat
        end in
      Some {| is_scam := is_scam_normalized;
              confidence := confidence_normalized;
              reason := strip reason |}
  end.

(** The exceptions [detect_scam] tells apart. *)
Inductive exn_kind :=
| JSONDecodeError
| ValueError
| OtherException.

(** What the call of the language model gives: an exception with its
    message, or a response with its text, which may be missing. *)
Inductive model_reply :=
| ModelRaised (kind : exn_kind) (message : text)
| ModelText (raw_text : option text).

Variable generate_content : text -> model_reply.

(** [extract_json_safe]: the object found, or the message of the
    [ValueError] raised. *)
Variable extract_json_safe : text -> gmap text json + text.

Definition failed (why : text) : Verdict :=
  {| is_scam := false; confidence := 0; reason := why |}.

(** [detect_scam]; the prompt is the message here. *)
Definition detect_scam (message : text) : Verdict :=
  if bool_decide (message = []) || bool_decide (strip message = [])
  then failed (txt "Empty or invalid message")
  else
    match generate_content message with
    | ModelRaised JSONDecodeError e =>
        failed (txt "JSON parsing error: " ++ take 50 e)
    | ModelRaised ValueError e =>
        failed (txt "Response format error: " ++ take 50 e)
    | ModelRaised OtherException e =>
        failed (txt "Detection failed: "
                ++ (if nonempty e then take 100 e else txt "Unknown error"))
    | ModelText raw_text =>
        if negb (nonempty (default [] raw_text))
        then failed (txt "Empty response from model")
        else
          match extract_json_safe (default [] raw_text) with
          | inr e => failed (txt "Response format error: " ++ take 50 e)
          | inl parsed_data =>
              match validate_scam_response parsed_data with
              | Some validated_result => validated_result
              | None =>
                  failed (txt "Detection failed: "
                          ++ txt "cannot convert float infinity to integer")
              end
          end
    end.

End Validate.

End Detector.

(** *** main.py *)

Record MessagePayload := {
  payload_sender : text;
  payload_text : text;
  payload_timestamp : option Z
}.

Record ConversationHistoryItem := {
  item_sender_field : text;
  item_text_field : text;
  item_timestamp_field : option Z
}.

Record AnalyzeRequest := {
  request_sessionId : text;
  request_message : MessagePayload;
  request_conversationHistory : option (list ConversationHistoryItem)
}.

(** The dictionary made of a history item: all three keys are there. *)
Definition history_dict (item : ConversationHistoryItem) : HistoryItem :=
  {| h_sender := Some (item_sender_field item);
     h_text := Some (item_text_field item);
     h_timestamp := Some (item_timestamp_field item) |}.

(** What printing does during a run of [analyze_message]: a field is
    [None] when its lines are printed, and the message of the exception when
    printing raises, as it does when the standard output cannot encode the
    text.  [request_lines] are the three lines printed before the message is
    processed, [response_line] the line printed after it, [error_line] the
    line of the [except] clause. *)
Record Stdout := {
  request_lines : option text;
  response_line : option text;
  error_line : option text
}.

(** What the caller of [analyze_message] gets: a response, or the exception
    that leaves the function. *)
Inductive Answer :=
| Returned (r : Response)
| Raised (message : text).

(** The [except] clause of [analyze_message]: the error is printed, then
    returned in the error shape. *)
Definition handler (out : Stdout) (e : text) : Answer :=
  match error_line out with
  | Some e' => Raised e'
  | None => Returned (Error e)
  end.

(** [analyze_message]: the store afterwards, the answer and the events.  The
    metadata is passed on and never read. *)
Definition analyze_message (o : SetOrder) (w : World) (out : Stdout)
    (request : AnalyzeRequest) (st : Sessions)
  : Sessions * Answer * list event :=
  match request_lines out with
  | Some e => (st, handler out e, [])
  | None =>
      let history_dicts :=
        map history_dict (default [] (request_conversationHistory request)) in
      let '(st', result, evs) :=
        process_scam_message o w (payload_text (request_message request))
          (request_sessionId request) (Some history_dicts) DEFAULT_PERSONA
          st in
      match response_line out with
      | Some e => (st', handler out e, evs)
      | None =>
          match result with
          | Success reply => (st', Returned (Success reply), evs)
          | Error message => (st', Returned (Error message), evs)
          end
      end
  end.

(** *** Vocabulary of the further properties *)

Definition is_ascii_upper (c : ascii) : bool := in_range 65 90 c.

Definition is_ascii_letter (c : ascii) : bool :=
  in_range 65 90 c || in_range 97 122 c.

(** The ways a link starts, in lower case. *)
Definition link_starts : list text :=
  [txt "http://"; txt "https://"; txt "www."; txt "bit.ly/";
   txt "tinyurl.com/"; txt "goo.gl/"; txt "t.co/"; txt "is.gd/";
   txt "buff.ly/"; txt "ow.ly/"; txt "rebrand.ly/"].

(** How often a character occurs. *)
Definition occurrences (x : ascii) (v : text) : nat :=
  length (filter (fun c => c = x) v).

(** Whether [get_or_create_session] rebuilds the record: a history is
    supplied and it is longer than the messages of the record. *)
Definition rebuilds (st : Sessions) (sid p : text)
    (h : option (list HistoryItem)) : bool :=
  nonempty (default [] h)
  && (length (messages (session_or_new st sid p)) <? length (default [] h))%nat.

(** Every record of the store is under its own session id. *)
Definition keyed (st : Sessions) : Prop :=
  forall k s, st !! k = Some s -> session_id s = k.

(** * Properties *)

(** ** The matcher only returns words of the pattern *)

Section Matcher.

Variable ic : bool.

Lemma rep_run_sound cs k s : forall lo hi prev out,
  rep_run ic cs lo hi k prev s = Some out ->
  exists w t p, s = w ++ t /\ lang ic (Rep cs lo hi) w /\ k p t = Some out.
Proof.
  induction s as [|c s' IH]; intros lo hi prev out H; simpl in H.
  - destruct lo; [|discriminate].
    exists [], [], prev. repeat split; simpl; auto.
    destruct hi; [lia|done].
  - assert (Hstop : match lo with O => k prev (c :: s') | S _ => None end = Some out ->
              exists w t p, c :: s' = w ++ t /\ lang ic (Rep cs lo hi) w /\ k p t = Some out).
    { destruct lo; [|discriminate]. intros Hk.
      exists [], (c :: s'), prev. repeat split; simpl; auto.
      destruct hi; [lia|done]. }
    destruct (cset_match ic cs c) eqn:Hc; simpl in H; [|auto].
    destruct (can_take hi) eqn:Hhi; [|auto].
    destruct (rep_run ic cs (pred lo) (dec_hi hi) k (Some c) s') as [out'|] eqn:Hr; [|auto].
    injection H as ->.
    destruct (IH _ _ _ _ Hr) as (w & t & p & -> & (Hall & Hlo & Hh) & Hk).
    exists (c :: w), t, p. repeat split; simpl; auto.
    + lia.
    + destruct hi as [[|h]|]; simpl in *; try done. lia.
Qed.

Lemma run_sound r : forall k prev s out,
  run ic r k prev s = Some out ->
  exists w t p, s = w ++ t /\ lang ic r w /\ k p t = Some out.
Proof.
  induction r as [|cs|r1 IH1 r2 IH2|r1 IH1 r2 IH2|cs lo hi|];
    intros k prev s out H; simpl in H.
  - exists [], s, prev. simpl. auto.
  - destruct s as [|c s']; [discriminate|].
    destruct (cset_match ic cs c) eqn:Hc; [|discriminate].
    exists [c], s', (Some c). simpl. eauto.
  - destruct (IH1 _ _ _ _ H) as (w1 & t1 & p1 & -> & L1 & H1).
    simpl in H1. apply IH2 in H1 as (w2 & t2 & p2 & -> & L2 & H2).
    exists (w1 ++ w2), t2, p2. rewrite <- app_assoc. simpl. eauto 10.
  - destruct (run ic r1 k prev s) as [out'|] eqn:Hr.
    + injection H as ->.
      destruct (IH1 _ _ _ _ Hr) as (w & t & p & -> & L & Hk).
      exists w, t, p. simpl. auto.
    + destruct (IH2 _ _ _ _ H) as (w & t & p & -> & L & Hk).
      exists w, t, p. simpl. auto.
  - by eapply rep_run_sound.
  - destruct (boundary prev s); [|discriminate].
    exists [], s, prev. simpl. auto.
Qed.

Lemma match_at_sound r prev s rest :
  match_at ic r prev s = Some rest ->
  exists w, s = w ++ rest /\ lang ic r w.
Proof.
  unfold match_at. intros H.
  destruct (run_sound _ _ _ _ _ H) as (w & t & p & -> & L & Hk).
  injection Hk as ->. eauto.
Qed.

Lemma findall_from_sound r s : forall prev skip x,
  x ∈ findall_from ic r prev s skip -> lang ic r x.
Proof.
  induction s as [|c s' IH]; intros prev skip x Hx; simpl in Hx.
  - destruct skip; [|by apply elem_of_nil in Hx].
    destruct (match_at ic r prev []) as [rest|] eqn:Hm;
      [|by apply elem_of_nil in Hx].
    apply match_at_sound in Hm as (w & Hw & L).
    symmetry in Hw. apply app_eq_nil in Hw as [-> ->].
    simpl in Hx. apply list_elem_of_singleton in Hx as ->. done.
  - destruct skip as [|n]; [|by eapply IH].
    destruct (match_at ic r prev (c :: s')) as [rest|] eqn:Hm; [|by eapply IH].
    apply elem_of_cons in Hx as [->|Hx]; [|by eapply IH].
    apply match_at_sound in Hm as (w & Hw & L).
    change (S (length s')) with (length (c :: s')).
    rewrite Hw, length_app, Nat.add_sub, take_app_length. done.
Qed.

Lemma findall_sound r s x : x ∈ findall ic r s -> lang ic r x.
Proof. apply findall_from_sound. Qed.

Lemma lang_min_len r : forall w, lang ic r w -> (min_len r <= length w)%nat.
Proof.
  induction r as [|cs|r1 IH1 r2 IH2|r1 IH1 r2 IH2|cs lo hi|]; intros w; simpl.
  - lia.
  - intros (c & -> & _). simpl. lia.
  - intros (w1 & w2 & -> & H1%IH1 & H2%IH2). rewrite length_app. lia.
  - intros [H%IH1|H%IH2]; lia.
  - intros (_ & H & _). done.
  - lia.
Qed.

(** A pattern that needs at least one character yields no empty match, so
    the scan of [findall_from] never meets the empty-match case. *)
Lemma findall_nonempty r s x :
  (1 <= min_len r)%nat -> x ∈ findall ic r s -> x <> [].
Proof.
  intros Hmin Hx%findall_sound%lang_min_len ->. simpl in Hx. lia.
Qed.

End Matcher.

Lemma catalogue_needs_a_character :
  Forall (fun p => (1 <= min_len p.2)%nat) catalogue.
Proof. repeat constructor; vm_compute; lia. Qed.

(** ** Facts about characters, checked on all 256 of them *)

Lemma ascii_all (P : ascii -> bool) :
  forallb P all_ascii = true -> forall c, P c = true.
Proof.
  intros H c. rewrite forallb_forall in H. apply H.
  rewrite <- (ascii_nat_embedding c). apply in_map, in_seq.
  pose proof (nat_ascii_bounded c). lia.
Qed.

Lemma ascii_implies (A B : ascii -> bool) :
  forallb (fun c => implb (A c) (B c)) all_ascii = true ->
  forall c, A c = true -> B c = true.
Proof.
  intros H c Ha. pose proof (ascii_all _ H c) as Hc. simpl in Hc.
  rewrite Ha in Hc. exact Hc.
Qed.

(** Settles a goal [B c = true] from [H : A c = true] by running through
    the characters. *)
Ltac check_all_characters c H :=
  revert c H; apply ascii_implies; vm_compute; reflexivity.

(** The literal [@] matches only itself, also when case is ignored. *)
Lemma at_char_ic c :
  cset_match true (CSet false [IChar "@"]) c = true -> c = "@".
Proof.
  intros H. cut (bool_decide (c = "@") = true).
  { apply bool_decide_eq_true_1. }
  check_all_characters c H.
Qed.

Lemma dot_char_ic c :
  cset_match true (CSet false [IChar "."]) c = true -> c = ".".
Proof.
  intros H. cut (bool_decide (c = ".") = true).
  { apply bool_decide_eq_true_1. }
  check_all_characters c H.
Qed.

Lemma upi_local_no_at c :
  cset_match true upi_local_set c = true -> c <> "@".
Proof.
  intros H. cut (negb (bool_decide (c = "@")) = true).
  { rewrite negb_true_iff. apply bool_decide_eq_false_1. }
  check_all_characters c H.
Qed.

Lemma email_local_no_at c :
  cset_match true email_local_set c = true -> c <> "@".
Proof.
  intros H. cut (negb (bool_decide (c = "@")) = true).
  { rewrite negb_true_iff. apply bool_decide_eq_false_1. }
  check_all_characters c H.
Qed.

Lemma alpha_plain c :
  cset_match true alpha_set c = true -> c <> "@" /\ c <> ".".
Proof.
  intros H.
  cut (negb (bool_decide (c = "@")) && negb (bool_decide (c = ".")) = true).
  { rewrite andb_true_iff, !negb_true_iff.
    intros [?%bool_decide_eq_false_1 ?%bool_decide_eq_false_1]. done. }
  check_all_characters c H.
Qed.

Lemma digit_plain c :
  cset_match false digit_set c = true ->
  is_digit c = true /\ c <> "@" /\ cset_match false phone_noise_set c = false.
Proof.
  intros H.
  cut (is_digit c && negb (bool_decide (c = "@"))
       && negb (cset_match false phone_noise_set c) = true).
  { rewrite !andb_true_iff, !negb_true_iff.
    intros [[? ?%bool_decide_eq_false_1] ?]. done. }
  check_all_characters c H.
Qed.

Lemma sep_is_noise c :
  cset_match false sep_set c = true ->
  cset_match false phone_noise_set c = true.
Proof. intros H. check_all_characters c H. Qed.

Lemma six_to_nine c :
  cset_match false (CSet false [IRange "6" "9"]) c = true ->
  c ∈ txt "6789" /\ cset_match false digit_set c = true.
Proof.
  intros H.
  cut (bool_decide (c ∈ txt "6789") && cset_match false digit_set c = true).
  { rewrite andb_true_iff. intros [?%bool_decide_eq_true_1 ?]. done. }
  check_all_characters c H.
Qed.

Lemma upper_not_digit c :
  cset_match false (CSet false [IRange "A" "Z"]) c = true ->
  is_digit c = false /\ c <> "@".
Proof.
  intros H.
  cut (negb (is_digit c) && negb (bool_decide (c = "@")) = true).
  { rewrite andb_true_iff, !negb_true_iff.
    intros [? ?%bool_decide_eq_false_1]. done. }
  check_all_characters c H.
Qed.

Lemma upper_digit_no_at c :
  cset_match false (CSet false [IRange "A" "Z"; IRange "0" "9"]) c = true ->
  c <> "@".
Proof.
  intros H. cut (negb (bool_decide (c = "@")) = true).
  { rewrite negb_true_iff. apply bool_decide_eq_false_1. }
  check_all_characters c H.
Qed.

Lemma plain_char c x :
  cset_match false (CSet false [IChar x]) c = true -> c = x.
Proof.
  unfold cset_match. simpl. rewrite orb_false_r.
  apply bool_decide_eq_true_1.
Qed.

(** ** Listing a set *)

Lemma elem_of_list_set o l x : x ∈ list_set o l <-> x ∈ l.
Proof.
  unfold list_set. rewrite (order_of_perm o (remove_dups l)).
  apply elem_of_remove_dups.
Qed.

Lemma NoDup_list_set o l : NoDup (list_set o l).
Proof.
  unfold list_set. rewrite (order_of_perm o (remove_dups l)).
  apply NoDup_remove_dups.
Qed.

Lemma nonempty_elem {A} (l : list A) : nonempty l = true <-> exists x, x ∈ l.
Proof.
  destruct l as [|a l]; simpl; split; try done.
  - intros [x Hx]. by apply elem_of_nil in Hx.
  - intros _. exists a. left.
Qed.

Lemma nonempty_same {A} (l1 l2 : list A) :
  (forall x, x ∈ l1 <-> x ∈ l2) -> nonempty l1 = nonempty l2.
Proof.
  intros H. apply eq_true_iff_eq. rewrite !nonempty_elem.
  split; intros [x Hx]; exists x; by apply H.
Qed.

Lemma filter_raising_subset f l r x :
  filter_raising f l = Some r -> x ∈ r -> x ∈ l.
Proof.
  revert r. induction l as [|a l IH]; intros r H Hx; simpl in H.
  - injection H as <-. done.
  - destruct (f a) as [b|]; [|discriminate].
    destruct (filter_raising f l) as [r'|]; [|discriminate].
    injection H as <-. destruct b.
    + apply elem_of_cons in Hx as [->|Hx]; [left|right; eauto].
    + right. eauto.
Qed.

Lemma filter_raising_total f l :
  (forall x, x ∈ l -> is_Some (f x)) -> is_Some (filter_raising f l).
Proof.
  induction l as [|a l IH]; intros H; simpl; [eauto|].
  destruct (H a) as [b ->]; [left|].
  destruct IH as [r ->]; [|eauto].
  intros x Hx. apply H. by right.
Qed.

(** ** Splitting at a character *)

Lemma split_on_nonempty sep s : exists h t, split_on sep s = h :: t.
Proof.
  induction s as [|c s IH]; simpl; [eauto|].
  case_bool_decide; [eauto|].
  destruct IH as (h & t & ->). eauto.
Qed.

Lemma split_on_second sep s : sep ∈ s -> is_Some (split_on sep s !! 1%nat).
Proof.
  induction s as [|c s IH]; intros H; [by apply elem_of_nil in H|].
  simpl. case_bool_decide as Hc.
  - destruct (split_on_nonempty sep s) as (h & t & ->). simpl. eauto.
  - apply elem_of_cons in H as [->|H]; [done|].
    destruct (split_on_nonempty sep s) as (h & t & Hs).
    specialize (IH H). rewrite Hs in IH |- *. exact IH.
Qed.

Lemma after_at_app l r :
  Forall (fun c => c <> "@") l -> after_at (l ++ "@" :: r) = r.
Proof.
  induction 1 as [|c l Hc Hl IH]; simpl.
  - reflexivity.
  - by rewrite bool_decide_eq_false_2.
Qed.

(** ** The shape of what each pattern matches *)

Lemma bank_shape w :
  lang false BANK_ACCOUNT_PATTERN w ->
  Forall (fun c => cset_match false digit_set c = true) w /\ (9 <= length w)%nat.
Proof.
  simpl. intros (w1 & w2 & -> & -> & w3 & w4 & -> & (Hall & Hlo & _) & ->).
  rewrite app_nil_r. simpl. done.
Qed.

Lemma upi_shape w :
  lang true UPI_ID_PATTERN w ->
  exists l d, w = l ++ "@" :: d /\
    Forall (fun c => cset_match true upi_local_set c = true) l /\
    Forall (fun c => cset_match true alpha_set c = true) d.
Proof.
  simpl. intros (w1 & w2 & -> & -> & l & w3 & -> & (Hl & _) & w4 & w5 & -> &
                 (c & -> & Hc) & d & w6 & -> & (Hd & _) & ->).
  apply at_char_ic in Hc as ->.
  exists l, d. rewrite app_nil_r. simpl. done.
Qed.

Lemma email_shape w :
  lang true EMAIL_PATTERN w ->
  exists l d tld, w = l ++ "@" :: d ++ "." :: tld /\
    Forall (fun c => cset_match true email_local_set c = true) l.
Proof.
  simpl. intros (w1 & w2 & -> & -> & l & w3 & -> & (Hl & _) & w4 & w5 & -> &
                 (c & -> & Hc) & d & w6 & -> & _ & w7 & w8 & -> &
                 (c' & -> & Hc') & tld & w9 & -> & _ & ->).
  apply at_char_ic in Hc as ->. apply dot_char_ic in Hc' as ->.
  exists l, d, tld. rewrite app_nil_r. simpl. done.
Qed.

Lemma ifsc_shape w :
  lang false IFSC_PATTERN w ->
  (exists c w', w = c :: w' /\ is_digit c = false) /\ "@" ∉ w.
Proof.
  simpl. intros (w1 & w2 & -> & -> & four & w3 & -> & (H4 & Hlo & _) &
                 w4 & w5 & -> & (c & -> & Hc) & six & w6 & -> & (H6 & _) & ->).
  apply plain_char in Hc as ->. rewrite app_nil_r. simpl. split.
  - destruct four as [|a four]; [simpl in Hlo; lia|].
    apply Forall_cons in H4 as [Ha _]. apply upper_not_digit in Ha as [? _].
    simpl. eauto.
  - rewrite elem_of_app, elem_of_cons. intros [H|[H|H]]; [| done |].
    + eapply Forall_forall in H4; [|exact H].
      by apply upper_not_digit in H4 as [_ ?].
    + eapply Forall_forall in H6; [|exact H].
      by apply upper_digit_no_at in H6.
Qed.

Lemma sub_delete_keep cs s :
  Forall (fun c => cset_match false cs c = false) s -> sub_delete cs s = s.
Proof.
  unfold sub_delete. induction 1 as [|c s Hc Hs IH]; [done|].
  rewrite filter_cons_True by done. by rewrite IH.
Qed.

Lemma sub_delete_drop cs s :
  Forall (fun c => cset_match false cs c = true) s -> sub_delete cs s = [].
Proof.
  unfold sub_delete. induction 1 as [|c s Hc Hs IH]; [done|].
  rewrite filter_cons_False; [done|]. by rewrite Hc.
Qed.

Lemma sub_delete_app cs s1 s2 :
  sub_delete cs (s1 ++ s2) = sub_delete cs s1 ++ sub_delete cs s2.
Proof. apply filter_app. Qed.

(** A phone match is an optional prefix, of which only [91] survives the
    clean-up, followed by ten digits of which the first is 6 to 9. *)
Lemma phone_shape w :
  lang false PHONE_PATTERN w ->
  exists pre c0 ds, w = pre ++ c0 :: ds /\
    (sub_delete phone_noise_set pre = [] \/
     sub_delete phone_noise_set pre = txt "91") /\
    cset_match false (CSet false [IRange "6" "9"]) c0 = true /\
    Forall (fun c => cset_match false digit_set c = true) ds /\
    length ds = 9%nat.
Proof.
  simpl. intros (pre & w2 & -> & Hpre & w3 & w4 & -> & (c0 & -> & Hc0) &
                 ds & w5 & -> & (Hds & Hlo & Hhi) & ->).
  exists pre, c0, ds. rewrite app_nil_r. simpl.
  repeat split; [|done|done|lia].
  destruct Hpre as [[Hp|Hp]| ->]; [| |by left]; right.
  - destruct Hp as (a & b & -> & (c & -> & Hc) & n & s & -> &
                    (x & y & -> & (c1 & -> & H1) & (c2 & -> & H2)) & Hs & _).
    apply plain_char in Hc as ->, H1 as ->, H2 as ->.
    rewrite !sub_delete_app, (sub_delete_drop _ s).
    + reflexivity.
    + eapply Forall_impl; [exact Hs|]. apply sep_is_noise.
  - destruct Hp as (n & s & -> &
                    (x & y & -> & (c1 & -> & H1) & (c2 & -> & H2)) & Hs & _).
    apply plain_char in H1 as ->, H2 as ->.
    rewrite !sub_delete_app, (sub_delete_drop _ s).
    + reflexivity.
    + eapply Forall_impl; [exact Hs|]. apply sep_is_noise.
Qed.

Lemma normalize_phone_shape w v :
  lang false PHONE_PATTERN w -> normalize_phone w = Some v ->
  length v = 10%nat /\ Forall (fun c => is_digit c = true) v /\
  (exists c v', v = c :: v' /\ c ∈ txt "6789").
Proof.
  intros (pre & c0 & ds & -> & Hpre & Hc0 & Hds & Hlen)%phone_shape.
  apply six_to_nine in Hc0 as [Hc0 Hd0].
  assert (Hall : Forall (fun c => cset_match false digit_set c = true) (c0 :: ds))
    by (by constructor).
  assert (Hkeep : sub_delete phone_noise_set (c0 :: ds) = c0 :: ds).
  { apply sub_delete_keep. eapply Forall_impl; [exact Hall|].
    intros c Hc. by apply digit_plain in Hc as (_ & _ & ?). }
  assert (Hdig : Forall (fun c => is_digit c = true) (c0 :: ds)).
  { eapply Forall_impl; [exact Hall|].
    intros c Hc. by apply digit_plain in Hc as (? & _ & _). }
  assert (Hl10 : length (c0 :: ds) = 10%nat) by (simpl; lia).
  assert (Hres : length (c0 :: ds) = 10%nat /\
                 Forall (fun c => is_digit c = true) (c0 :: ds) /\
                 (exists c v', c0 :: ds = c :: v' /\ c ∈ txt "6789"))
    by (split_and!; eauto).
  unfold normalize_phone. rewrite sub_delete_app, Hkeep. cbv zeta.
  destruct Hpre as [-> | ->].
  - rewrite app_nil_l, Hl10.
    replace (startswith (c0 :: ds) (txt "91") && (10 <? 10)%nat) with false
      by (by rewrite andb_false_r).
    rewrite Hl10. simpl. by intros [= <-].
  - change (txt "91" ++ c0 :: ds) with ("9" :: "1" :: c0 :: ds).
    change (startswith ("9" :: "1" :: c0 :: ds) (txt "91")) with true.
    replace (length ("9" :: "1" :: c0 :: ds)) with 12%nat by (simpl; lia).
    change (drop 2 ("9" :: "1" :: c0 :: ds)) with (c0 :: ds).
    change (true && (10 <? 12)%nat) with true. cbv iota.
    rewrite Hl10. simpl. by intros [= <-].
Qed.

(** ** What the extraction functions return *)

Lemma digits_no_at v :
  Forall (fun c => cset_match false digit_set c = true) v -> has_at v = false.
Proof.
  intros H. apply bool_decide_eq_false_2. intros Hin.
  eapply Forall_forall in H; [|exact Hin].
  by apply digit_plain in H as (_ & ? & _).
Qed.

Lemma bank_accounts_sig o t v :
  v ∈ extract_bank_accounts o t ->
  has_at v = false /\ head_is_digit v = true /\ looks_like_phone v = false.
Proof.
  unfold extract_bank_accounts. rewrite elem_of_list_set, list_elem_of_filter.
  intros [[Hp _] Hm]. apply findall_sound, bank_shape in Hm as [Hall Hlen].
  split_and!; [by apply digits_no_at| |done].
  destruct v as [|c v]; [simpl in Hlen; lia|].
  apply Forall_cons in Hall as [Hc _]. simpl.
  by apply digit_plain in Hc as (? & _).
Qed.

Lemma phone_numbers_shape o t v :
  v ∈ extract_phone_numbers o t ->
  length v = 10%nat /\ Forall (fun c => is_digit c = true) v /\
  (exists c v', v = c :: v' /\ c ∈ txt "6789").
Proof.
  unfold extract_phone_numbers. rewrite elem_of_list_set, list_elem_of_omap.
  intros (m & Hm & Hn). apply findall_sound in Hm.
  by eapply normalize_phone_shape.
Qed.

Lemma phone_numbers_sig o t v :
  v ∈ extract_phone_numbers o t ->
  has_at v = false /\ head_is_digit v = true /\ looks_like_phone v = true.
Proof.
  intros (Hlen & Hall & c & v' & -> & Hc)%phone_numbers_shape. split_and!.
  - apply bool_decide_eq_false_2. intros Hin.
    eapply Forall_forall in Hall; [|exact Hin]. done.
  - by apply Forall_cons in Hall as [? _].
  - unfold looks_like_phone. rewrite Hlen. simpl.
    by apply bool_decide_eq_true_2.
Qed.

Lemma upi_match_at w :
  lang true UPI_ID_PATTERN w -> has_at w = true /\ dot_after_at w = false.
Proof.
  intros (l & d & -> & Hl & Hd)%upi_shape. split.
  - apply bool_decide_eq_true_2. rewrite elem_of_app. right. left.
  - unfold dot_after_at. rewrite after_at_app.
    + apply bool_decide_eq_false_2. intros Hin.
      eapply Forall_forall in Hd; [|exact Hin].
      by apply alpha_plain in Hd as [_ ?].
    + eapply Forall_impl; [exact Hl|]. apply upi_local_no_at.
Qed.

Lemma upi_ids_sig o t l v :
  extract_upi_ids o t = Some l -> v ∈ l ->
  has_at v = true /\ dot_after_at v = false.
Proof.
  unfold extract_upi_ids.
  destruct (filter_raising upi_keep _) as [f|] eqn:Hf; [|discriminate].
  intros [= <-]. rewrite elem_of_list_set. intros Hv.
  eapply filter_raising_subset in Hv; [|exact Hf].
  by apply findall_sound, upi_match_at in Hv.
Qed.

(** The index taken in [upi_keep] always exists. *)
Lemma extract_upi_ids_total o t : is_Some (extract_upi_ids o t).
Proof.
  unfold extract_upi_ids.
  destruct (filter_raising_total upi_keep (findall true UPI_ID_PATTERN t))
    as [f ->]; [|eauto].
  intros m [Hat _]%findall_sound%upi_match_at.
  apply bool_decide_eq_true_1 in Hat.
  unfold upi_keep. destruct (split_on_second _ _ Hat) as [d ->]. eauto.
Qed.

Lemma emails_sig o t v :
  v ∈ extract_emails o t -> has_at v = true /\ dot_after_at v = true.
Proof.
  unfold extract_emails. rewrite elem_of_list_set.
  intros (l & d & tld & -> & Hl)%findall_sound%email_shape. split.
  - apply bool_decide_eq_true_2. rewrite elem_of_app. right. left.
  - unfold dot_after_at. rewrite after_at_app.
    + apply bool_decide_eq_true_2. rewrite elem_of_app. right. left.
    + eapply Forall_impl; [exact Hl|]. apply email_local_no_at.
Qed.

Lemma ifsc_codes_sig o t v :
  v ∈ extract_ifsc_codes o t -> has_at v = false /\ head_is_digit v = false.
Proof.
  unfold extract_ifsc_codes. rewrite elem_of_list_set.
  intros [(c & w' & -> & Hc) Hat]%findall_sound%ifsc_shape. split; [|done].
  by apply bool_decide_eq_false_2.
Qed.

(** The dictionary built for a string that is not empty. *)
Lemma extract_intelligence_str o c t :
  exists upi, extract_upi_ids o (c :: t) = Some upi /\
  extract_intelligence o (PyStr (c :: t)) =
    Some {| bank_accounts := extract_bank_accounts o (c :: t);
            upi_ids := upi;
            phone_numbers := extract_phone_numbers o (c :: t);
            phishing_links := extract_urls o (c :: t);
            emails := extract_emails o (c :: t);
            ifsc_codes := extract_ifsc_codes o (c :: t);
            has_intelligence :=
              nonempty (extract_bank_accounts o (c :: t)) || nonempty upi
              || nonempty (extract_phone_numbers o (c :: t))
              || nonempty (extract_urls o (c :: t))
              || nonempty (extract_emails o (c :: t))
              || nonempty (extract_ifsc_codes o (c :: t)) |}.
Proof.
  destruct (extract_upi_ids_total o (c :: t)) as [upi Hupi].
  exists upi. split; [done|].
  unfold extract_intelligence. simpl. by rewrite Hupi.
Qed.

Lemma extract_intelligence_not_text o v :
  match v with
  | PyStr (_ :: _) => True
  | _ => extract_intelligence o v = Some no_intelligence
  end.
Proof.
  destruct v as [| b | z | [|c t] | b]; try done;
    unfold extract_intelligence; simpl; by rewrite orb_true_r.
Qed.

Lemma extract_intelligence_some o v : is_Some (extract_intelligence o v).
Proof.
  pose proof (extract_intelligence_not_text o v) as H.
  destruct v as [| b | z | [|c t] | b]; eauto.
  destruct (extract_intelligence_str o c t) as (upi & _ & ->). eauto.
Qed.

(** ** Extraction: totality, determinism, exclusion *)

Lemma upi_ids_same_members o1 o2 t u1 u2 x :
  extract_upi_ids o1 t = Some u1 -> extract_upi_ids o2 t = Some u2 ->
  x ∈ u1 <-> x ∈ u2.
Proof.
  unfold extract_upi_ids.
  destruct (filter_raising upi_keep _) as [f|]; [|discriminate].
  intros [= <-] [= <-]. by rewrite !elem_of_list_set.
Qed.

(** C7.  Whatever value it is given, [extract_intelligence] returns a
    dictionary and raises nothing.  For a value that is not a string, and for
    the empty string, every entry is empty and [has_intelligence] is false.
    Two runs on the same input, which may list their sets in different
    orders, return the same members under every kind and the same
    [has_intelligence]. *)
Theorem extract_intelligence_total_and_deterministic
    (o1 o2 : SetOrder) (v : pyval) :
  exists r1 r2,
    extract_intelligence o1 v = Some r1 /\
    extract_intelligence o2 v = Some r2 /\
    (forall k x, x ∈ findings r1 k <-> x ∈ findings r2 k) /\
    has_intelligence r1 = has_intelligence r2 /\
    match v with
    | PyStr (_ :: _) => True
    | _ => (forall k, findings r1 k = []) /\ has_intelligence r1 = false
    end.
Proof.
  pose proof (extract_intelligence_not_text o1 v) as H1.
  pose proof (extract_intelligence_not_text o2 v) as H2.
  assert (Hno : (forall k, findings no_intelligence k = []) /\
                has_intelligence no_intelligence = false)
    by (split; [by intros []|done]).
  destruct Hno as [Hno1 Hno2].
  destruct v as [| b | z | [|c t] | b];
    try (exists no_intelligence, no_intelligence; split_and!; by auto).
  destruct (extract_intelligence_str o1 c t) as (u1 & Hu1 & ->).
  destruct (extract_intelligence_str o2 c t) as (u2 & Hu2 & ->).
  assert (Hupi : forall x, x ∈ u1 <-> x ∈ u2)
    by (intros x; by eapply upi_ids_same_members).
  assert (Hsame : forall k x,
    x ∈ findings {| bank_accounts := extract_bank_accounts o1 (c :: t);
                    upi_ids := u1;
                    phone_numbers := extract_phone_numbers o1 (c :: t);
                    phishing_links := extract_urls o1 (c :: t);
                    emails := extract_emails o1 (c :: t);
                    ifsc_codes := extract_ifsc_codes o1 (c :: t);
                    has_intelligence := false |} k <->
    x ∈ findings {| bank_accounts := extract_bank_accounts o2 (c :: t);
                    upi_ids := u2;
                    phone_numbers := extract_phone_numbers o2 (c :: t);
                    phishing_links := extract_urls o2 (c :: t);
                    emails := extract_emails o2 (c :: t);
                    ifsc_codes := extract_ifsc_codes o2 (c :: t);
                    has_intelligence := false |} k).
  { intros [] x; simpl; try done;
      unfold extract_bank_accounts, extract_phone_numbers, extract_urls,
        extract_emails, extract_ifsc_codes;
      by rewrite ?elem_of_list_set. }
  eexists _, _. split_and!; [done|done| | |done].
  - intros k. apply (Hsame k).
  - simpl.
    rewrite (nonempty_same (extract_bank_accounts o1 (c :: t)) _ (Hsame BankAccount)).
    rewrite (nonempty_same u1 _ (Hsame UpiId)).
    rewrite (nonempty_same (extract_phone_numbers o1 (c :: t)) _ (Hsame PhoneNumber)).
    rewrite (nonempty_same (extract_urls o1 (c :: t)) _ (Hsame Url)).
    rewrite (nonempty_same (extract_emails o1 (c :: t)) _ (Hsame Email)).
    rewrite (nonempty_same (extract_ifsc_codes o1 (c :: t)) _ (Hsame RoutingCode)).
    done.
Qed.

(** C8.  On the text ["9876543210"] the literal is among the phone numbers
    and not among the bank accounts; and on any text, no string of length 10
    whose first character is 6, 7, 8 or 9 is among the bank accounts. *)
Theorem phone_like_digits_not_bank_accounts :
  (forall o, exists r,
     extract_intelligence o (PyStr (txt "9876543210")) = Some r /\
     txt "9876543210" ∈ phone_numbers r /\
     txt "9876543210" ∉ bank_accounts r) /\
  (forall o t m,
     length m = 10%nat -> (exists c m', m = c :: m' /\ c ∈ txt "6789") ->
     m ∉ extract_bank_accounts o t).
Proof.
  assert (Hgen : forall o t m,
     length m = 10%nat -> (exists c m', m = c :: m' /\ c ∈ txt "6789") ->
     m ∉ extract_bank_accounts o t).
  { intros o t m Hlen (c & m' & -> & Hc) (_ & _ & Hp)%bank_accounts_sig.
    unfold looks_like_phone in Hp. rewrite Hlen in Hp. simpl in Hp.
    by rewrite bool_decide_eq_true_2 in Hp. }
  split; [|exact Hgen].
  intros o. change (txt "9876543210") with ("9" :: txt "876543210").
  destruct (extract_intelligence_str o "9" (txt "876543210")) as (u & _ & ->).
  eexists. split; [done|]. simpl. split.
  - unfold extract_phone_numbers. rewrite elem_of_list_set.
    vm_compute. left.
  - apply Hgen; [done|]. eexists _, _. split; [done|]. vm_compute.
    do 3 right. left.
Qed.

Lemma phone_like_digits_not_bank_accounts_witness :
  length (txt "6123456789") = 10%nat /\
  txt "6123456789" ∉
    extract_bank_accounts plain_order (txt "account 6123456789 or 123456789012").
Proof.
  split; [reflexivity|].
  apply (proj2 phone_like_digits_not_bank_accounts).
  - reflexivity.
  - exists "6", (txt "123456789"). split; [reflexivity|]. vm_compute. left.
Defined.

Lemma findings_sig o t r v k :
  extract_intelligence o (PyStr t) = Some r -> v ∈ findings r k ->
  match k with
  | BankAccount =>
      has_at v = false /\ head_is_digit v = true /\ looks_like_phone v = false
  | PhoneNumber =>
      has_at v = false /\ head_is_digit v = true /\ looks_like_phone v = true
  | UpiId => has_at v = true /\ dot_after_at v = false
  | Email => has_at v = true /\ dot_after_at v = true
  | RoutingCode => has_at v = false /\ head_is_digit v = false
  | Url => True
  | Keyword => False
  end.
Proof.
  destruct t as [|c t].
  - intros [= <-]. destruct k; simpl; intros H; try done;
      by apply elem_of_nil in H.
  - destruct (extract_intelligence_str o c t) as (u & Hu & ->).
    intros [= <-]. destruct k; simpl; intros H; try done.
    + by eapply bank_accounts_sig.
    + by eapply upi_ids_sig.
    + by eapply phone_numbers_sig.
    + by eapply emails_sig.
    + by eapply ifsc_codes_sig.
    + by apply elem_of_nil in H.
Qed.

(** C9, as stated, fails: on the text ["www.pay@ybl"] the same literal is a
    UPI id and a link. *)
Lemma www_pay_is_upi_id_and_link :
  exists r,
    extract_intelligence plain_order (PyStr (txt "www.pay@ybl")) = Some r /\
    txt "www.pay@ybl" ∈ findings r UpiId /\
    txt "www.pay@ybl" ∈ findings r Url /\
    UpiId <> Url.
Proof.
  eexists. split; [vm_compute; reflexivity|].
  split_and!; [left | left | discriminate].
Qed.

(** Links do overlap with e-mail addresses as well. *)
Example link_and_email :
  exists r,
    extract_intelligence plain_order (PyStr (txt "www.a@b.co")) = Some r /\
    txt "www.a@b.co" ∈ findings r Email /\
    txt "www.a@b.co" ∈ findings r Url.
Proof. eexists. split; [vm_compute; reflexivity|]. split; left. Qed.

(** C10.  The phone numbers extracted from any text are listed without
    repetition, and each is exactly ten characters long, all of them decimal
    digits, the first one 6, 7, 8 or 9: a [+91] or [91] prefix, spaces and
    hyphens are gone. *)
Theorem phone_numbers_are_ten_bare_digits (o : SetOrder) (t : text) :
  NoDup (extract_phone_numbers o t) /\
  Forall (fun v =>
            length v = 10%nat /\
            Forall (fun c => is_digit c = true) v /\
            exists c v', v = c :: v' /\ c ∈ txt "6789")
         (extract_phone_numbers o t).
Proof.
  split.
  - apply NoDup_list_set.
  - apply Forall_forall. intros v Hv. by eapply phone_numbers_shape.
Qed.

Example phone_prefixes_stripped :
  extract_phone_numbers plain_order
    (txt "+91-9876543210, 91 8765432109, +917654321098, 9876543210")
  = [txt "8765432109"; txt "7654321098"; txt "9876543210"].
Proof. vm_compute. reflexivity. Qed.

(** ** Merging *)

Lemma elem_of_append_new l x v : v ∈ append_new l x <-> v ∈ l \/ v = x.
Proof.
  unfold append_new. case_bool_decide as H.
  - split; [auto|]. intros [?| ->]; done.
  - rewrite elem_of_app, list_elem_of_singleton. done.
Qed.

Lemma NoDup_append_new l x : NoDup l -> NoDup (append_new l x).
Proof.
  intros Hl. unfold append_new. case_bool_decide as H; [done|].
  apply NoDup_app. split_and!; [done| |apply NoDup_singleton].
  intros y Hy ->%list_elem_of_singleton. done.
Qed.

Lemma elem_of_merge_into new : forall l v,
  v ∈ merge_into l new <-> v ∈ l \/ v ∈ new.
Proof.
  unfold merge_into. induction new as [|x new IH]; intros l v; simpl.
  - rewrite elem_of_nil. tauto.
  - rewrite IH, elem_of_append_new, elem_of_cons. tauto.
Qed.

Lemma NoDup_merge_into new : forall l, NoDup l -> NoDup (merge_into l new).
Proof.
  unfold merge_into. induction new as [|x new IH]; intros l Hl; simpl; [done|].
  by apply IH, NoDup_append_new.
Qed.

Lemma held_merge_intelligence o t i k v :
  recorded k = true ->
  v ∈ held_in (merge_intelligence (extraction o t) t i) k <->
  v ∈ held_in i k \/ v ∈ turn_findings o t k.
Proof. destruct k; try done; intros _; simpl; apply elem_of_merge_into. Qed.

Lemma held_merge_intelligence_unrecorded o t i k :
  recorded k = false ->
  held_in (merge_intelligence (extraction o t) t i) k = [].
Proof. by destruct k. Qed.

Lemma NoDup_merge_intelligence r t i k :
  NoDup (held_in i k) -> NoDup (held_in (merge_intelligence r t i) k).
Proof. destruct k; simpl; try done; apply NoDup_merge_into. Qed.

Lemma held_merge_texts o ts : forall i k v,
  recorded k = true ->
  v ∈ held_in (merge_texts o i ts) k <->
  v ∈ held_in i k \/ exists t, t ∈ ts /\ v ∈ turn_findings o t k.
Proof.
  unfold merge_texts. induction ts as [|t ts IH]; intros i k v Hk; simpl.
  - split; [auto|]. intros [?|(t & Ht & _)]; [done|].
    by apply elem_of_nil in Ht.
  - rewrite IH, held_merge_intelligence by done. split.
    + intros [[?|?]|(t' & Ht' & ?)]; [by left| |]; right.
      * exists t. split; [left|done].
      * exists t'. split; [by right|done].
    + intros [?|(t' & [->|Ht']%elem_of_cons & ?)]; [by do 2 left| |].
      * left. by right.
      * right. eauto.
Qed.

Lemma NoDup_merge_texts o ts : forall i k,
  NoDup (held_in i k) -> NoDup (held_in (merge_texts o i ts) k).
Proof.
  unfold merge_texts. induction ts as [|t ts IH]; intros i k H; simpl; [done|].
  by apply IH, NoDup_merge_intelligence.
Qed.

Lemma merge_texts_app o i ts1 ts2 :
  merge_texts o i (ts1 ++ ts2) = merge_texts o (merge_texts o i ts1) ts2.
Proof. apply foldl_app. Qed.

Lemma held_merge_texts_subseteq o ts i k :
  held_in i k ⊆ held_in (merge_texts o i ts) k.
Proof.
  intros v Hv. destruct (recorded k) eqn:Hk.
  - apply held_merge_texts; auto.
  - by destruct k.
Qed.

(** ** The methods of a record *)

Section Methods.

Variable o : SetOrder.

Lemma _extract_and_merge_run t s :
  _extract_and_merge o t s =
  (Some tt,
   set_intelligence
     (merge_intelligence (extraction o t) t (extracted_intelligence s)) s).
Proof.
  unfold _extract_and_merge, extraction.
  by destruct (extract_intelligence_some o (PyStr t)) as [r ->].
Qed.

(** [add_message] raises nothing; the record it leaves. *)
Lemma add_message_spec r c ts now s :
  add_message o r c ts now s = (Some tt, exec (add_message o r c ts now) s) /\
  let s' := exec (add_message o r c ts now) s in
  messages s' =
    messages s ++
      [{| role := r; content := c; timestamp := Some (or_now ts now) |}] /\
  turn_count s' = (turn_count s + 1)%nat /\
  extracted_intelligence s' =
    merge_texts o (extracted_intelligence s)
      (if bool_decide (r = scammer) then [c] else []) /\
  session_id s' = session_id s /\
  scam_detected s' = scam_detected s /\
  scam_type s' = scam_type s /\
  callback_sent s' = callback_sent s.
Proof.
  unfold exec, add_message, bind, modify. simpl.
  case_bool_decide; [rewrite _extract_and_merge_run|]; simpl; done.
Qed.

Lemma rebuild_loop_cons msg h s :
  rebuild_loop o (msg :: h) s =
  rebuild_loop o h
    (set_intelligence
       (merge_texts o (extracted_intelligence s)
          (if bool_decide (item_sender msg = scammer)
           then [item_text msg] else []))
       (set_messages (messages s ++ [message_of_item msg]) s)).
Proof.
  simpl. unfold bind, modify. simpl.
  case_bool_decide; [rewrite _extract_and_merge_run|]; done.
Qed.

Lemma scammer_texts_cons msg h :
  scammer_texts (msg :: h) =
  (if bool_decide (item_sender msg = scammer) then [item_text msg] else [])
  ++ scammer_texts h.
Proof.
  unfold scammer_texts. rewrite filter_cons.
  case_bool_decide; [rewrite decide_True by done|rewrite decide_False by done];
    done.
Qed.

(** The loop of [rebuild_from_history] raises nothing; the record it
    leaves. *)
Lemma rebuild_loop_spec h : forall s,
  rebuild_loop o h s = (Some tt, exec (rebuild_loop o h) s) /\
  let s' := exec (rebuild_loop o h) s in
  messages s' = messages s ++ map message_of_item h /\
  turn_count s' = turn_count s /\
  extracted_intelligence s' =
    merge_texts o (extracted_intelligence s) (scammer_texts h) /\
  session_id s' = session_id s /\
  scam_detected s' = scam_detected s /\
  scam_type s' = scam_type s /\
  callback_sent s' = callback_sent s.
Proof.
  induction h as [|msg h IH]; intros s.
  - unfold exec. simpl. rewrite app_nil_r. done.
  - unfold exec. rewrite rebuild_loop_cons, scammer_texts_cons, merge_texts_app.
    match goal with |- context [rebuild_loop o h ?x] =>
      destruct (IH x) as (Hrun & Hm & Ht & Hi & Hid & Hd & Hy & Hc) end.
    unfold exec in *. cbv zeta in *.
    split; [exact Hrun|]. rewrite Hm, Ht, Hi, Hid, Hd, Hy, Hc. simpl.
    rewrite <- app_assoc. done.
Qed.

(** [rebuild_from_history] raises nothing; the record it leaves has the
    messages of the history, and its intelligence is the earlier one with
    the findings of the history merged in. *)
Lemma rebuild_from_history_spec h s :
  rebuild_from_history o h s =
    (Some tt, exec (rebuild_from_history o h) s) /\
  let s' := exec (rebuild_from_history o h) s in
  messages s' = map message_of_item h /\
  turn_count s' = length h /\
  extracted_intelligence s' =
    merge_texts o (extracted_intelligence s) (scammer_texts h) /\
  session_id s' = session_id s /\
  scam_detected s' = scam_detected s /\
  scam_type s' = scam_type s /\
  callback_sent s' = callback_sent s.
Proof.
  unfold exec, rebuild_from_history, bind, modify. simpl.
  destruct (rebuild_loop_spec h (set_messages [] s))
    as (Hrun & Hm & Ht & Hi & Hid & Hd & Hy & Hc).
  unfold exec in *. rewrite Hrun. simpl.
  rewrite Hm, Hi, Hid, Hd, Hy, Hc. simpl. by rewrite length_map.
Qed.

End Methods.

(** ** Sequences of method calls *)

Lemma run_op_intelligence o x s :
  extracted_intelligence (run_op o s x) =
  merge_texts o (extracted_intelligence s) (processed [x]).
Proof.
  destruct x as [r c ts now|h]; unfold run_op, processed, flat_map;
    rewrite app_nil_r.
  - by destruct (add_message_spec o r c ts now s) as (_ & _ & _ & -> & _).
  - by destruct (rebuild_from_history_spec o h s) as (_ & _ & _ & -> & _).
Qed.

Lemma processed_app ops1 ops2 :
  processed (ops1 ++ ops2) = processed ops1 ++ processed ops2.
Proof. unfold processed. apply flat_map_app. Qed.

Lemma run_ops_intelligence o ops : forall s,
  extracted_intelligence (run_ops o ops s) =
  merge_texts o (extracted_intelligence s) (processed ops).
Proof.
  unfold run_ops. induction ops as [|x ops IH]; intros s; [done|].
  change (processed (x :: ops)) with (processed ([x] ++ ops)).
  rewrite processed_app, merge_texts_app, <- run_op_intelligence, <- IH.
  done.
Qed.

(** C1, as stated, fails: the routing code of the first turn of the
    end-to-end scenario is found by the extraction and is under no kind of
    the record after the turn. *)
Lemma routing_code_not_kept :
  let w := {| now_in := 1; now_out := 2;
              verdict := {| is_scam := true; confidence := 90;
                            reason := txt "bank fraud" |};
              generated := None; post_status := Some 200%nat |} in
  let t := txt "Send money to account 1234567890123 IFSC SBIN0001234" in
  let sid := txt "session-1" in
  exists r s,
    extract_intelligence plain_order (PyStr t) = Some r /\
    txt "SBIN0001234" ∈ findings r RoutingCode /\
    (process_scam_message plain_order w t sid None DEFAULT_PERSONA ∅).1.1 !! sid
      = Some s /\
    (bankAccounts (extracted_intelligence s) = [txt "1234567890123"]) /\
    Forall (fun k => txt "SBIN0001234" ∉ held s k)
      [BankAccount; UpiId; PhoneNumber; Url; Email; RoutingCode; Keyword].
Proof.
  eexists _, _. split; [vm_compute; reflexivity|]. split; [left|].
  split; [vm_compute; reflexivity|]. split; [reflexivity|].
  rewrite !Forall_cons. split_and!; try apply Forall_nil_2;
    vm_compute; intros H;
    repeat (apply elem_of_cons in H as [H|H]; [discriminate H|]);
    by apply elem_of_nil in H.
Qed.

(** C1, amended.  After any sequence of [add_message] and
    [rebuild_from_history] calls on a new record, the list the record keeps
    for a kind (bank accounts, UPI ids, phone numbers, links, keywords) has
    no repetition, and its members are exactly the findings of that kind in
    the scammer's texts gone through so far. *)
Theorem merged_intelligence_is_union_of_findings
    (o : SetOrder) (sid p : text) (ops : list op) (k : Kind) :
  recorded k = true ->
  NoDup (held (run_ops o ops (new_state sid p)) k) /\
  forall v,
    v ∈ held (run_ops o ops (new_state sid p)) k <->
    exists t, t ∈ processed ops /\ v ∈ turn_findings o t k.
Proof.
  intros Hk. unfold held. rewrite run_ops_intelligence. split.
  - apply NoDup_merge_texts. destruct k; simpl; constructor.
  - intros v. rewrite held_merge_texts by done. split; [|auto].
    intros [H|H]; [|done]. destruct k; simpl in H; by apply elem_of_nil in H.
Qed.

Lemma merged_intelligence_is_union_of_findings_witness :
  let ops := [AddMessage scammer (txt "pay merchant@ybl now") None 1;
              AddMessage (txt "user") (txt "ok ji") None 2;
              Rebuild [{| h_sender := Some scammer;
                          h_text := Some (txt "pay merchant@ybl now");
                          h_timestamp := None |};
                       {| h_sender := Some (txt "user");
                          h_text := Some (txt "ok ji");
                          h_timestamp := None |};
                       {| h_sender := Some scammer;
                          h_text := Some (txt "or call 9876543210");
                          h_timestamp := None |}]] in
  held (run_ops plain_order ops (new_state (txt "s") DEFAULT_PERSONA)) UpiId
    = [txt "merchant@ybl"] /\
  NoDup (held (run_ops plain_order ops (new_state (txt "s") DEFAULT_PERSONA))
           UpiId).
Proof.
  split; [vm_compute; reflexivity|].
  apply (merged_intelligence_is_union_of_findings plain_order (txt "s")
           DEFAULT_PERSONA _ UpiId). reflexivity.
Defined.

(** ** The turn pipeline *)

Section Pipeline.

Variable o : SetOrder.

(** [get_or_create_session] raises nothing. *)
Lemma get_or_create_session_spec sid p h st :
  get_or_create_session o sid p h st =
  let s0 := session_or_new st sid p in
  let hh := default [] h in
  let s' := if nonempty hh && (length (messages s0) <? length hh)%nat
            then exec (rebuild_from_history o hh) s0 else s0 in
  (Some tt, s', <[sid := s']> st).
Proof.
  unfold get_or_create_session, session_or_new. cbv zeta.
  destruct (nonempty _ && _); [|done].
  match goal with |- context [rebuild_from_history o ?h ?x] =>
    destruct (rebuild_from_history_spec o h x) as [-> _] end.
  done.
Qed.

Lemma classify_step_fields w m s :
  messages (classify_step w m s).2 = messages s /\
  turn_count (classify_step w m s).2 = turn_count s /\
  extracted_intelligence (classify_step w m s).2 = extracted_intelligence s /\
  session_id (classify_step w m s).2 = session_id s /\
  callback_sent (classify_step w m s).2 = callback_sent s /\
  (classify_step w m s).1 = (if scam_detected s then [] else [DetectCall m]) /\
  scam_detected (classify_step w m s).2 =
    (if scam_detected s then true else is_scam (detect_scam w m)).
Proof. unfold classify_step. by destruct (scam_detected s) eqn:Hd. Qed.

Lemma send_guvi_callback_fields response s :
  messages (send_guvi_callback response s).2 = messages s /\
  turn_count (send_guvi_callback response s).2 = turn_count s /\
  extracted_intelligence (send_guvi_callback response s).2
    = extracted_intelligence s /\
  session_id (send_guvi_callback response s).2 = session_id s /\
  scam_detected (send_guvi_callback response s).2 = scam_detected s /\
  detect_calls (send_guvi_callback response s).1.2 = [].
Proof.
  unfold send_guvi_callback.
  destruct (callback_sent s); [done|].
  destruct response as [code|]; [|done]. by destruct (code =? 200)%nat.
Qed.

Lemma report_gate_fields response s :
  messages (report_gate response s).2 = messages s /\
  turn_count (report_gate response s).2 = turn_count s /\
  extracted_intelligence (report_gate response s).2
    = extracted_intelligence s /\
  session_id (report_gate response s).2 = session_id s /\
  scam_detected (report_gate response s).2 = scam_detected s /\
  detect_calls (report_gate response s).1 = [].
Proof.
  unfold report_gate.
  destruct (scam_detected s && has_valuable_intelligence s); [|done].
  pose proof (send_guvi_callback_fields response s) as H.
  by destruct (send_guvi_callback response s) as [[b evs] s'].
Qed.

(** The latch [callback_sent]: what the gate posts and how it leaves the
    flag. *)
Lemma report_gate_latch response s :
  (report_gate response s).1 =
    (if scam_detected s && has_valuable_intelligence s
        && negb (callback_sent s)
     then [CallbackPost
             {| sessionId := session_id s;
                scamDetected := scam_detected s;
                totalMessagesExchanged := turn_count s;
                extractedIntelligence := extracted_intelligence s;
                agentNotes := generate_agent_notes s |}]
     else []) /\
  callback_sent (report_gate response s).2 =
    callback_sent s
    || (scam_detected s && has_valuable_intelligence s
        && bool_decide (response = Some 200%nat)).
Proof.
  unfold report_gate, send_guvi_callback.
  destruct (scam_detected s) eqn:Hd, (has_valuable_intelligence s) eqn:Hv,
    (callback_sent s) eqn:Hc; simpl; rewrite ?Hc; try done.
  destruct response as [code|]; simpl; [|by rewrite Hc].
  destruct (code =? 200)%nat eqn:Hcode; simpl.
  - apply Nat.eqb_eq in Hcode as ->. done.
  - rewrite Hc. rewrite bool_decide_eq_false_2; [done|].
    intros [= ->]. by rewrite Nat.eqb_refl in Hcode.
Qed.

Lemma detect_calls_app evs1 evs2 :
  detect_calls (evs1 ++ evs2) = detect_calls evs1 ++ detect_calls evs2.
Proof. apply omap_app. Qed.

Lemma callback_posts_app evs1 evs2 :
  callback_posts (evs1 ++ evs2) = callback_posts evs1 ++ callback_posts evs2.
Proof. apply omap_app. Qed.

(** [turn] raises nothing: it is the five steps, one after the other. *)
Lemma turn_spec w m s :
  turn o w m s =
  let s1 := exec (add_message o scammer m None (now_in w)) s in
  let s2 := (classify_step w m s1).2 in
  let reply := generate_contextual_response w s2 in
  let s3 := exec (add_message o (txt "user") reply None (now_out w)) s2 in
  (Success reply,
   (classify_step w m s1).1 ++ (report_gate (post_status w) s3).1,
   (report_gate (post_status w) s3).2).
Proof.
  unfold turn.
  destruct (add_message_spec o scammer m None (now_in w) s) as [-> _].
  cbv zeta. destruct (classify_step w m _) as [ev1 s2]. cbn [fst snd].
  destruct (add_message_spec o (txt "user")
              (generate_contextual_response w s2) None (now_out w) s2)
    as [-> _].
  by destruct (report_gate _ _) as [ev2 s4].
Qed.

(** The record, the events and the flags after a turn. *)
Lemma turn_fields w m s :
  extracted_intelligence (turn o w m s).2
    = merge_texts o (extracted_intelligence s) [m] /\
  length (messages (turn o w m s).2) = (length (messages s) + 2)%nat /\
  turn_count (turn o w m s).2 = (turn_count s + 2)%nat /\
  session_id (turn o w m s).2 = session_id s /\
  detect_calls (turn o w m s).1.2 = (if scam_detected s then [] else [m]) /\
  scam_detected (turn o w m s).2 =
    (if scam_detected s then true else is_scam (detect_scam w m)) /\
  (callback_sent s = true ->
   callback_sent (turn o w m s).2 = true /\
   callback_posts (turn o w m s).1.2 = []).
Proof.
  rewrite turn_spec. cbv zeta. cbn [fst snd].
  set (s1 := exec (add_message o scammer m None (now_in w)) s).
  destruct (add_message_spec o scammer m None (now_in w) s)
    as (_ & Hm1 & Ht1 & Hi1 & Hid1 & Hd1 & _ & Hc1).
  fold s1 in Hm1, Ht1, Hi1, Hid1, Hd1, Hc1.
  destruct (classify_step_fields w m s1)
    as (Hm2 & Ht2 & Hi2 & Hid2 & Hc2 & He2 & Hd2).
  set (s2 := (classify_step w m s1).2) in *.
  set (reply := generate_contextual_response w s2).
  destruct (add_message_spec o (txt "user") reply None (now_out w) s2)
    as (_ & Hm3 & Ht3 & Hi3 & Hid3 & Hd3 & _ & Hc3).
  set (s3 := exec (add_message o (txt "user") reply None (now_out w)) s2) in *.
  destruct (report_gate_fields (post_status w) s3)
    as (Hm4 & Ht4 & Hi4 & Hid4 & Hd4 & He4).
  destruct (report_gate_latch (post_status w) s3) as [Hev Hcs].
  rewrite Hi4, Hi3, Hi2, Hi1, Hm4, Hm3, Hm2, Hm1, Ht4, Ht3, Ht2, Ht1.
  rewrite Hid4, Hid3, Hid2, Hid1, Hd4, Hd3, Hd2, Hd1.
  rewrite bool_decide_eq_true_2 by done.
  rewrite bool_decide_eq_false_2 by discriminate.
  split_and!; try done.
  - rewrite !length_app. simpl. lia.
  - lia.
  - rewrite detect_calls_app, He4, He2, app_nil_r, Hd1.
    by destruct (scam_detected s).
  - intros Hs. rewrite Hcs, Hev, Hc3, Hc2, Hc1, Hs.
    split; [done|]. rewrite callback_posts_app, He2, andb_false_r, Hd1.
    by destruct (scam_detected s).
Qed.

(** [process_scam_message] raises nothing: the record found or made,
    rebuilt when the supplied history is longer, goes through [turn] and is
    stored. *)
Lemma process_scam_message_spec w m sid h p st :
  process_scam_message o w m sid h p st =
  let s0 := session_or_new st sid p in
  let hh := default [] h in
  let sr := if nonempty hh && (length (messages s0) <? length hh)%nat
            then exec (rebuild_from_history o hh) s0 else s0 in
  (<[sid := (turn o w m sr).2]> st, (turn o w m sr).1.1, (turn o w m sr).1.2).
Proof.
  unfold process_scam_message. rewrite get_or_create_session_spec.
  cbv zeta. simpl. destruct (turn o w m _) as [[resp evs] s']. simpl.
  by rewrite insert_insert_eq.
Qed.

End Pipeline.

(** ** Reconciliation with a supplied history *)

(** C2, as stated, fails: a record that holds a UPI id from an earlier turn
    is handed a longer history that does not mention it.  The messages are
    rebuilt from the history, and the UPI id is still held, although the
    intelligence computed from the history alone has no UPI id. *)
Lemma rebuild_keeps_earlier_intelligence :
  let w := {| now_in := 1; now_out := 2;
              verdict := {| is_scam := true; confidence := 90;
                            reason := txt "payment request" |};
              generated := None; post_status := None |} in
  let sid := txt "session-1" in
  let st := (process_scam_message plain_order w (txt "pay merchant@ybl")
               sid None DEFAULT_PERSONA ∅).1.1 in
  let h := [{| h_sender := Some scammer; h_text := Some (txt "hello");
               h_timestamp := Some (Some 10%Z) |};
            {| h_sender := Some (txt "user"); h_text := Some (txt "yes?");
               h_timestamp := Some (Some 11%Z) |};
            {| h_sender := Some scammer;
               h_text := Some (txt "send to 1234567890123");
               h_timestamp := Some (Some 12%Z) |}] in
  exists s s',
    st !! sid = Some s /\ turn_count s = 2%nat /\ length h = 3%nat /\
    (get_or_create_session plain_order sid DEFAULT_PERSONA (Some h) st).1
      = (Some tt, s') /\
    messages s' = map message_of_item h /\
    txt "merchant@ybl" ∈ held s' UpiId /\
    held (exec (rebuild_from_history plain_order h)
            (new_state sid DEFAULT_PERSONA)) UpiId = [].
Proof.
  eexists _, _. split; [vm_compute; reflexivity|].
  split; [reflexivity|]. split; [reflexivity|].
  split; [vm_compute; reflexivity|].
  split; [reflexivity|]. split; [left|]. vm_compute. reflexivity.
Qed.

(** C2, amended.  When a history is supplied that is longer than the
    record's turn count, [get_or_create_session] rebuilds the messages from
    the history in the order given and sets the turn count to its length;
    the findings of the scammer's turns of the history are merged into the
    intelligence held before, which is kept. *)
Theorem longer_history_is_merged_in
    (o : SetOrder) (sid p : text) (h : list HistoryItem) (st : Sessions) :
  turn_count (session_or_new st sid p)
    = length (messages (session_or_new st sid p)) ->
  (turn_count (session_or_new st sid p) < length h)%nat ->
  exists s',
    get_or_create_session o sid p (Some h) st
      = (Some tt, s', <[sid := s']> st) /\
    messages s' = map message_of_item h /\
    turn_count s' = length h /\
    forall k, recorded k = true -> forall v,
      v ∈ held s' k <->
      v ∈ held (session_or_new st sid p) k \/
      exists t, t ∈ scammer_texts h /\ v ∈ turn_findings o t k.
Proof.
  intros Hwf Hlt. rewrite get_or_create_session_spec. cbv zeta. simpl.
  rewrite <- Hwf. rewrite (proj2 (Nat.ltb_lt _ _) Hlt).
  replace (nonempty h) with true
    by (destruct h; [simpl in Hlt; lia|done]).
  simpl. eexists. split; [done|].
  destruct (rebuild_from_history_spec o h (session_or_new st sid p))
    as (_ & Hm & Ht & Hi & _).
  split_and!; [done|done|].
  intros k Hk v. unfold held. rewrite Hi. by apply held_merge_texts.
Qed.

Lemma longer_history_is_merged_in_witness :
  let h := [{| h_sender := Some scammer;
               h_text := Some (txt "pay merchant@ybl");
               h_timestamp := None |}] in
  exists s',
    get_or_create_session plain_order (txt "s") DEFAULT_PERSONA (Some h) ∅
      = (Some tt, s', <[txt "s" := s']> ∅) /\
    messages s' = map message_of_item h /\
    turn_count s' = 1%nat.
Proof.
  destruct (longer_history_is_merged_in plain_order (txt "s") DEFAULT_PERSONA
              [{| h_sender := Some scammer;
                  h_text := Some (txt "pay merchant@ybl");
                  h_timestamp := None |}] ∅)
    as (s' & Hrun & Hm & Ht & _).
  - reflexivity.
  - vm_compute. lia.
  - exists s'. split; [exact Hrun|]. split; [exact Hm|exact Ht].
Defined.

(** ** Stale histories *)

(** C5.  For a record already in the store and a supplied history that is
    not longer than its turn count, the history is ignored: the turn gives
    the same store, answer and events as the same turn with no history, so
    the same turn count (two more than before) and the same intelligence
    (the earlier one with the findings of the new message merged in). *)
Theorem stale_history_is_ignored
    (o : SetOrder) (w : World) (m sid p : text) (st : Sessions)
    (s : ConversationState) (h : list HistoryItem) :
  st !! sid = Some s ->
  turn_count s = length (messages s) ->
  (length h <= turn_count s)%nat ->
  process_scam_message o w m sid (Some h) p st
    = process_scam_message o w m sid None p st /\
  exists s',
    (process_scam_message o w m sid (Some h) p st).1.1 !! sid = Some s' /\
    (process_scam_message o w m sid None p st).1.1 !! sid = Some s' /\
    turn_count s' = (turn_count s + 2)%nat /\
    extracted_intelligence s'
      = merge_texts o (extracted_intelligence s) [m].
Proof.
  intros Hs Hwf Hle. rewrite !process_scam_message_spec. cbv zeta.
  change (default [] (Some h)) with h.
  change (default [] None) with (@nil HistoryItem).
  unfold session_or_new. rewrite Hs. cbn [nonempty andb].
  replace (length (messages s) <? length h)%nat with false
    by (symmetry; apply Nat.ltb_ge; lia).
  rewrite andb_false_r. split; [done|].
  cbn [fst snd]. rewrite lookup_insert_eq. eexists. split_and!; try done.
  - by destruct (turn_fields o w m s) as (_ & _ & ? & _).
  - by destruct (turn_fields o w m s) as (? & _).
Qed.

Lemma stale_history_is_ignored_witness :
  let w := {| now_in := 1; now_out := 2;
              verdict := {| is_scam := true; confidence := 90;
                            reason := txt "payment request" |};
              generated := None; post_status := None |} in
  let sid := txt "session-1" in
  let st := (process_scam_message plain_order w (txt "pay merchant@ybl")
               sid None DEFAULT_PERSONA ∅).1.1 in
  let h := [{| h_sender := Some scammer; h_text := Some (txt "call 9876543210");
               h_timestamp := None |}] in
  process_scam_message plain_order w (txt "hurry") sid (Some h)
    DEFAULT_PERSONA st
  = process_scam_message plain_order w (txt "hurry") sid None
      DEFAULT_PERSONA st.
Proof.
  cbv zeta.
  refine (proj1 (stale_history_is_ignored plain_order _ _ _ _ _ _ _ _ _ _)).
  - vm_compute. reflexivity.
  - reflexivity.
  - vm_compute. lia.
Defined.

(** ** Sequences of turns *)

(** The record a turn starts from, after a possible rebuild, differs from
    the one on arrival only in its messages, its turn count and the findings
    merged in. *)
Lemma reconciled_record o (h : list HistoryItem) (b : bool) s0 :
  let sr := if b then exec (rebuild_from_history o h) s0 else s0 in
  (exists ts, extracted_intelligence sr
              = merge_texts o (extracted_intelligence s0) ts) /\
  scam_detected sr = scam_detected s0 /\
  callback_sent sr = callback_sent s0 /\
  (turn_count s0 = length (messages s0) -> turn_count sr = length (messages sr)).
Proof.
  destruct b; simpl.
  - destruct (rebuild_from_history_spec o h s0)
      as (_ & Hm & Ht & Hi & _ & Hd & _ & Hc).
    split_and!; [eauto|done|done|].
    intros _. by rewrite Hm, Ht, length_map.
  - split_and!; [by exists []|done|done|done].
Qed.

(** One turn, seen from the store. *)
Lemma process_call_record o sid c st :
  exists s',
    (process_call o sid c st).1.1 !! sid = Some s' /\
    (forall k, held (session_or_new st sid (persona_key c)) k ⊆ held s' k) /\
    detect_calls (process_call o sid c st).2 =
      (if scam_detected (session_or_new st sid (persona_key c))
       then [] else [msg c]) /\
    scam_detected s' =
      (if scam_detected (session_or_new st sid (persona_key c))
       then true else is_scam (detect_scam (world c) (msg c))) /\
    (callback_sent (session_or_new st sid (persona_key c)) = true ->
     callback_sent s' = true /\
     callback_posts (process_call o sid c st).2 = []) /\
    (turn_count (session_or_new st sid (persona_key c))
       = length (messages (session_or_new st sid (persona_key c))) ->
     turn_count s' = length (messages s')).
Proof.
  unfold process_call. rewrite process_scam_message_spec. cbv zeta.
  cbn [fst snd]. rewrite lookup_insert_eq. eexists. split; [done|].
  set (s0 := session_or_new st sid (persona_key c)).
  match goal with |- context [turn o _ _ (if ?b then exec (rebuild_from_history o ?h) s0 else s0)] =>
    destruct (reconciled_record o h b s0) as ([ts Hi] & Hd & Hc & Hwf);
    set (sr := if b then exec (rebuild_from_history o h) s0 else s0) in *
  end.
  destruct (turn_fields o (world c) (msg c) sr)
    as (Hi' & Hm' & Ht' & _ & He' & Hd' & Hc').
  rewrite Hd in He', Hd'. rewrite Hc in Hc'.
  split_and!; try done.
  - intros k. unfold held. rewrite Hi', Hi, <- merge_texts_app.
    apply held_merge_texts_subseteq.
  - intros H. rewrite Ht', Hm', (Hwf H). done.
Qed.

Lemma run_calls_app o sid calls1 calls2 st :
  (run_calls o sid (calls1 ++ calls2) st).1
    = (run_calls o sid calls2 (run_calls o sid calls1 st).1).1 /\
  (run_calls o sid (calls1 ++ calls2) st).2
    = (run_calls o sid calls1 st).2
      ++ (run_calls o sid calls2 (run_calls o sid calls1 st).1).2.
Proof.
  revert st. induction calls1 as [|c calls1 IH]; intros st; [done|].
  simpl. destruct (process_call o sid c st) as [[st1 resp] evs].
  destruct (IH st1) as [H1 H2].
  destruct (run_calls o sid (calls1 ++ calls2) st1) as [st2 evs2].
  destruct (run_calls o sid calls1 st1) as [st3 evs3].
  simpl in *. rewrite H1, H2, app_assoc. done.
Qed.

(** C4.  Along any sequence of turns of a session, with or without supplied
    histories, what the record holds under each kind after a turn contains
    what it held before the turn. *)
Theorem intelligence_never_shrinks
    (o : SetOrder) (sid : text) (calls : list Call) (c : Call)
    (st : Sessions) (s : ConversationState) (k : Kind) :
  (run_calls o sid calls st).1 !! sid = Some s ->
  exists s',
    (run_calls o sid (calls ++ [c]) st).1 !! sid = Some s' /\
    held s k ⊆ held s' k.
Proof.
  intros Hs. rewrite (proj1 (run_calls_app o sid calls [c] st)).
  set (st1 := (run_calls o sid calls st).1) in *.
  destruct (process_call_record o sid c st1) as (s' & Hs' & Hsub & _).
  unfold session_or_new in Hsub. rewrite Hs in Hsub.
  exists s'. split; [|apply Hsub].
  simpl. by destruct (process_call o sid c st1) as [[st2 resp] evs].
Qed.

Lemma intelligence_never_shrinks_witness :
  let w := {| now_in := 1; now_out := 2;
              verdict := {| is_scam := true; confidence := 90;
                            reason := txt "payment request" |};
              generated := None; post_status := None |} in
  let c1 := {| world := w; msg := txt "pay merchant@ybl"; history := None;
               persona_key := DEFAULT_PERSONA |} in
  let c2 := {| world := w; msg := txt "or call 9876543210";
               history := Some [{| h_sender := Some scammer;
                                   h_text := Some (txt "hello");
                                   h_timestamp := None |};
                                {| h_sender := Some (txt "user");
                                   h_text := Some (txt "yes?");
                                   h_timestamp := None |};
                                {| h_sender := Some scammer;
                                   h_text := Some (txt "listen");
                                   h_timestamp := None |}];
               persona_key := DEFAULT_PERSONA |} in
  exists s s',
    (run_calls plain_order (txt "s") [c1] ∅).1 !! txt "s" = Some s /\
    (run_calls plain_order (txt "s") ([c1] ++ [c2]) ∅).1 !! txt "s" = Some s' /\
    held s UpiId ⊆ held s' UpiId.
Proof.
  cbv zeta. eexists.
  refine ((fun H =>
    match intelligence_never_shrinks plain_order (txt "s") _ _ ∅ _ UpiId H with
    | ex_intro _ s' (conj H1 H2) => ex_intro _ s' (conj H (conj H1 H2))
    end) _).
  vm_compute. reflexivity.
Defined.

(** ** The two latches *)

Lemma run_calls_latched o sid calls : forall st s,
  st !! sid = Some s ->
  (scam_detected s = true ->
   detect_calls (run_calls o sid calls st).2 = [] /\
   exists s', (run_calls o sid calls st).1 !! sid = Some s' /\
              scam_detected s' = true) /\
  (callback_sent s = true ->
   callback_posts (run_calls o sid calls st).2 = [] /\
   exists s', (run_calls o sid calls st).1 !! sid = Some s' /\
              callback_sent s' = true).
Proof.
  induction calls as [|c calls IH]; intros st s Hs.
  - simpl. split; intros H; split; eauto.
  - simpl.
    destruct (process_call_record o sid c st) as (s1 & Hs1 & _ & He & Hd & Hc & _).
    unfold session_or_new in He, Hd, Hc. rewrite Hs in He, Hd, Hc.
    destruct (process_call o sid c st) as [[st1 resp] evs]. simpl in *.
    destruct (IH st1 s1 Hs1) as [IHd IHc].
    destruct (run_calls o sid calls st1) as [st2 evs2]. simpl in *.
    split; intros H.
    + rewrite H in He, Hd. destruct (IHd Hd) as [He2 Hex].
      by rewrite detect_calls_app, He, He2.
    + destruct (Hc H) as [Hc1 Hp]. destruct (IHc Hc1) as [Hp2 Hex].
      by rewrite callback_posts_app, Hp, Hp2.
Qed.

(** C6, as stated, fails: when the first turn is not classified as a scam,
    [detect_scam] is called again on the second turn. *)
Lemma classifier_called_again_on_second_turn :
  let w := {| now_in := 1; now_out := 2;
              verdict := {| is_scam := false; confidence := 20;
                            reason := txt "looks harmless" |};
              generated := None; post_status := None |} in
  let c1 := {| world := w; msg := txt "hello, how are you"; history := None;
               persona_key := DEFAULT_PERSONA |} in
  let c2 := {| world := w; msg := txt "send money to merchant@ybl";
               history := None; persona_key := DEFAULT_PERSONA |} in
  detect_calls (run_calls plain_order (txt "session-1") [c1; c2] ∅).2
  = [txt "hello, how are you"; txt "send money to merchant@ybl"].
Proof. vm_compute. reflexivity. Qed.

(** C6, amended.  On each turn [detect_scam] is called exactly when the
    record's [scam_detected] is false on arrival, so on the first turn and on
    every later turn until one is classified as a scam; the flag then takes
    the verdict.  Once the flag is true, no later turn of the session calls
    [detect_scam] and the flag stays true. *)
Theorem classifier_called_until_scam_detected :
  (forall o sid c st,
     exists s',
       (process_call o sid c st).1.1 !! sid = Some s' /\
       detect_calls (process_call o sid c st).2 =
         (if scam_detected (session_or_new st sid (persona_key c))
          then [] else [msg c]) /\
       scam_detected s' =
         (if scam_detected (session_or_new st sid (persona_key c))
          then true else is_scam (detect_scam (world c) (msg c)))) /\
  (forall o sid calls st s,
     st !! sid = Some s -> scam_detected s = true ->
     detect_calls (run_calls o sid calls st).2 = [] /\
     exists s', (run_calls o sid calls st).1 !! sid = Some s' /\
                scam_detected s' = true).
Proof.
  split.
  - intros o sid c st.
    destruct (process_call_record o sid c st) as (s' & Hs' & _ & He & Hd & _).
    eauto.
  - intros o sid calls st s Hs Hd.
    by apply (proj1 (run_calls_latched o sid calls st s Hs)).
Qed.

Lemma classifier_called_until_scam_detected_witness :
  let w := {| now_in := 1; now_out := 2;
              verdict := {| is_scam := true; confidence := 90;
                            reason := txt "payment request" |};
              generated := None; post_status := None |} in
  let c := {| world := w; msg := txt "pay merchant@ybl"; history := None;
              persona_key := DEFAULT_PERSONA |} in
  let st := (process_call plain_order (txt "s") c ∅).1.1 in
  detect_calls (process_call plain_order (txt "s") c ∅).2
    = [txt "pay merchant@ybl"] /\
  detect_calls (run_calls plain_order (txt "s") [c; c; c] st).2 = [].
Proof.
  cbv zeta. split; [vm_compute; reflexivity|].
  refine (proj1 (proj2 classifier_called_until_scam_detected
                   plain_order (txt "s") _ _ _ _ _)).
  - vm_compute. reflexivity.
  - reflexivity.
Defined.

(** ** The reporting gate *)

Lemma has_valuable_intelligence_held s :
  has_valuable_intelligence s = true <->
  held s BankAccount <> [] \/ held s UpiId <> [] \/
  held s PhoneNumber <> [] \/ held s Url <> [].
Proof.
  unfold has_valuable_intelligence, held. simpl.
  rewrite !orb_true_iff, !Nat.ltb_lt.
  destruct (bankAccounts _), (upiIds _), (phoneNumbers _), (phishingLinks _);
    simpl; intuition (try done; try lia).
Qed.

(** C3, as stated, fails for the 2xx statuses other than 200: a record with
    a detected scam and one UPI id posts a report, the report is answered
    with status 201, and [callback_sent] is still false, so that a second
    evaluation with the state unchanged posts the report again. *)
Example other_success_status_leaves_flag :
  let s := set_scam true (Some (txt "payment request"))
             (exec (add_message plain_order scammer (txt "pay merchant@ybl")
                      None 1)
                (new_state (txt "s") DEFAULT_PERSONA)) in
  (200 <= 201 <= 299)%nat /\
  length (report_gate (Some 201%nat) s).1 = 1%nat /\
  callback_sent (report_gate (Some 201%nat) s).2 = false /\
  length (report_gate (Some 201%nat) (report_gate (Some 201%nat) s).2).1
  = 1%nat.
Proof. cbv zeta. split; [lia|]. vm_compute. done. Qed.

(** C3, amended.  The gate posts a report exactly when a scam has been
    detected, at least one of the lists of bank accounts, UPI ids, phone
    numbers and links is not empty, and [callback_sent] is false.
    [callback_sent] is true afterwards exactly when it was true before or a
    report was posted and answered with status 200; with any other status,
    another 2xx one too, or when the request raises, it stays as it was.
    Once it is true, evaluating the gate posts nothing and changes nothing,
    and no later turn of the session posts a report or resets it. *)
Theorem report_is_gated_and_latched :
  (forall response s,
     ((report_gate response s).1 <> [] <->
      scam_detected s = true /\
      (held s BankAccount <> [] \/ held s UpiId <> [] \/
       held s PhoneNumber <> [] \/ held s Url <> []) /\
      callback_sent s = false) /\
     (callback_sent (report_gate response s).2 = true <->
      callback_sent s = true \/
      ((report_gate response s).1 <> [] /\ response = Some 200%nat)) /\
     (response <> Some 200%nat ->
      callback_sent (report_gate response s).2 = callback_sent s) /\
     (callback_sent s = true ->
      forall response',
        (report_gate response' s).1 = [] /\ (report_gate response' s).2 = s)) /\
  (forall o sid calls st s,
     st !! sid = Some s -> callback_sent s = true ->
     callback_posts (run_calls o sid calls st).2 = [] /\
     exists s', (run_calls o sid calls st).1 !! sid = Some s' /\
                callback_sent s' = true).
Proof.
  split.
  - intros response s.
    destruct (report_gate_latch response s) as [Hev Hcs].
    pose proof (has_valuable_intelligence_held s) as Hval.
    split_and!.
    + rewrite Hev.
      destruct (scam_detected s), (has_valuable_intelligence s),
        (callback_sent s); simpl;
        (split; [intros Hne|intros (H1 & H2 & H3)]); try done.
      * split_and!; [done| |done]. by apply Hval.
      * by apply Hval in H2.
    + rewrite Hcs, Hev.
      destruct (callback_sent s), (scam_detected s),
        (has_valuable_intelligence s); simpl;
        try (split; [by left|done]);
        try (split; [done|by intros [?|[? _]]]).
      case_bool_decide as Hr.
      * split; [|done]. intros _. right. done.
      * split; [done|]. by intros [?|[_ ?]].
    + intros Hne. rewrite Hcs.
      rewrite bool_decide_eq_false_2 by done.
      by rewrite andb_false_r, orb_false_r.
    + intros Hc response'. unfold report_gate, send_guvi_callback.
      rewrite Hc. by destruct (scam_detected s && has_valuable_intelligence s).
  - intros o sid calls st s Hs Hc.
    by apply (proj2 (run_calls_latched o sid calls st s Hs)).
Qed.

(** The report-gate scenario: a record with a detected scam and one UPI id
    posts a report; after an answer with status 200 the flag is set and a
    second evaluation posts nothing. *)
Lemma report_is_gated_and_latched_witness :
  let s := set_scam true (Some (txt "payment request"))
             (exec (add_message plain_order scammer (txt "pay merchant@ybl")
                      None 1)
                (new_state (txt "s") DEFAULT_PERSONA)) in
  held s UpiId = [txt "merchant@ybl"] /\
  (report_gate (Some 200%nat) s).1 <> [] /\
  callback_sent (report_gate (Some 200%nat) s).2 = true /\
  (report_gate (Some 200%nat) (report_gate (Some 200%nat) s).2).1 = [].
Proof.
  cbv zeta. split; [vm_compute; reflexivity|].
  match goal with
  | |- (report_gate ?r ?s).1 <> [] /\ _ =>
      assert (Hposted : (report_gate r s).1 <> [])
  end.
  { apply (proj1 (proj1 report_is_gated_and_latched (Some 200%nat) _)).
    split; [reflexivity|]. split; [|reflexivity].
    right. left. vm_compute. discriminate. }
  split; [exact Hposted|].
  match goal with
  | |- callback_sent (report_gate ?r ?s).2 = true /\ _ =>
      assert (Hset : callback_sent (report_gate r s).2 = true)
  end.
  { apply (proj1 (proj2 (proj1 report_is_gated_and_latched (Some 200%nat) _))).
    right. split; [exact Hposted|reflexivity]. }
  split; [exact Hset|].
  by apply (proj2 (proj2 (proj2 (proj1 report_is_gated_and_latched
                                   (Some 200%nat) _)))).
Defined.

(** ** Turns as method calls, and the turn count *)

(** What a turn does to the messages, the turn count and the intelligence of
    a record is a rebuild, when the supplied history is longer, followed by
    two [add_message] calls; the scammer's texts gone through are those of
    the history, when rebuilt, and the new message. *)
Lemma process_call_as_ops o sid c st :
  exists ops s',
    (process_call o sid c st).1.1 !! sid = Some s' /\
    messages s'
      = messages (run_ops o ops (session_or_new st sid (persona_key c))) /\
    turn_count s'
      = turn_count (run_ops o ops (session_or_new st sid (persona_key c))) /\
    extracted_intelligence s'
      = extracted_intelligence
          (run_ops o ops (session_or_new st sid (persona_key c))) /\
    processed ops =
      (if nonempty (default [] (history c))
          && (length (messages (session_or_new st sid (persona_key c)))
              <? length (default [] (history c)))%nat
       then scammer_texts (default [] (history c)) else [])
      ++ [msg c].
Proof.
  unfold process_call. rewrite process_scam_message_spec. cbv zeta.
  cbn [fst snd]. rewrite lookup_insert_eq.
  set (s0 := session_or_new st sid (persona_key c)).
  set (h := default [] (history c)).
  set (b := nonempty h && (length (messages s0) <? length h)%nat).
  set (sr := if b then exec (rebuild_from_history o h) s0 else s0).
  rewrite turn_spec. cbv zeta. cbn [fst snd].
  set (s1 := exec (add_message o scammer (msg c) None (now_in (world c))) sr).
  destruct (classify_step_fields (world c) (msg c) s1)
    as (Hm2 & Ht2 & Hi2 & _).
  set (s2 := (classify_step (world c) (msg c) s1).2) in *.
  set (reply := generate_contextual_response (world c) s2).
  destruct (add_message_spec o (txt "user") reply None (now_out (world c)) s2)
    as (_ & Hm3 & Ht3 & Hi3 & _).
  destruct (add_message_spec o (txt "user") reply None (now_out (world c)) s1)
    as (_ & Hm3' & Ht3' & Hi3' & _).
  set (s3 := exec (add_message o (txt "user") reply None
                     (now_out (world c))) s2) in *.
  destruct (report_gate_fields (post_status (world c)) s3)
    as (Hm4 & Ht4 & Hi4 & _).
  exists ((if b then [Rebuild h] else [])
          ++ [AddMessage scammer (msg c) None (now_in (world c));
              AddMessage (txt "user") reply None (now_out (world c))]).
  eexists. split; [done|].
  assert (Hrun : run_ops o
            ((if b then [Rebuild h] else [])
             ++ [AddMessage scammer (msg c) None (now_in (world c));
                 AddMessage (txt "user") reply None (now_out (world c))]) s0
          = exec (add_message o (txt "user") reply None
                    (now_out (world c))) s1).
  { unfold run_ops. rewrite foldl_app. unfold sr in s1. by destruct b. }
  rewrite Hrun, Hm4, Ht4, Hi4, Hm3, Ht3, Hi3, Hm3', Ht3', Hi3', Hm2, Ht2, Hi2.
  split_and!; try done.
  rewrite processed_app. f_equal.
  destruct b; [|done]. unfold processed. simpl. apply app_nil_r.
Qed.

(** [turn_count] is the number of messages on every record the pipeline
    makes. *)
Lemma run_calls_turn_count o sid calls : forall st,
  (forall s, st !! sid = Some s -> turn_count s = length (messages s)) ->
  forall s', (run_calls o sid calls st).1 !! sid = Some s' ->
             turn_count s' = length (messages s').
Proof.
  induction calls as [|c calls IH]; intros st Hst s'; [apply Hst|].
  simpl.
  destruct (process_call_record o sid c st) as (s1 & Hs1 & _ & _ & _ & _ & Hwf).
  destruct (process_call o sid c st) as [[st1 resp] evs]. simpl in Hs1.
  specialize (IH st1).
  destruct (run_calls o sid calls st1) as [st2 evs2]. simpl in *.
  apply IH. intros s Hs. rewrite Hs1 in Hs. injection Hs as <-.
  apply Hwf. unfold session_or_new. destruct (st !! sid) as [s0|] eqn:H0.
  - by apply Hst.
  - reflexivity.
Qed.

(** ** The scenarios of the specification *)

(** UPI exclusion: a handle on a mail domain is not a UPI id. *)
Example upi_exclusion :
  extract_upi_ids plain_order (txt "someone@gmail") = Some [] /\
  extract_upi_ids plain_order (txt "someone@paytm")
    = Some [txt "someone@paytm"].
Proof. split; vm_compute; reflexivity. Qed.

(** End to end: the bank account of the first turn and the UPI id of the
    second are both held after the second turn. *)
Example end_to_end :
  let w := {| now_in := 1; now_out := 2;
              verdict := {| is_scam := true; confidence := 90;
                            reason := txt "bank fraud" |};
              generated := Some (txt " Ji, which bank? ");
              post_status := Some 200%nat |} in
  let c1 := {| world := w;
               msg := txt "Send money to account 1234567890123 IFSC SBIN0001234";
               history := None; persona_key := DEFAULT_PERSONA |} in
  let c2 := {| world := w; msg := txt "or pay via merchant@ybl";
               history := None; persona_key := DEFAULT_PERSONA |} in
  exists s,
    (run_calls plain_order (txt "session-1") [c1; c2] ∅).1 !! txt "session-1"
      = Some s /\
    extracted_intelligence s =
      {| bankAccounts := [txt "1234567890123"];
         upiIds := [txt "merchant@ybl"];
         phoneNumbers := []; phishingLinks := [];
         suspiciousKeywords := [] |} /\
    turn_count s = 4%nat /\ callback_sent s = true /\
    length (callback_posts
              (run_calls plain_order (txt "session-1") [c1; c2] ∅).2) = 1%nat.
Proof.
  eexists. split; [vm_compute; reflexivity|]. split_and!; reflexivity.
Qed.

(** Two listings of the same set differ in order and agree on the members. *)
Example listing_order_differs :
  extract_phone_numbers plain_order (txt "9876543210 or 8765432109")
    = [txt "9876543210"; txt "8765432109"] /\
  extract_phone_numbers last_first (txt "9876543210 or 8765432109")
    = [txt "8765432109"; txt "9876543210"].
Proof. split; vm_compute; reflexivity. Qed.

(** * Further properties *)

(** ** Findings come from the text *)

Lemma is_substring_infix x s :
  is_substring x s = true <-> exists pre post, s = pre ++ x ++ post.
Proof.
  assert (Hsw : forall s p, startswith s p = true <-> exists post, s = p ++ post).
  { clear. intros s p. revert s. induction p as [|a p IH]; intros s; simpl.
    - destruct s; simpl; split; eauto.
    - destruct s as [|c s]; [split; [done|by intros [? ?]]|]. simpl.
      rewrite andb_true_iff, bool_decide_eq_true, IH. split.
      + intros [-> [post ->]]. eauto.
      + intros [post [= -> ->]]. eauto. }
  induction s as [|c s IH].
  - change (is_substring x []) with (startswith [] x || false).
    rewrite orb_false_r, Hsw. split.
    + intros [post H]. exists [], post. done.
    + intros (pre & post & H). destruct pre; [by exists post|done].
  - change (is_substring x (c :: s))
      with (startswith (c :: s) x || is_substring x s).
    rewrite orb_true_iff, Hsw, IH. split.
    + intros [[post H]|(pre & post & ->)].
      * exists [], post. done.
      * exists (c :: pre), post. done.
    + intros (pre & post & H). destruct pre as [|a pre].
      * left. by exists post.
      * right. injection H as -> ->. eauto.
Qed.

Lemma findall_from_infix ic r s : forall prev skip x,
  x ∈ findall_from ic r prev s skip -> exists pre post, s = pre ++ x ++ post.
Proof.
  induction s as [|c s' IH]; intros prev skip x Hx; simpl in Hx.
  - destruct skip; [|by apply elem_of_nil in Hx].
    destruct (match_at ic r prev []) as [rest|];
      [|by apply elem_of_nil in Hx].
    simpl in Hx. apply list_elem_of_singleton in Hx as ->.
    exists [], []. done.
  - assert (Hrec : forall p k, x ∈ findall_from ic r p s' k ->
              exists pre post, c :: s' = pre ++ x ++ post).
    { intros p k (pre & post & ->)%IH. exists (c :: pre), post. done. }
    destruct skip as [|n]; [|by eapply Hrec].
    destruct (match_at ic r prev (c :: s')) as [rest|]; [|by eapply Hrec].
    apply elem_of_cons in Hx as [->|Hx]; [|by eapply Hrec].
    exists [], (drop (length (c :: s') - length rest) (c :: s')).
    by rewrite app_nil_l, take_drop.
Qed.

Lemma findall_substring ic r s x :
  x ∈ findall ic r s -> is_substring x s = true.
Proof. intros H. apply is_substring_infix. by eapply findall_from_infix. Qed.

Lemma normalize_phone_suffix w v :
  lang false PHONE_PATTERN w -> normalize_phone w = Some v ->
  exists pre, w = pre ++ v.
Proof.
  intros (pre & c0 & ds & -> & Hpre & Hc0 & Hds & Hlen)%phone_shape.
  apply six_to_nine in Hc0 as [Hc0 Hd0].
  assert (Hall : Forall (fun c => cset_match false digit_set c = true) (c0 :: ds))
    by (by constructor).
  assert (Hkeep : sub_delete phone_noise_set (c0 :: ds) = c0 :: ds).
  { apply sub_delete_keep. eapply Forall_impl; [exact Hall|].
    intros c Hc. by apply digit_plain in Hc as (_ & _ & ?). }
  assert (Hl10 : length (c0 :: ds) = 10%nat) by (simpl; lia).
  unfold normalize_phone. rewrite sub_delete_app, Hkeep. cbv zeta.
  destruct Hpre as [-> | ->].
  - rewrite app_nil_l, Hl10.
    replace (startswith (c0 :: ds) (txt "91") && (10 <? 10)%nat) with false
      by (by rewrite andb_false_r).
    rewrite Hl10. simpl. intros [= <-]. eauto.
  - change (txt "91" ++ c0 :: ds) with ("9" :: "1" :: c0 :: ds).
    change (startswith ("9" :: "1" :: c0 :: ds) (txt "91")) with true.
    replace (length ("9" :: "1" :: c0 :: ds)) with 12%nat by (simpl; lia).
    change (drop 2 ("9" :: "1" :: c0 :: ds)) with (c0 :: ds).
    change (true && (10 <? 12)%nat) with true. cbv iota.
    rewrite Hl10. simpl. intros [= <-]. eauto.
Qed.

(** X1.  Every value the extraction returns, under any kind, occurs in the
    text as it stands: a phone number too, since only what comes before its
    ten digits is cleaned away. *)
Theorem findings_occur_in_text
    (o : SetOrder) (t : text) (r : ExtractionResult) (k : Kind) (v : text) :
  extract_intelligence o (PyStr t) = Some r ->
  v ∈ findings r k ->
  is_substring v t = true.
Proof.
  destruct t as [|c t].
  - intros [= <-]. destruct k; simpl; intros H; by apply elem_of_nil in H.
  - destruct (extract_intelligence_str o c t) as (u & Hu & ->).
    intros [= <-]. remember (c :: t) as T eqn:HT. clear HT.
    destruct k; simpl.
    + unfold extract_bank_accounts.
      rewrite elem_of_list_set, list_elem_of_filter.
      intros [_ H]. by eapply findall_substring.
    + unfold extract_upi_ids in Hu.
      destruct (filter_raising upi_keep _) as [f|] eqn:Hf; [|discriminate].
      injection Hu as <-. rewrite elem_of_list_set. intros H.
      eapply filter_raising_subset in H; [|exact Hf].
      by eapply findall_substring.
    + unfold extract_phone_numbers.
      rewrite elem_of_list_set, list_elem_of_omap. intros (m & Hm & Hn).
      pose proof (findall_sound _ _ _ _ Hm) as Hl.
      destruct (normalize_phone_suffix _ _ Hl Hn) as [pre ->].
      apply findall_from_infix in Hm as (pre' & post & Hm).
      apply is_substring_infix. exists (pre' ++ pre), post.
      rewrite Hm. by rewrite <- !app_assoc.
    + unfold extract_urls. rewrite elem_of_list_set, elem_of_app.
      intros [H|H]; by eapply findall_substring.
    + unfold extract_emails. rewrite elem_of_list_set.
      apply findall_substring.
    + unfold extract_ifsc_codes. rewrite elem_of_list_set.
      apply findall_substring.
    + intros H. by apply elem_of_nil in H.
Qed.

Lemma findings_occur_in_text_witness :
  exists r,
    extract_intelligence plain_order
      (PyStr (txt "call +91-9876543210 now")) = Some r /\
    is_substring (txt "9876543210") (txt "call +91-9876543210 now") = true.
Proof.
  eexists. split; [vm_compute; reflexivity|].
  eapply (findings_occur_in_text plain_order _ _ PhoneNumber).
  - vm_compute. reflexivity.
  - left.
Defined.

(** ** The shape of the findings *)

Lemma filter_raising_kept f l r x :
  filter_raising f l = Some r -> x ∈ r -> f x = Some true.
Proof.
  revert r. induction l as [|a l IH]; intros r H Hx; simpl in H.
  - injection H as <-. by apply elem_of_nil in Hx.
  - destruct (f a) as [b|] eqn:Hfa; [|discriminate].
    destruct (filter_raising f l) as [r'|]; [|discriminate].
    injection H as <-. destruct b; [|eauto].
    apply elem_of_cons in Hx as [->|Hx]; eauto.
Qed.

Lemma split_on_absent sep s : sep ∉ s -> split_on sep s = [s].
Proof.
  induction s as [|c s IH]; intros H; [done|]. simpl.
  apply not_elem_of_cons in H as [Hc Hs].
  rewrite bool_decide_eq_false_2 by done. by rewrite IH.
Qed.

Lemma split_on_first sep l r :
  sep ∉ l -> split_on sep (l ++ sep :: r) = l :: split_on sep r.
Proof.
  induction l as [|c l IH]; intros H; simpl.
  - by rewrite bool_decide_eq_true_2.
  - apply not_elem_of_cons in H as [Hc Hl].
    rewrite bool_decide_eq_false_2 by done. by rewrite IH.
Qed.

Lemma alpha_letter c :
  cset_match true alpha_set c = true -> is_ascii_letter c = true.
Proof. intros H. check_all_characters c H. Qed.

Lemma digit_is_digit c :
  cset_match false digit_set c = true -> is_digit c = true.
Proof. intros H. by apply digit_plain in H as [? _]. Qed.

Lemma upper_is_upper c :
  cset_match false (CSet false [IRange "A" "Z"]) c = true ->
  is_ascii_upper c = true.
Proof. intros H. check_all_characters c H. Qed.

Lemma upper_digit_is c :
  cset_match false (CSet false [IRange "A" "Z"; IRange "0" "9"]) c = true ->
  is_ascii_upper c || is_digit c = true.
Proof. intros H. check_all_characters c H. Qed.

Lemma email_domain_no_at c :
  cset_match true email_domain_set c = true -> c <> "@".
Proof.
  intros H. cut (negb (bool_decide (c = "@")) = true).
  { rewrite negb_true_iff. apply bool_decide_eq_false_1. }
  check_all_characters c H.
Qed.

Lemma email_tld_no_at c :
  cset_match true email_tld_set c = true -> c <> "@".
Proof.
  intros H. cut (negb (bool_decide (c = "@")) = true).
  { rewrite negb_true_iff. apply bool_decide_eq_false_1. }
  check_all_characters c H.
Qed.

Lemma Forall_not_elem (P : ascii -> Prop) (x : ascii) (l : text) :
  Forall P l -> ~ P x -> x ∉ l.
Proof. intros Hl Hx Hin. eapply Forall_forall in Hl; [|exact Hin]. done. Qed.

Lemma occurrences_app x l1 l2 :
  occurrences x (l1 ++ l2) = (occurrences x l1 + occurrences x l2)%nat.
Proof. unfold occurrences. by rewrite filter_app, length_app. Qed.

Lemma occurrences_absent x l : x ∉ l -> occurrences x l = 0%nat.
Proof.
  unfold occurrences. induction l as [|c l IH]; intros H; [done|].
  apply not_elem_of_cons in H as [Hc Hl].
  rewrite filter_cons_False by done. auto.
Qed.

(** X2.  The bank accounts extracted from any text are listed without
    repetition; each is 9 to 18 characters long, every one of them a digit
    in the sense of [\d], and each fails the phone test of the code: none is
    ten characters long with one of the characters 6, 7, 8, 9 in front. *)
Theorem bank_accounts_are_digit_runs (o : SetOrder) (t : text) :
  NoDup (extract_bank_accounts o t) /\
  Forall (fun v =>
            (9 <= length v <= 18)%nat /\
            Forall (fun c => is_digit c = true) v /\
            looks_like_phone v = false)
         (extract_bank_accounts o t).
Proof.
  split; [apply NoDup_list_set|].
  apply Forall_forall. intros v Hv.
  pose proof (bank_accounts_sig _ _ _ Hv) as (_ & _ & Hp).
  unfold extract_bank_accounts in Hv.
  rewrite elem_of_list_set, list_elem_of_filter in Hv.
  destruct Hv as [_ Hm%findall_sound].
  pose proof (bank_shape _ Hm) as [Hall _]. simpl in Hm.
  destruct Hm as (w1 & w2 & -> & -> & w3 & w4 & -> & (_ & Hlo & Hhi) & ->).
  rewrite app_nil_r in *. simpl in *.
  split; [lia|]. split; [|done].
  eapply Forall_impl; [exact Hall|]. apply digit_is_digit.
Qed.

(** X3.  The routing codes extracted from any text are listed without
    repetition; each is eleven characters: four capital letters, the digit
    0, and six capital letters or digits. *)
Theorem ifsc_codes_have_the_format (o : SetOrder) (t : text) :
  NoDup (extract_ifsc_codes o t) /\
  Forall (fun v =>
            exists bank branch,
              v = bank ++ "0" :: branch /\
              length bank = 4%nat /\
              Forall (fun c => is_ascii_upper c = true) bank /\
              length branch = 6%nat /\
              Forall (fun c => is_ascii_upper c || is_digit c = true) branch)
         (extract_ifsc_codes o t).
Proof.
  split; [apply NoDup_list_set|].
  apply Forall_forall. intros v Hv. unfold extract_ifsc_codes in Hv.
  rewrite elem_of_list_set in Hv. apply findall_sound in Hv. simpl in Hv.
  destruct Hv as (w1 & w2 & -> & -> & four & w3 & -> & (H4 & Hlo4 & Hhi4) &
                  w4 & w5 & -> & (c & -> & Hc) & six & w6 & -> &
                  (H6 & Hlo6 & Hhi6) & ->).
  apply plain_char in Hc as ->. exists four, six.
  rewrite app_nil_r. simpl. split_and!; [done|lia| |lia|].
  - eapply Forall_impl; [exact H4|]. apply upper_is_upper.
  - eapply Forall_impl; [exact H6|]. apply upper_digit_is.
Qed.

Lemma letter_is_plain c :
  is_ascii_letter c = true ->
  c <> "@" /\ c <> "." /\ is_digit c = false /\ is_space c = false.
Proof.
  intros H.
  cut (negb (bool_decide (c = "@")) && negb (bool_decide (c = "."))
       && negb (is_digit c) && negb (is_space c) = true).
  { rewrite !andb_true_iff, !negb_true_iff.
    intros [[[?%bool_decide_eq_false_1 ?%bool_decide_eq_false_1] ?] ?].
    done. }
  check_all_characters c H.
Qed.

(** X4.  [extract_upi_ids] raises nothing, and each UPI id it returns is a
    non-empty local part without [@], one [@], and a handle of at least two
    characters, none of them [@], a dot, a digit or white space, which in
    lower case is none of the mail domains. *)
Theorem upi_ids_have_a_payment_handle (o : SetOrder) (t : text) :
  exists l,
    extract_upi_ids o t = Some l /\
    NoDup l /\
    Forall (fun v =>
              exists local handle,
                v = local ++ "@" :: handle /\
                local <> [] /\ ("@" ∉ local) /\
                (2 <= length handle)%nat /\
                Forall (fun c => c <> "@" /\ c <> "." /\
                                 is_digit c = false /\ is_space c = false)
                       handle /\
                text_lower handle ∉ email_domains)
           l.
Proof.
  destruct (extract_upi_ids_total o t) as [l Hl]. exists l.
  split; [done|]. unfold extract_upi_ids in Hl.
  destruct (filter_raising upi_keep _) as [f|] eqn:Hf; [|discriminate].
  injection Hl as <-. split; [apply NoDup_list_set|].
  apply Forall_forall. intros v Hv. rewrite elem_of_list_set in Hv.
  pose proof (filter_raising_kept _ _ _ _ Hf Hv) as Hkeep.
  eapply filter_raising_subset in Hv; [|exact Hf].
  apply findall_sound in Hv. simpl in Hv.
  destruct Hv as (w1 & w2 & -> & -> & local & w3 & -> & (Hloc & Hlo & _) &
                  w4 & w5 & -> & (c & -> & Hc) & handle & w6 & -> &
                  (Hh & Hlo2 & _) & ->).
  apply at_char_ic in Hc as ->. rewrite app_nil_r in *. simpl in *.
  assert (Hnl : "@" ∉ local).
  { eapply Forall_not_elem; [exact Hloc|]. simpl. intros H.
    by apply upi_local_no_at in H. }
  assert (Hnh : "@" ∉ handle).
  { eapply Forall_not_elem; [exact Hh|]. simpl. intros H.
    by apply alpha_plain in H as [? _]. }
  exists local, handle. split_and!; try done.
  - intros ->. simpl in Hlo. lia.
  - eapply Forall_impl; [exact Hh|]. intros c' Hc'.
    by apply letter_is_plain, alpha_letter.
  - unfold upi_keep in Hkeep.
    rewrite (split_on_first "@" local handle Hnl) in Hkeep.
    rewrite (split_on_absent "@" handle Hnh) in Hkeep. simpl in Hkeep.
    injection Hkeep as Hk. apply negb_true_iff in Hk.
    by apply bool_decide_eq_false_1 in Hk.
Qed.

(** X5.  The e-mail addresses extracted from any text are listed without
    repetition; each has exactly one [@], with a non-empty local part before
    it and, after it, a non-empty domain, a dot and an ending of at least
    two characters. *)
Theorem emails_have_one_at_and_a_dot (o : SetOrder) (t : text) :
  NoDup (extract_emails o t) /\
  Forall (fun v =>
            exists local domain ending,
              v = local ++ "@" :: domain ++ "." :: ending /\
              local <> [] /\ domain <> [] /\ (2 <= length ending)%nat /\
              occurrences "@" v = 1%nat)
         (extract_emails o t).
Proof.
  split; [apply NoDup_list_set|].
  apply Forall_forall. intros v Hv. unfold extract_emails in Hv.
  rewrite elem_of_list_set in Hv. apply findall_sound in Hv. simpl in Hv.
  destruct Hv as (w1 & w2 & -> & -> & l & w3 & -> & (Hl & Hlo & _) &
                  w4 & w5 & -> & (c & -> & Hc) & d & w6 & -> &
                  (Hd & Hlod & _) & w7 & w8 & -> & (c' & -> & Hc') &
                  e & w9 & -> & (He & Hloe & _) & ->).
  apply at_char_ic in Hc as ->. apply dot_char_ic in Hc' as ->.
  exists l, d, e. rewrite app_nil_r. simpl. split_and!; try done.
  - intros ->. simpl in Hlo. lia.
  - intros ->. simpl in Hlod. lia.
  - change (l ++ "@" :: d ++ "." :: e)
      with (l ++ ["@"] ++ d ++ ["."] ++ e).
    rewrite !occurrences_app.
    rewrite (occurrences_absent "@" l), (occurrences_absent "@" d),
      (occurrences_absent "@" e); [done| | |].
    + eapply Forall_not_elem; [exact He|]. simpl. intros H.
      by apply email_tld_no_at in H.
    + eapply Forall_not_elem; [exact Hd|]. simpl. intros H.
      by apply email_domain_no_at in H.
    + eapply Forall_not_elem; [exact Hl|]. simpl. intros H.
      by apply email_local_no_at in H.
Qed.

Lemma startswith_app p r : startswith (p ++ r) p = true.
Proof.
  induction p as [|a p IH]; simpl; [by destruct r|].
  by rewrite bool_decide_eq_true_2.
Qed.

Lemma space_lower c : is_space (lower c) = is_space c.
Proof.
  apply eqb_prop. revert c.
  apply (ascii_all (fun c => Bool.eqb (is_space (lower c)) (is_space c))).
  vm_compute. reflexivity.
Qed.

Lemma no_space_lower w :
  Forall (fun c => is_space c = false) (text_lower w) ->
  Forall (fun c => is_space c = false) w.
Proof.
  unfold text_lower. rewrite Forall_map. intros H.
  eapply Forall_impl; [exact H|]. intros c. simpl. by rewrite space_lower.
Qed.

Lemma url_set_no_space c :
  cset_match true url_set c = true -> is_space c = false.
Proof.
  intros H. apply negb_true_iff. check_all_characters c H.
Qed.

Lemma alnum_set_no_space c :
  cset_match true alnum_set c = true -> is_space c = false.
Proof.
  intros H. apply negb_true_iff. check_all_characters c H.
Qed.

(** With case ignored, a literal matches its own spellings only. *)
Lemma lit_chars_lower l : forall w,
  lang true (lit_chars l) w -> text_lower w = text_lower l.
Proof.
  assert (Hone : forall a w, lang true (chr a) w -> text_lower w = [lower a]).
  { intros a w (c & -> & Hc). unfold cset_match in Hc. simpl in Hc.
    rewrite orb_false_r in Hc. apply bool_decide_eq_true_1 in Hc.
    simpl. by rewrite Hc. }
  induction l as [|a l IH]; intros w H.
  - simpl in H. by subst.
  - destruct l as [|b l].
    + by apply Hone.
    + destruct H as (w1 & w2 & -> & H1%Hone & H2%IH).
      unfold text_lower in *. rewrite map_app, H1, H2. done.
Qed.

Lemma lit_start s r w :
  lang true (Cat (lit s) r) w ->
  exists w1 w2, w = w1 ++ w2 /\ text_lower w1 = text_lower (txt s) /\
                lang true r w2.
Proof.
  intros (w1 & w2 & -> & H1 & H2). exists w1, w2.
  split; [done|]. split; [|done]. by apply lit_chars_lower.
Qed.

(** A link is one of the known starts followed by at least one more
    character, none of them white space. *)
Lemma link_shape (p : text) (w rest : text) :
  p ∈ link_starts ->
  text_lower w = p ++ text_lower rest ->
  rest <> [] ->
  Forall (fun c => is_space c = false) rest ->
  (exists q, q ∈ link_starts /\ startswith (text_lower w) q = true /\
             (length q < length w)%nat) /\
  Forall (fun c => is_space c = false) w.
Proof.
  intros Hp Hw Hne Hrest. split.
  - exists p. split; [done|]. rewrite Hw. split; [apply startswith_app|].
    assert (Hlen : length (text_lower w) = length w)
      by (unfold text_lower; apply length_map).
    rewrite <- Hlen, Hw, length_app. unfold text_lower. rewrite length_map.
    destruct rest; [done|]. simpl. lia.
  - apply no_space_lower. rewrite Hw. apply Forall_app. split.
    + revert Hp. unfold link_starts. rewrite !elem_of_cons, elem_of_nil.
      intros H. repeat destruct H as [->|H]; try done;
        repeat constructor.
    + unfold text_lower. rewrite Forall_map.
      eapply Forall_impl; [exact Hrest|]. intros c. simpl.
      by rewrite space_lower.
Qed.

(** On the texts modelled, a link begins, case ignored, with one of the
    known starts, goes on for at least one more character, and holds no
    white space. *)
Lemma links_begin_with_a_start (o : SetOrder) (t : text) :
  NoDup (extract_urls o t) /\
  Forall (fun v =>
            (exists q, q ∈ link_starts /\
                       startswith (text_lower v) q = true /\
                       (length q < length v)%nat) /\
            Forall (fun c => is_space c = false) v)
         (extract_urls o t).
Proof.
  split; [apply NoDup_list_set|].
  apply Forall_forall. intros v Hv. unfold extract_urls in Hv.
  rewrite elem_of_list_set, elem_of_app in Hv.
  destruct Hv as [Hv%findall_sound|Hv%findall_sound].
  - unfold URL_PATTERN, cat_all in Hv. destruct Hv as [Hv|Hv].
    + apply lit_start in Hv as (w1 & w2 & -> & H1 & Hv).
      destruct Hv as (ws & w3 & -> & (Hs & _ & Hhi) & Hv).
      apply lit_start in Hv as (w4 & rest & -> & H4 & (Hrest & Hlo & _)).
      assert (Hne : rest <> []) by (intros ->; simpl in Hlo; lia).
      assert (Hsp : Forall (fun c => is_space c = false) rest).
      { eapply Forall_impl; [exact Hrest|]. apply url_set_no_space. }
      destruct ws as [|c [|c' ws]]; [| |simpl in Hhi; lia].
      * apply (link_shape (txt "http://") _ rest); [by left| |done|done].
        unfold text_lower in *. rewrite !map_app, H1, H4. done.
      * apply Forall_cons in Hs as [Hc _].
        unfold cset_match in Hc. simpl in Hc. rewrite orb_false_r in Hc.
        apply bool_decide_eq_true_1 in Hc.
        apply (link_shape (txt "https://") _ rest);
          [by right; left| |done|done].
        unfold text_lower in *. rewrite !map_app, H1, H4. simpl.
        by rewrite Hc.
    + apply lit_start in Hv as (w1 & w2 & -> & H1 & Hv).
      destruct Hv as (wd & rest & -> & (c & -> & Hc) & (Hrest & Hlo & _)).
      apply dot_char_ic in Hc as ->.
      assert (Hne : rest <> []) by (intros ->; simpl in Hlo; lia).
      assert (Hsp : Forall (fun c => is_space c = false) rest).
      { eapply Forall_impl; [exact Hrest|]. apply url_set_no_space. }
      apply (link_shape (txt "www.") _ rest); [by do 2 right; left| |done|done].
      unfold text_lower in *. rewrite !map_app, H1. done.
  - unfold SHORT_URL_PATTERN, cat_all in Hv.
    destruct Hv as (w0 & w & -> & Hb0 & Hv). simpl in Hb0. subst w0.
    rewrite app_nil_l.
    destruct Hv as (host & w2 & -> & Hhost & Hv).
    destruct Hv as (ws & w3 & -> & (c & -> & Hc) & Hv).
    destruct Hv as (rest & w4 & -> & (Hrest & Hlo & _) & Hb4).
    simpl in Hb4. subst w4. rewrite app_nil_r.
    unfold cset_match in Hc. simpl in Hc. rewrite orb_false_r in Hc.
    apply bool_decide_eq_true_1 in Hc.
    assert (Hne : rest <> []) by (intros ->; simpl in Hlo; lia).
    assert (Hsp : Forall (fun c => is_space c = false) rest).
    { eapply Forall_impl; [exact Hrest|]. apply alnum_set_no_space. }
    assert (Hh : exists q, q ∈ link_starts /\
                           text_lower host ++ ["/"] = q).
    { unfold alt_all in Hhost.
      repeat destruct Hhost as [Hhost|Hhost];
        apply lit_chars_lower in Hhost; rewrite Hhost;
        eexists; (split; [|reflexivity]);
        unfold link_starts; rewrite !elem_of_cons; tauto. }
    destruct Hh as (q & Hq & Hqe).
    apply (link_shape q _ rest); [done| |done|done].
    unfold text_lower in *. rewrite !map_app, <- Hqe. simpl. rewrite Hc.
    by rewrite <- app_assoc.
Qed.

(** Lower case leaves the colon, the slash and the dot alone, and nothing
    else becomes one of them. *)
Lemma lower_mark c : lower c ∈ txt ":/." -> c = lower c.
Proof.
  intros H.
  assert (Hb : bool_decide (lower c ∈ txt ":/.") = true)
    by (by apply bool_decide_eq_true_2).
  clear H. cut (bool_decide (c = lower c) = true).
  { apply bool_decide_eq_true_1. }
  check_all_characters c Hb.
Qed.

Lemma startswith_lookup p : forall s i c,
  startswith s p = true -> p !! i = Some c -> s !! i = Some c.
Proof.
  induction p as [|x p IH]; intros s i c Hs Hp; [done|].
  destruct s as [|y s]; [done|]. simpl in Hs.
  apply andb_true_iff in Hs as [->%bool_decide_eq_true_1 Hs].
  destruct i as [|i]; [done|]. simpl in *. by eapply IH.
Qed.

(** The marks of the start a link begins with stand in the link itself. *)
Lemma marks_kept q v i c :
  startswith (text_lower v) q = true ->
  q !! i = Some c -> c ∈ txt ":/." -> v !! i = Some c.
Proof.
  intros Hs Hq Hc. pose proof (startswith_lookup _ _ _ _ Hs Hq) as Hl.
  unfold text_lower in Hl. rewrite list_lookup_fmap in Hl.
  destruct (v !! i) as [c'|]; [|done]. simpl in Hl. injection Hl as <-.
  by rewrite <- (lower_mark c' Hc).
Qed.

(** X6.  The links extracted from any text are listed without repetition.
    Each is longer than one of the known starts ([http://], [https://],
    [www.] or one of the eight short-link hosts and a slash) and has the
    colon, the slashes and the dots of that start at the same places; it
    holds no white space. *)
Theorem links_keep_the_marks_of_a_start (o : SetOrder) (t : text) :
  NoDup (extract_urls o t) /\
  Forall (fun v =>
            (exists q, q ∈ link_starts /\
                       (length q < length v)%nat /\
                       forall i c, q !! i = Some c -> c ∈ txt ":/." ->
                                   v !! i = Some c) /\
            Forall (fun c => is_space c = false) v)
         (extract_urls o t).
Proof.
  destruct (links_begin_with_a_start o t) as [Hnd Hall]. split; [done|].
  eapply Forall_impl; [exact Hall|]. cbv beta.
  intros v [(q & Hq & Hs & Hlen) Hsp]. split; [|done].
  exists q. split_and!; [done|done|]. intros i c. by apply marks_kept.
Qed.

(** ** Kinds that never share a value *)

Lemma start_has_mark q : q ∈ link_starts -> has_mark q = true.
Proof.
  assert (H : Forall (fun q => has_mark q = true) link_starts).
  { unfold link_starts. repeat (constructor; [vm_compute; reflexivity|]).
    constructor. }
  intros Hq. eapply Forall_forall in H; [exact H|done].
Qed.

(** Every link holds a slash or a dot. *)
Lemma links_have_a_mark o t v : v ∈ extract_urls o t -> has_mark v = true.
Proof.
  intros Hv. destruct (links_begin_with_a_start o t) as [_ Hall].
  eapply Forall_forall in Hall; [|exact Hv].
  destruct Hall as [(q & Hq & Hs & _) _].
  pose proof (start_has_mark q Hq) as Hm.
  apply bool_decide_eq_true_1 in Hm. apply bool_decide_eq_true_2.
  destruct Hm as [(i & Hi)%list_elem_of_lookup_1|(i & Hi)%list_elem_of_lookup_1].
  - left. eapply list_elem_of_lookup_2, (marks_kept q v i "/"); [done|done|].
    vm_compute. right. left.
  - right. eapply list_elem_of_lookup_2, (marks_kept q v i "."); [done|done|].
    vm_compute. do 2 right. left.
Qed.

Lemma plain_is_no_mark c :
  is_ascii_upper c || is_digit c = true -> c <> "/" /\ c <> ".".
Proof.
  intros H.
  cut (negb (bool_decide (c = "/")) && negb (bool_decide (c = ".")) = true).
  { rewrite andb_true_iff, !negb_true_iff.
    intros [?%bool_decide_eq_false_1 ?%bool_decide_eq_false_1]. done. }
  check_all_characters c H.
Qed.

(** Capital letters and digits make no slash and no dot. *)
Lemma plain_has_no_mark v :
  Forall (fun c => is_ascii_upper c || is_digit c = true) v ->
  has_mark v = false.
Proof.
  intros H. apply bool_decide_eq_false_2.
  intros [Hin|Hin]; eapply Forall_forall in H; try exact Hin;
    apply plain_is_no_mark in H as [? ?]; done.
Qed.

Lemma digits_have_no_mark v :
  Forall (fun c => is_digit c = true) v -> has_mark v = false.
Proof.
  intros H. apply plain_has_no_mark. eapply Forall_impl; [exact H|].
  intros c Hc. simpl in *. rewrite Hc. apply orb_true_r.
Qed.

Lemma bank_accounts_have_no_mark o t v :
  v ∈ extract_bank_accounts o t -> has_mark v = false.
Proof.
  unfold extract_bank_accounts. rewrite elem_of_list_set, list_elem_of_filter.
  intros [_ Hm]. apply findall_sound, bank_shape in Hm as [Hall _].
  apply digits_have_no_mark. eapply Forall_impl; [exact Hall|].
  apply digit_is_digit.
Qed.

Lemma phone_numbers_have_no_mark o t v :
  v ∈ extract_phone_numbers o t -> has_mark v = false.
Proof.
  intros (_ & Hall & _)%phone_numbers_shape. by apply digits_have_no_mark.
Qed.

Lemma ifsc_codes_have_no_mark o t v :
  v ∈ extract_ifsc_codes o t -> has_mark v = false.
Proof.
  unfold extract_ifsc_codes. rewrite elem_of_list_set.
  intros Hv%findall_sound. simpl in Hv.
  destruct Hv as (w1 & w2 & -> & -> & four & w3 & -> & (H4 & _) &
                  w4 & w5 & -> & (c & -> & Hc) & six & w6 & -> &
                  (H6 & _) & ->).
  apply plain_char in Hc as ->. rewrite app_nil_r. simpl.
  apply plain_has_no_mark. apply Forall_app. split.
  - eapply Forall_impl; [exact H4|]. intros c Hc.
    apply upper_is_upper in Hc. simpl. by rewrite Hc.
  - constructor; [done|]. eapply Forall_impl; [exact H6|].
    apply upper_digit_is.
Qed.

Lemma findings_marks o t r v k :
  extract_intelligence o (PyStr t) = Some r -> v ∈ findings r k ->
  match k with
  | Url => has_mark v = true
  | BankAccount | PhoneNumber | RoutingCode => has_mark v = false
  | _ => True
  end.
Proof.
  destruct t as [|c t].
  - intros [= <-]. destruct k; simpl; intros H; try done;
      by apply elem_of_nil in H.
  - destruct (extract_intelligence_str o c t) as (u & Hu & ->).
    intros [= <-]. destruct k; simpl; intros H; try done.
    + by eapply bank_accounts_have_no_mark.
    + by eapply phone_numbers_have_no_mark.
    + by eapply links_have_a_mark.
    + by eapply ifsc_codes_have_no_mark.
Qed.

(** C9, amended.  A value found under two kinds is found under one kind
    twice, or it is a link that is also a UPI id or an e-mail address: bank
    accounts, UPI ids, phone numbers, e-mail addresses and routing codes
    never share a value, and a link is never a bank account, a phone number
    or a routing code. *)
Theorem at_most_one_kind_apart_from_links
    (o : SetOrder) (t : text) (r : ExtractionResult) (v : text) (k1 k2 : Kind) :
  extract_intelligence o (PyStr t) = Some r ->
  v ∈ findings r k1 -> v ∈ findings r k2 ->
  k1 = k2 \/
  (k1 = Url /\ (k2 = UpiId \/ k2 = Email)) \/
  (k2 = Url /\ (k1 = UpiId \/ k1 = Email)).
Proof.
  intros Hr H1 H2.
  pose proof (findings_sig _ _ _ _ _ Hr H1) as S1.
  pose proof (findings_sig _ _ _ _ _ Hr H2) as S2.
  pose proof (findings_marks _ _ _ _ _ Hr H1) as M1.
  pose proof (findings_marks _ _ _ _ _ Hr H2) as M2.
  destruct k1, k2; cbn beta iota in S1, S2, M1, M2; destruct_and?;
    try done; try congruence;
    first [ by left
          | by (right; left; split; [|left])
          | by (right; left; split; [|right])
          | by (right; right; split; [|left])
          | by (right; right; split; [|right]) ].
Qed.

Lemma at_most_one_kind_apart_from_links_witness :
  exists r,
    extract_intelligence plain_order
      (PyStr (txt "pay merchant@ybl or user@example.com")) = Some r /\
    txt "merchant@ybl" ∈ findings r UpiId /\
    (UpiId = UpiId \/
     (UpiId = Url /\ (UpiId = UpiId \/ UpiId = Email)) \/
     (UpiId = Url /\ (UpiId = UpiId \/ UpiId = Email))).
Proof.
  eexists. split; [vm_compute; reflexivity|]. split; [left|].
  eapply (at_most_one_kind_apart_from_links plain_order
           (txt "pay merchant@ybl or user@example.com") _
           (txt "merchant@ybl") UpiId UpiId).
  - vm_compute. reflexivity.
  - left.
  - left.
Defined.

(** ** The record methods in closed form *)

Lemma add_message_eq o r c ts now s :
  exec (add_message o r c ts now) s =
  set_intelligence
    (merge_texts o (extracted_intelligence s)
       (if bool_decide (r = scammer) then [c] else []))
    (set_turn_count (turn_count s + 1)
       (set_messages
          (messages s ++
             [{| role := r; content := c; timestamp := Some (or_now ts now) |}])
          s)).
Proof.
  unfold exec, add_message, bind, modify. simpl.
  case_bool_decide; [rewrite _extract_and_merge_run|]; done.
Qed.

Lemma rebuild_loop_eq o h : forall s,
  exec (rebuild_loop o h) s =
  set_intelligence
    (merge_texts o (extracted_intelligence s) (scammer_texts h))
    (set_messages (messages s ++ map message_of_item h) s).
Proof.
  induction h as [|msg h IH]; intros s.
  - unfold exec. simpl. rewrite app_nil_r. by destruct s.
  - unfold exec in *. rewrite rebuild_loop_cons, IH.
    rewrite scammer_texts_cons, merge_texts_app. simpl.
    by rewrite <- app_assoc.
Qed.

Lemma rebuild_from_history_eq o h s :
  exec (rebuild_from_history o h) s =
  set_turn_count (length h)
    (set_intelligence
       (merge_texts o (extracted_intelligence s) (scammer_texts h))
       (set_messages (map message_of_item h) s)).
Proof.
  pose proof (rebuild_loop_eq o h (set_messages [] s)) as Hloop.
  destruct (rebuild_loop_spec o h (set_messages [] s)) as [Hrun _].
  unfold exec, rebuild_from_history, bind, modify in *. simpl in *.
  rewrite Hrun. simpl. rewrite Hloop. simpl. by rewrite length_map.
Qed.

(** ** Merging again *)

Lemma merge_into_absorb new : forall l,
  (forall x, x ∈ new -> x ∈ l) -> merge_into l new = l.
Proof.
  unfold merge_into. induction new as [|x new IH]; intros l H; [done|].
  simpl. unfold append_new at 2.
  rewrite bool_decide_eq_true_2 by (apply H; left).
  apply IH. intros y Hy. apply H. by right.
Qed.

Lemma merge_into_prefix new : forall l, l `prefix_of` merge_into l new.
Proof.
  unfold merge_into. induction new as [|x new IH]; intros l; [done|].
  simpl. etrans; [|apply IH]. unfold append_new.
  case_bool_decide; [done|]. by apply prefix_app_r.
Qed.

Lemma merge_intelligence_absorb o t i :
  (forall k, recorded k = true ->
     forall v, v ∈ turn_findings o t k -> v ∈ held_in i k) ->
  merge_intelligence (extraction o t) t i = i.
Proof.
  intros H. destruct i as [b u p l kw]. unfold merge_intelligence. simpl.
  f_equal; apply merge_into_absorb.
  - apply (H BankAccount eq_refl).
  - apply (H UpiId eq_refl).
  - apply (H PhoneNumber eq_refl).
  - apply (H Url eq_refl).
  - apply (H Keyword eq_refl).
Qed.

Lemma merge_texts_absorb o ts : forall i,
  (forall t, t ∈ ts -> forall k, recorded k = true ->
     forall v, v ∈ turn_findings o t k -> v ∈ held_in i k) ->
  merge_texts o i ts = i.
Proof.
  unfold merge_texts. induction ts as [|t ts IH]; intros i H; [done|].
  simpl. rewrite merge_intelligence_absorb.
  - apply IH. intros t' Ht'. apply H. by right.
  - apply H. left.
Qed.

Lemma merge_texts_twice o i ts1 ts2 :
  (forall t, t ∈ ts2 -> t ∈ ts1) ->
  merge_texts o (merge_texts o i ts1) ts2 = merge_texts o i ts1.
Proof.
  intros Hsub. apply merge_texts_absorb. intros t Ht k Hk v Hv.
  apply held_merge_texts; [done|]. right. exists t. auto.
Qed.

Lemma merge_texts_prefix o ts : forall i k,
  held_in i k `prefix_of` held_in (merge_texts o i ts) k.
Proof.
  unfold merge_texts. induction ts as [|t ts IH]; intros i k; [done|].
  simpl. etrans; [|apply IH].
  destruct k; simpl; try done; apply merge_into_prefix.
Qed.

(** X7.  Once a text has gone through a record as a scammer's turn, adding
    it again as a scammer's message leaves the intelligence of the record
    exactly as it is: same entries, same order. *)
Theorem reprocessing_a_text_changes_no_intelligence
    (o : SetOrder) (ops : list op) (s : ConversationState)
    (t : text) (ts : option Z) (now : Z) :
  t ∈ processed ops ->
  extracted_intelligence
    (run_ops o (ops ++ [AddMessage scammer t ts now]) s)
  = extracted_intelligence (run_ops o ops s).
Proof.
  intros Ht. rewrite !run_ops_intelligence, processed_app, merge_texts_app.
  apply merge_texts_twice. unfold processed at 1. simpl.
  intros t' [->|H]%elem_of_cons; [done|by apply elem_of_nil in H].
Qed.

Lemma reprocessing_a_text_changes_no_intelligence_witness :
  let ops := [AddMessage scammer (txt "pay merchant@ybl, urgent") None 1;
              AddMessage (txt "user") (txt "ok ji") None 2] in
  txt "pay merchant@ybl, urgent" ∈ processed ops /\
  extracted_intelligence
    (run_ops plain_order
       (ops ++ [AddMessage scammer (txt "pay merchant@ybl, urgent") None 3])
       (new_state (txt "s") DEFAULT_PERSONA))
  = extracted_intelligence
      (run_ops plain_order ops (new_state (txt "s") DEFAULT_PERSONA)).
Proof.
  cbv zeta. split; [left|].
  apply reprocessing_a_text_changes_no_intelligence. left.
Defined.

(** X8.  Rebuilding a record from the same history a second time changes
    nothing: the record after two rebuilds is the record after one. *)
Theorem rebuild_from_history_is_idempotent
    (o : SetOrder) (h : list HistoryItem) (s : ConversationState) :
  exec (rebuild_from_history o h) (exec (rebuild_from_history o h) s)
  = exec (rebuild_from_history o h) s.
Proof.
  rewrite !rebuild_from_history_eq. simpl.
  by rewrite merge_texts_twice.
Qed.

(** X9.  Calling [get_or_create_session] again with the same arguments
    gives the same record and the same store: a history that has just been
    rebuilt from is no longer longer than the record. *)
Theorem get_or_create_session_is_idempotent
    (o : SetOrder) (sid p : text) (h : option (list HistoryItem))
    (st : Sessions) :
  get_or_create_session o sid p h (get_or_create_session o sid p h st).2
  = get_or_create_session o sid p h st.
Proof.
  rewrite (get_or_create_session_spec o sid p h st). cbv zeta. cbn [snd].
  set (s0 := session_or_new st sid p). set (hh := default [] h).
  set (s' := if nonempty hh && (length (messages s0) <? length hh)%nat
             then exec (rebuild_from_history o hh) s0 else s0).
  rewrite get_or_create_session_spec. cbv zeta. fold hh.
  assert (Hs : session_or_new (<[sid:=s']> st) sid p = s')
    by (unfold session_or_new; by rewrite lookup_insert_eq).
  rewrite Hs.
  assert (Hb' : nonempty hh && (length (messages s') <? length hh)%nat = false).
  { unfold s'.
    destruct (nonempty hh && (length (messages s0) <? length hh)%nat) eqn:Hb;
      [|exact Hb].
    destruct (rebuild_from_history_spec o hh s0) as (_ & Hm & _).
    cbv zeta in Hm. by rewrite Hm, length_map, Nat.ltb_irrefl, andb_false_r. }
  by rewrite Hb', insert_insert_eq.
Qed.

(** ** What a turn leaves alone and what it adds *)

Lemma classify_step_frame w m s :
  persona (classify_step w m s).2 = persona s /\
  agent_notes (classify_step w m s).2 = agent_notes s.
Proof. unfold classify_step. by destruct (scam_detected s). Qed.

Lemma report_gate_frame response s :
  persona (report_gate response s).2 = persona s /\
  agent_notes (report_gate response s).2 = agent_notes s.
Proof.
  unfold report_gate, send_guvi_callback.
  destruct (scam_detected s && has_valuable_intelligence s); [|done].
  destruct (callback_sent s); [done|].
  destruct response as [code|]; [|done]. by destruct (code =? 200)%nat.
Qed.

(** The reply of a turn on a record whose turn count is [n] on arrival. *)
Lemma reply_of_turn w m o s :
  generate_contextual_response w
    (classify_step w m
       (exec (add_message o scammer m None (now_in w)) s)).2
  = match generated w with
    | Some g => strip g
    | None => default [] (fallbacks !! ((turn_count s + 1) mod 8)%nat)
    end.
Proof.
  unfold generate_contextual_response, _get_fallback_response.
  destruct (generated w); [done|].
  destruct (classify_step_fields w m
              (exec (add_message o scammer m None (now_in w)) s))
    as (_ & -> & _).
  by destruct (add_message_spec o scammer m None (now_in w) s)
    as (_ & _ & -> & _).
Qed.

Lemma turn_result o w m s :
  (turn o w m s).1.1 =
    Success match generated w with
            | Some g => strip g
            | None => default [] (fallbacks !! ((turn_count s + 1) mod 8)%nat)
            end /\
  messages (turn o w m s).2 =
    messages s ++
      [{| role := scammer; content := m; timestamp := Some (now_in w) |};
       {| role := txt "user";
          content := match generated w with
                     | Some g => strip g
                     | None =>
                         default []
                           (fallbacks !! ((turn_count s + 1) mod 8)%nat)
                     end;
          timestamp := Some (now_out w) |}] /\
  persona (turn o w m s).2 = persona s /\
  agent_notes (turn o w m s).2 = agent_notes s.
Proof.
  rewrite turn_spec. cbv zeta. cbn [fst snd].
  rewrite (reply_of_turn w m o s).
  set (s1 := exec (add_message o scammer m None (now_in w)) s).
  set (reply := match generated w with
                | Some g => strip g
                | None => default [] (fallbacks !! ((turn_count s + 1) mod 8)%nat)
                end).
  destruct (classify_step_fields w m s1) as (Hm2 & _).
  destruct (classify_step_frame w m s1) as (Hp2 & Ha2).
  set (s2 := (classify_step w m s1).2) in *.
  destruct (report_gate_fields (post_status w)
              (exec (add_message o (txt "user") reply None (now_out w)) s2))
    as (Hm4 & _).
  destruct (report_gate_frame (post_status w)
              (exec (add_message o (txt "user") reply None (now_out w)) s2))
    as (Hp4 & Ha4).
  rewrite Hm4, Hp4, Ha4, add_message_eq. simpl.
  rewrite Hm2, Hp2, Ha2. unfold s1. rewrite add_message_eq. simpl.
  by rewrite <- app_assoc.
Qed.

(** In the model a turn always runs through: the record is stored under the
    session id with the two messages of the turn appended. *)
Lemma process_scam_message_result
    (o : SetOrder) (w : World) (m sid p : text)
    (h : option (list HistoryItem)) (st : Sessions) :
  exists s' reply,
    (process_scam_message o w m sid h p st).1.1 = <[sid := s']> st /\
    (process_scam_message o w m sid h p st).1.2 = Success reply /\
    reply =
      match generated w with
      | Some g => strip g
      | None =>
          default []
            (fallbacks !!
               (((if rebuilds st sid p h then length (default [] h)
                  else turn_count (session_or_new st sid p)) + 1) mod 8)%nat)
      end /\
    messages s' =
      (if rebuilds st sid p h then map message_of_item (default [] h)
       else messages (session_or_new st sid p))
      ++ [{| role := scammer; content := m; timestamp := Some (now_in w) |};
          {| role := txt "user"; content := reply;
             timestamp := Some (now_out w) |}] /\
    turn_count s' =
      ((if rebuilds st sid p h then length (default [] h)
        else turn_count (session_or_new st sid p)) + 2)%nat.
Proof.
  rewrite process_scam_message_spec. cbv zeta. cbn [fst snd].
  fold (rebuilds st sid p h).
  set (s0 := session_or_new st sid p). set (hh := default [] h).
  destruct (rebuild_from_history_spec o hh s0) as (_ & Hm & Ht & _).
  cbv zeta in Hm, Ht.
  set (sr := if rebuilds st sid p h
             then exec (rebuild_from_history o hh) s0 else s0).
  assert (Hmr : messages sr =
                if rebuilds st sid p h then map message_of_item hh
                else messages s0) by (unfold sr; by destruct (rebuilds _ _ _ _)).
  assert (Htr : turn_count sr =
                if rebuilds st sid p h then length hh else turn_count s0)
    by (unfold sr; by destruct (rebuilds _ _ _ _)).
  destruct (turn_result o w m sr) as (Hres & Hmsg & _).
  destruct (turn_fields o w m sr) as (_ & _ & Hcount & _).
  eexists _, _. split; [done|]. rewrite Hres, Hmsg, Hcount, Hmr, Htr.
  split_and!; done.
Qed.

(** X10.  When a turn answers with the success shape, the record is stored
    under the session id, with the scammer's message and the reply appended
    to the messages the record had (those of the history, when it was
    rebuilt from one) and the turn count two higher; the reply is the
    stripped text of the language model or, without one, the fallback whose
    index is the turn count modulo 8. *)
Theorem turn_appends_message_and_reply
    (o : SetOrder) (w : World) (m sid p : text)
    (h : option (list HistoryItem)) (st : Sessions) (reply : text) :
  (process_scam_message o w m sid h p st).1.2 = Success reply ->
  exists s',
    (process_scam_message o w m sid h p st).1.1 = <[sid := s']> st /\
    reply =
      match generated w with
      | Some g => strip g
      | None =>
          default []
            (fallbacks !!
               (((if rebuilds st sid p h then length (default [] h)
                  else turn_count (session_or_new st sid p)) + 1) mod 8)%nat)
      end /\
    messages s' =
      (if rebuilds st sid p h then map message_of_item (default [] h)
       else messages (session_or_new st sid p))
      ++ [{| role := scammer; content := m; timestamp := Some (now_in w) |};
          {| role := txt "user"; content := reply;
             timestamp := Some (now_out w) |}] /\
    turn_count s' =
      ((if rebuilds st sid p h then length (default [] h)
        else turn_count (session_or_new st sid p)) + 2)%nat.
Proof.
  intros Hreply.
  destruct (process_scam_message_result o w m sid p h st)
    as (s' & reply' & Hst & Hres & Hr & Hm & Ht).
  rewrite Hres in Hreply. injection Hreply as <-.
  exists s'. split_and!; done.
Qed.

Lemma turn_appends_message_and_reply_witness :
  let w := {| now_in := 1; now_out := 2;
              verdict := {| is_scam := true; confidence := 90;
                            reason := txt "payment request" |};
              generated := None; post_status := None |} in
  let reply :=
    txt "Okay beta, but how will I receive the money? What details you need?" in
  (process_scam_message plain_order w (txt "pay merchant@ybl") (txt "s")
     None DEFAULT_PERSONA ∅).1.2 = Success reply /\
  exists s',
    (process_scam_message plain_order w (txt "pay merchant@ybl") (txt "s")
       None DEFAULT_PERSONA ∅).1.1 = <[txt "s" := s']> ∅ /\
    turn_count s' = 2%nat.
Proof.
  cbv zeta.
  match goal with
  | |- ?H /\ _ => assert (Hreply : H) by (vm_compute; reflexivity)
  end.
  split; [exact Hreply|].
  destruct (turn_appends_message_and_reply _ _ _ _ _ _ _ _ Hreply)
    as (s' & Hst & _ & _ & Ht).
  exists s'. split; [exact Hst|]. rewrite Ht. reflexivity.
Defined.

(** X11.  A turn of one session leaves the record of every other session
    as it is. *)
Theorem other_sessions_are_untouched
    (o : SetOrder) (w : World) (m sid p : text)
    (h : option (list HistoryItem)) (st : Sessions) (other : text) :
  other <> sid ->
  (process_scam_message o w m sid h p st).1.1 !! other = st !! other.
Proof.
  intros Hne. rewrite process_scam_message_spec. cbv zeta. cbn [fst snd].
  by rewrite lookup_insert_ne.
Qed.

Lemma other_sessions_are_untouched_witness :
  let w := {| now_in := 1; now_out := 2;
              verdict := {| is_scam := true; confidence := 90;
                            reason := txt "payment request" |};
              generated := None; post_status := None |} in
  let st := (process_scam_message plain_order w (txt "pay merchant@ybl")
               (txt "a") None DEFAULT_PERSONA ∅).1.1 in
  (process_scam_message plain_order w (txt "call 9876543210")
     (txt "b") None DEFAULT_PERSONA st).1.1 !! txt "a" = st !! txt "a".
Proof.
  cbv zeta. apply other_sessions_are_untouched. discriminate.
Defined.

(** ** What holds along a session *)

(** One turn on a stored record: the lists grow at the end, the persona and
    the session id stay. *)
Lemma process_call_step o sid c st s :
  st !! sid = Some s ->
  exists s',
    (process_call o sid c st).1.1 !! sid = Some s' /\
    (forall k, held s k `prefix_of` held s' k) /\
    persona s' = persona s /\
    session_id s' = session_id s.
Proof.
  intros Hs. unfold process_call. rewrite process_scam_message_spec.
  cbv zeta. cbn [fst snd]. rewrite lookup_insert_eq.
  unfold session_or_new. rewrite Hs.
  set (b := nonempty _ && _). set (h := default [] (history c)).
  set (sr := if b then exec (rebuild_from_history o h) s else s).
  assert (Hr : (forall k, held s k `prefix_of` held sr k) /\
               persona sr = persona s /\ session_id sr = session_id s).
  { unfold sr. destruct b; [|done]. rewrite rebuild_from_history_eq.
    split; [|done]. intros k. unfold held. simpl. apply merge_texts_prefix. }
  destruct Hr as (Hpre & Hper & Hid).
  destruct (turn_fields o (world c) (msg c) sr) as (Hi & _ & _ & Hid' & _).
  destruct (turn_result o (world c) (msg c) sr) as (_ & _ & Hper' & _).
  eexists. split; [done|]. split_and!.
  - intros k. etrans; [apply Hpre|]. unfold held. rewrite Hi.
    apply merge_texts_prefix.
  - by rewrite Hper'.
  - by rewrite Hid'.
Qed.

(** What every turn keeps between the record before and after, it keeps
    along a sequence of turns. *)
Lemma run_calls_rel (R : ConversationState -> ConversationState -> Prop)
    o sid :
  (forall s, R s s) ->
  (forall s1 s2 s3, R s1 s2 -> R s2 s3 -> R s1 s3) ->
  (forall c st s, st !! sid = Some s ->
     exists s', (process_call o sid c st).1.1 !! sid = Some s' /\ R s s') ->
  forall calls st s, st !! sid = Some s ->
    exists s', (run_calls o sid calls st).1 !! sid = Some s' /\ R s s'.
Proof.
  intros Hrefl Htrans Hstep. induction calls as [|c calls IH]; intros st s Hs.
  - simpl. eauto.
  - simpl. destruct (Hstep c st s Hs) as (s1 & Hs1 & HR1).
    destruct (process_call o sid c st) as [[st1 resp] evs]. simpl in Hs1.
    destruct (IH st1 s1 Hs1) as (s' & Hs' & HR').
    destruct (run_calls o sid calls st1) as [st2 evs2]. simpl in *.
    eauto.
Qed.

(** X12.  If every record of the store is under its own session id, this
    is still so after a turn of any session. *)
Theorem store_stays_keyed
    (o : SetOrder) (w : World) (m sid p : text)
    (h : option (list HistoryItem)) (st : Sessions) :
  keyed st -> keyed (process_scam_message o w m sid h p st).1.1.
Proof.
  intros Hk k s. rewrite process_scam_message_spec. cbv zeta. cbn [fst snd].
  destruct (decide (k = sid)) as [->|Hne].
  - rewrite lookup_insert_eq. intros [= <-].
    destruct (turn_fields o w m
                (if nonempty (default [] h)
                    && (length (messages (session_or_new st sid p))
                        <? length (default [] h))%nat
                 then exec (rebuild_from_history o (default [] h))
                        (session_or_new st sid p)
                 else session_or_new st sid p))
      as (_ & _ & _ & -> & _).
    assert (H0 : session_id (session_or_new st sid p) = sid).
    { unfold session_or_new. destruct (st !! sid) as [s0|] eqn:H0; [|done].
      by apply Hk. }
    destruct (_ && _); [|done]. by rewrite rebuild_from_history_eq.
  - rewrite lookup_insert_ne by done. apply Hk.
Qed.

Lemma store_stays_keyed_witness :
  let w := {| now_in := 1; now_out := 2;
              verdict := {| is_scam := true; confidence := 90;
                            reason := txt "payment request" |};
              generated := None; post_status := None |} in
  keyed ∅ /\
  keyed (process_scam_message plain_order w (txt "pay merchant@ybl")
           (txt "a") None DEFAULT_PERSONA ∅).1.1.
Proof.
  cbv zeta.
  assert (H0 : keyed ∅) by (intros k s H; by rewrite lookup_empty in H).
  split; [exact H0|]. by apply store_stays_keyed.
Defined.

(** X13.  A new record gets one of the three personas, the default one when
    the name asked for is unknown; and the persona of a stored record stays
    the same over any sequence of turns, whatever persona the turns ask
    for. *)
Theorem persona_is_fixed_at_creation :
  (forall sid p,
     persona (new_state sid p) ∈ PERSONAS /\
     (p ∉ PERSONAS -> persona (new_state sid p) = DEFAULT_PERSONA)) /\
  (forall o sid calls st s,
     st !! sid = Some s ->
     exists s', (run_calls o sid calls st).1 !! sid = Some s' /\
                persona s' = persona s).
Proof.
  split.
  - intros sid p. unfold new_state. simpl. case_bool_decide; split; try done.
    vm_compute. left.
  - intros o sid calls st s Hs.
    apply (run_calls_rel (fun a b => persona b = persona a) o sid);
      [done|congruence| |done].
    intros c st0 s0 H0.
    destruct (process_call_step o sid c st0 s0 H0) as (s' & ? & _ & ? & _).
    eauto.
Qed.

Lemma persona_is_fixed_at_creation_witness :
  let w := {| now_in := 1; now_out := 2;
              verdict := {| is_scam := true; confidence := 90;
                            reason := txt "payment request" |};
              generated := None; post_status := None |} in
  let c1 := {| world := w; msg := txt "pay merchant@ybl"; history := None;
               persona_key := txt "naive_student" |} in
  let c2 := {| world := w; msg := txt "hurry"; history := None;
               persona_key := txt "curious_housewife" |} in
  let st := (process_call plain_order (txt "s") c1 ∅).1.1 in
  exists s,
    st !! txt "s" = Some s /\ persona s = txt "naive_student" /\
    exists s',
      (run_calls plain_order (txt "s") [c2; c2] st).1 !! txt "s" = Some s' /\
      persona s' = persona s.
Proof.
  cbv zeta. eexists. split; [vm_compute; reflexivity|].
  split; [reflexivity|].
  apply (proj2 persona_is_fixed_at_creation). vm_compute. reflexivity.
Defined.

(** X14.  Over any sequence of turns of a session, with or without supplied
    histories, each list of the record only grows at its end: what it held
    before is a prefix of what it holds after, so findings stay in the order
    in which they were first found. *)
Theorem findings_keep_their_order
    (o : SetOrder) (sid : text) (calls : list Call) (st : Sessions)
    (s : ConversationState) :
  st !! sid = Some s ->
  exists s', (run_calls o sid calls st).1 !! sid = Some s' /\
             forall k, held s k `prefix_of` held s' k.
Proof.
  apply (run_calls_rel
           (fun a b => forall k, held a k `prefix_of` held b k) o sid).
  - done.
  - intros s1 s2 s3 H12 H23 k. etrans; [apply H12|apply H23].
  - intros c st0 s0 H0.
    destruct (process_call_step o sid c st0 s0 H0) as (s' & ? & ? & _).
    eauto.
Qed.

Lemma findings_keep_their_order_witness :
  let w := {| now_in := 1; now_out := 2;
              verdict := {| is_scam := true; confidence := 90;
                            reason := txt "payment request" |};
              generated := None; post_status := None |} in
  let c1 := {| world := w; msg := txt "pay merchant@ybl"; history := None;
               persona_key := DEFAULT_PERSONA |} in
  let c2 := {| world := w; msg := txt "or to other@paytm"; history := None;
               persona_key := DEFAULT_PERSONA |} in
  let st := (process_call plain_order (txt "s") c1 ∅).1.1 in
  exists s,
    st !! txt "s" = Some s /\ held s UpiId = [txt "merchant@ybl"] /\
    exists s',
      (run_calls plain_order (txt "s") [c2] st).1 !! txt "s" = Some s' /\
      forall k, held s k `prefix_of` held s' k.
Proof.
  cbv zeta. eexists. split; [vm_compute; reflexivity|].
  split; [reflexivity|].
  apply findings_keep_their_order. vm_compute. reflexivity.
Defined.

(** X15.  On every record the pipeline makes for a session that was not in
    the store, the turn count is the number of messages, also when turns
    came with histories that were replayed. *)
Theorem turn_count_is_number_of_messages
    (o : SetOrder) (sid : text) (calls : list Call) (st : Sessions)
    (s' : ConversationState) :
  st !! sid = None ->
  (run_calls o sid calls st).1 !! sid = Some s' ->
  turn_count s' = length (messages s').
Proof.
  intros Hnone. apply run_calls_turn_count. intros s Hs. congruence.
Qed.

Lemma turn_count_is_number_of_messages_witness :
  let w := {| now_in := 1; now_out := 2;
              verdict := {| is_scam := true; confidence := 90;
                            reason := txt "payment request" |};
              generated := None; post_status := None |} in
  let c1 := {| world := w; msg := txt "pay merchant@ybl";
               history := Some [{| h_sender := Some scammer;
                                   h_text := Some (txt "hello");
                                   h_timestamp := None |}];
               persona_key := DEFAULT_PERSONA |} in
  exists s',
    (run_calls plain_order (txt "s") [c1; c1] ∅).1 !! txt "s" = Some s' /\
    turn_count s' = length (messages s').
Proof.
  cbv zeta.
  match goal with
  | |- exists s', (run_calls ?o ?sid ?calls ?st).1 !! _ = _ /\ _ =>
      eexists; split; [vm_compute; reflexivity|];
      apply (turn_count_is_number_of_messages o sid calls st);
      [reflexivity|vm_compute; reflexivity]
  end.
Defined.

(** ** Keywords, notes, fallbacks and the context *)

(** X16.  After any sequence of [add_message] and [rebuild_from_history]
    calls on a new record, the keywords of the record are phrases of the
    fixed list, in the spelling of the list, each at most once: there are
    never more than fifteen. *)
Theorem keywords_come_from_the_list
    (o : SetOrder) (sid p : text) (ops : list op) :
  NoDup (held (run_ops o ops (new_state sid p)) Keyword) /\
  held (run_ops o ops (new_state sid p)) Keyword ⊆ SUSPICIOUS_KEYWORDS /\
  (length (held (run_ops o ops (new_state sid p)) Keyword) <= 15)%nat.
Proof.
  assert (Hnd : NoDup (held (run_ops o ops (new_state sid p)) Keyword)).
  { unfold held. rewrite run_ops_intelligence. apply NoDup_merge_texts.
    simpl. constructor. }
  assert (Hsub : held (run_ops o ops (new_state sid p)) Keyword
                 ⊆ SUSPICIOUS_KEYWORDS).
  { intros v. unfold held. rewrite run_ops_intelligence.
    rewrite held_merge_texts by done.
    intros [H|(t & _ & H)]; [by apply elem_of_nil in H|].
    simpl in H. unfold keywords_in in H.
    by apply list_elem_of_filter in H as [_ ?]. }
  split_and!; [done|done|].
  change 15%nat with (length SUSPICIOUS_KEYWORDS).
  apply submseteq_length. by apply NoDup_submseteq.
Qed.

(** X17.  [send_guvi_callback] returns true exactly when the record is
    marked as sent afterwards, and it posts nothing exactly when the record
    was marked as sent before. *)
Theorem callback_result_tells_the_flag
    (response : option nat) (s : ConversationState) :
  (send_guvi_callback response s).1.1
    = callback_sent (send_guvi_callback response s).2 /\
  ((send_guvi_callback response s).1.2 = [] <-> callback_sent s = true) /\
  (length (send_guvi_callback response s).1.2 <= 1)%nat.
Proof.
  unfold send_guvi_callback. destruct (callback_sent s) eqn:Hc.
  - cbn [fst snd]. rewrite Hc. split; [done|]. split; [done|]. simpl. lia.
  - destruct response as [code|]; [destruct (code =? 200)%nat|];
      cbn [fst snd]; rewrite ?Hc; (split; [done|]);
      (split; [split; discriminate|simpl; lia]).
Qed.

(** X18.  The agent notes are never empty, and they are the stock sentence
    exactly when the record holds no keyword, no UPI id, no bank account and
    no link; phone numbers do not count. *)
Theorem agent_notes_are_never_empty (s : ConversationState) :
  nonempty (generate_agent_notes s) = true /\
  (generate_agent_notes s = txt "Scam conversation detected" <->
   held s Keyword = [] /\ held s UpiId = [] /\
   held s BankAccount = [] /\ held s Url = []).
Proof.
  unfold generate_agent_notes, held. simpl.
  destruct (suspiciousKeywords _) as [|kw kws], (upiIds _) as [|u us],
    (bankAccounts _) as [|b bs], (phishingLinks _) as [|l ls];
    simpl; (split; [reflexivity|]); split;
    try done; try (intros (? & ? & ? & ?); done).
Qed.

(** X19.  [_get_fallback_response] always finds its reply in the list of
    fallbacks: the index is within bounds for every turn count, and the
    reply is not empty. *)
Theorem fallback_is_one_of_the_eight (s : ConversationState) :
  _get_fallback_response s ∈ fallbacks /\
  nonempty (_get_fallback_response s) = true.
Proof.
  unfold _get_fallback_response.
  assert (Hlt : (turn_count s mod length fallbacks < length fallbacks)%nat)
    by (apply Nat.mod_upper_bound; discriminate).
  apply lookup_lt_is_Some in Hlt as [r Hr]. rewrite Hr. simpl.
  assert (Hin : r ∈ fallbacks) by (by eapply list_elem_of_lookup_2).
  split; [done|].
  assert (Hall : Forall (fun r => nonempty r = true) fallbacks)
    by (repeat constructor).
  eapply Forall_forall in Hall; [exact Hall|done].
Qed.

Lemma last_n_app {A} (older recent : list A) n :
  length recent = n -> last_n n (older ++ recent) = recent.
Proof.
  intros <-. unfold last_n. rewrite length_app, Nat.add_sub.
  by rewrite drop_app_length.
Qed.

(** X20.  The conversation context is made of the last fifteen messages
    only: when there are that many, whatever came before them does not
    show. *)
Theorem context_is_the_last_fifteen
    (s : ConversationState) (older recent : list Message) :
  messages s = older ++ recent ->
  length recent = 15%nat ->
  get_full_conversation_context s
  = join ["010"] (map context_line recent).
Proof.
  intros Hm Hlen. unfold get_full_conversation_context.
  rewrite Hm, (last_n_app older recent 15 Hlen).
  destruct recent as [|r recent]; [discriminate|].
  by destruct older.
Qed.

Lemma context_is_the_last_fifteen_witness :
  let old := {| role := scammer; content := txt "first"; timestamp := None |} in
  let new := {| role := txt "user"; content := txt "ok"; timestamp := None |} in
  let s := set_messages (old :: replicate 15 new)
             (new_state (txt "s") DEFAULT_PERSONA) in
  length (replicate 15 new) = 15%nat /\
  get_full_conversation_context s
  = join ["010"] (map context_line (replicate 15 new)).
Proof.
  cbv zeta. split; [reflexivity|].
  apply (context_is_the_last_fifteen _
           [{| role := scammer; content := txt "first"; timestamp := None |}]);
    reflexivity.
Defined.

(** ** The classifier's answer and the endpoint *)

Lemma normalized_reason_nonempty (r : option Detector.json) :
  nonempty
    (strip match r with
           | Some (Detector.JStr s) =>
               if bool_decide (strip s = []) then Detector.no_reason else s
           | Some _ => Detector.no_reason
           | None => Detector.no_reason
           end) = true.
Proof.
  assert (H0 : nonempty (strip Detector.no_reason) = true)
    by (vm_compute; reflexivity).
  destruct r as [[| | | |s|]|]; try exact H0.
  case_bool_decide as Hs; [exact H0|]. by destruct (strip s).
Qed.

Lemma normalized_confidence_bound (z : Z) :
  (Z.to_nat (0 `max` (100 `min` z)) <= 100)%nat.
Proof. lia. Qed.

Lemma validated_verdict_bounds
    (int_of_text : text -> option Z) (data : gmap text Detector.json)
    (v : Verdict) :
  Detector.validate_scam_response int_of_text data = Some v ->
  (confidence v <= 100)%nat /\ nonempty (reason v) = true.
Proof.
  unfold Detector.validate_scam_response. cbv zeta.
  pose proof (normalized_reason_nonempty (data !! txt "reason")) as Hr.
  set (rsn := strip _) in *. clearbody rsn.
  destruct (Detector.py_int _ _); intros [= <-]; cbn [confidence reason];
    auto using normalized_confidence_bound with lia.
Qed.

(** X21.  [validate_scam_response] raises exactly when the confidence is an
    infinite float.  Otherwise the confidence it gives is at most 100, and 0
    when the key is missing; the reason is never empty; and a missing
    [is_scam] counts as no scam. *)
Theorem validated_verdict_is_in_range
    (int_of_text : text -> option Z) (data : gmap text Detector.json) :
  (Detector.validate_scam_response int_of_text data = None <->
   data !! txt "confidence" = Some (Detector.JFloat Detector.Infinite)) /\
  (forall v,
     Detector.validate_scam_response int_of_text data = Some v ->
     (confidence v <= 100)%nat /\
     nonempty (reason v) = true /\
     (data !! txt "confidence" = None -> confidence v = 0%nat) /\
     (data !! txt "is_scam" = None -> is_scam v = false)).
Proof.
  unfold Detector.validate_scam_response. cbv zeta.
  pose proof (normalized_reason_nonempty (data !! txt "reason")) as Hr.
  set (rsn := strip _) in *.
  set (scam := match data !! txt "is_scam" with
               | Some (Detector.JBool b) => b
               | Some (Detector.JStr s) =>
                   bool_decide (text_lower s ∈ Detector.truthy_strings)
               | Some v => Detector.truth v
               | None => false
               end).
  assert (Hscam : data !! txt "is_scam" = None -> scam = false)
    by (unfold scam; by intros ->).
  clearbody rsn scam.
  unfold default.
  destruct (data !! txt "confidence") as [c|].
  - destruct c as [|b|z|[m e| |]|s|t]; cbn [Detector.py_int from_option id];
      try destruct (int_of_text s);
      (split; [split; intros H; try discriminate H; try reflexivity|]).
    all: intros v Hv; try discriminate Hv; injection Hv as <-;
      cbn [confidence reason is_scam];
      split_and!; auto using normalized_confidence_bound; try done; lia.
  - cbn [Detector.py_int from_option id]. split; [split; intros; congruence|].
    intros v [= <-]. cbn [confidence reason is_scam].
    split_and!; auto using normalized_confidence_bound.
Qed.

(** X22.  [detect_scam] always gives a verdict with a confidence of at most
    100 and a reason that is not empty.  The verdict says scam only when the
    message is not blank, the language model gave a text, an object was
    extracted from it and the validation of that object gave this verdict:
    every failure on the way is answered with no scam and confidence 0. *)
Theorem detect_scam_fails_to_no_scam
    (int_of_text : text -> option Z)
    (generate_content : text -> Detector.model_reply)
    (extract_json_safe : text -> gmap text Detector.json + text)
    (message : text) :
  (confidence (Detector.detect_scam int_of_text generate_content
                 extract_json_safe message) <= 100)%nat /\
  nonempty (reason (Detector.detect_scam int_of_text generate_content
                      extract_json_safe message)) = true /\
  (is_scam (Detector.detect_scam int_of_text generate_content
              extract_json_safe message) = true ->
   strip message <> [] /\
   exists raw_text parsed_data,
     generate_content message = Detector.ModelText (Some raw_text) /\
     raw_text <> [] /\
     extract_json_safe raw_text = inl parsed_data /\
     Detector.validate_scam_response int_of_text parsed_data
     = Some (Detector.detect_scam int_of_text generate_content
               extract_json_safe message)).
Proof.
  assert (Hfail : forall why,
    nonempty why = true ->
    (confidence (Detector.failed why) <= 100)%nat /\
    nonempty (reason (Detector.failed why)) = true /\
    (is_scam (Detector.failed why) = true ->
     strip message <> [] /\
     exists raw_text parsed_data,
       generate_content message = Detector.ModelText (Some raw_text) /\
       raw_text <> [] /\
       extract_json_safe raw_text = inl parsed_data /\
       Detector.validate_scam_response int_of_text parsed_data
       = Some (Detector.failed why))).
  { intros why Hwhy. cbn [Detector.failed confidence reason is_scam].
    split_and!; [lia|done|discriminate]. }
  unfold Detector.detect_scam.
  destruct (bool_decide (message = []) || bool_decide (strip message = []))
    eqn:Hblank; [by apply Hfail|].
  apply orb_false_elim in Hblank as [_ Hblank].
  apply bool_decide_eq_false_1 in Hblank.
  destruct (generate_content message) as [[| |] e|[raw|]] eqn:Hgen;
    try (by apply Hfail); try (apply Hfail; by destruct e).
  change (default [] (Some raw)) with raw.
  destruct raw as [|c raw]; [by apply Hfail|]. cbn [nonempty negb].
  remember (c :: raw) as raw_text eqn:Hraw.
  destruct (extract_json_safe raw_text) as [parsed|e] eqn:Hext;
    [|by apply Hfail].
  destruct (Detector.validate_scam_response int_of_text parsed) as [v|]
    eqn:Hval; [|by apply Hfail].
  destruct (validated_verdict_bounds int_of_text parsed v Hval)
    as (Hc & Hr).
  split_and!; [done|done|]. intros _. split; [done|].
  exists raw_text, parsed. split_and!; try done. by subst raw_text.
Qed.

(** What the endpoint hands to [process_scam_message] and gets back. *)
Lemma endpoint_turn
    (o : SetOrder) (w : World) (request : AnalyzeRequest) (st : Sessions) :
  exists reply s',
    process_scam_message o w (payload_text (request_message request))
      (request_sessionId request)
      (Some (map history_dict
               (default [] (request_conversationHistory request))))
      DEFAULT_PERSONA st
    = (<[request_sessionId request := s']> st, Success reply,
       (process_scam_message o w (payload_text (request_message request))
          (request_sessionId request)
          (Some (map history_dict
                   (default [] (request_conversationHistory request))))
          DEFAULT_PERSONA st).2) /\
    last (messages s')
      = Some {| role := txt "user"; content := reply;
                timestamp := Some (now_out w) |} /\
    (st !! request_sessionId request = None ->
     persona s' = DEFAULT_PERSONA /\
     messages s' =
       map (fun item =>
              {| role := item_sender_field item;
                 content := item_text_field item;
                 timestamp := item_timestamp_field item |})
           (default [] (request_conversationHistory request))
       ++ [{| role := scammer;
              content := payload_text (request_message request);
              timestamp := Some (now_in w) |};
           {| role := txt "user"; content := reply;
              timestamp := Some (now_out w) |}]).
Proof.
  set (sid := request_sessionId request).
  set (items := default [] (request_conversationHistory request)).
  set (m := payload_text (request_message request)).
  rewrite process_scam_message_spec. cbv zeta.
  change (default [] (Some (map history_dict items)))
    with (map history_dict items).
  set (s0 := session_or_new st sid DEFAULT_PERSONA).
  set (sr := if nonempty (map history_dict items) && _ then _ else s0).
  destruct (turn_result o w m sr) as (Hres & Hmsg & Hper & _).
  rewrite Hres. cbn [fst snd].
  eexists _, _. split; [reflexivity|].
  split; [rewrite Hmsg, last_app; reflexivity|].
  intros Hnone.
  assert (H0 : s0 = new_state sid DEFAULT_PERSONA)
    by (unfold s0, session_or_new; by rewrite Hnone).
  assert (Hsr : persona sr = DEFAULT_PERSONA /\
                messages sr = map message_of_item (map history_dict items)).
  { unfold sr. rewrite H0.
    destruct items as [|item items]; [done|].
    cbn [map nonempty andb]. rewrite rebuild_from_history_eq. done. }
  destruct Hsr as (Hp & Hm).
  split; [by rewrite Hper|].
  rewrite Hmsg, Hm, map_map. done.
Qed.

(** X23.  When the endpoint answers with the success shape, every line was
    printed, the record stored under the session id ends with the reply it
    answers, and for a session that was not in the store the record has the
    default persona and its messages are those of the supplied history, with
    their senders, texts and timestamps, then the incoming message and the
    reply.  When printing the request raises, nothing is processed: the
    store is as it was, the classifier is not called and nothing is posted,
    and the answer is not a success. *)
Theorem endpoint_success_means_recorded
    (o : SetOrder) (w : World) (out : Stdout) (request : AnalyzeRequest)
    (st : Sessions) :
  (forall reply,
     (analyze_message o w out request st).1.2 = Returned (Success reply) ->
     request_lines out = None /\ response_line out = None /\
     exists s',
       (analyze_message o w out request st).1.1
         = <[request_sessionId request := s']> st /\
       last (messages s')
         = Some {| role := txt "user"; content := reply;
                   timestamp := Some (now_out w) |} /\
       (st !! request_sessionId request = None ->
        persona s' = DEFAULT_PERSONA /\
        messages s' =
          map (fun item =>
                 {| role := item_sender_field item;
                    content := item_text_field item;
                    timestamp := item_timestamp_field item |})
              (default [] (request_conversationHistory request))
          ++ [{| role := scammer;
                 content := payload_text (request_message request);
                 timestamp := Some (now_in w) |};
              {| role := txt "user"; content := reply;
                 timestamp := Some (now_out w) |}])) /\
  (forall e,
     request_lines out = Some e ->
     (analyze_message o w out request st).1.1 = st /\
     (analyze_message o w out request st).2 = [] /\
     forall reply,
       (analyze_message o w out request st).1.2 <> Returned (Success reply)).
Proof.
  unfold analyze_message, handler. split.
  - intros reply.
    destruct (request_lines out) as [e|].
    { cbn [fst snd]. by destruct (error_line out). }
    cbv zeta.
    destruct (endpoint_turn o w request st) as (reply' & s' & -> & Hlast & Hnew).
    destruct (response_line out) as [e|].
    { cbn [fst snd]. by destruct (error_line out). }
    cbn [fst snd]. intros [= <-]. split_and!; [done|done|].
    exists s'. split_and!; done.
  - intros e ->. cbn [fst snd]. split_and!; [done|done|].
    intros reply. by destruct (error_line out).
Qed.
